(** * win-ctrl-mcp: display classifier, focus presets and window tools

    A shallow embedding of the parts of [win_ctrl_mcp] that classify the
    display configuration ([tools/display.py]), store and re-apply focus
    presets ([tools/focus.py]), act on windows, workspaces and layouts
    ([tools/window.py], [tools/layout.py]), talk to the AeroSpace command
    line ([aerospace.py]) and answer the requests of the server
    ([server.py]).

    Python dictionaries used as structs are records whose fields are
    [option]s ([None] is a missing key, the case [dict.get] covers);
    dictionaries used as maps are [gmap]s.  A Python number is the rational
    it denotes: every finite binary64 value and every [int] is a rational,
    and Python compares an [int] with a [float] exactly. *)

From Stdlib Require Import ZArith QArith Lia Lqa.
From stdpp Require Import gmap strings list pretty.

Local Open Scope string_scope.
Local Open Scope Z_scope.
Local Open Scope list_scope.

(** The double-quote character, which the inch marks of the category
    descriptions need. *)
Definition dq : string := String (Ascii.ascii_of_nat 34) EmptyString.

(** ** [tools/display.py] *)

Module Display.

(** A display descriptor as [get_display_info] builds it and as the tests
    hand it to the classifier: every key may be missing. *)
Record display := {
  id : option Z;
  name : option string;
  resolution : option (gmap string Z);
  effective_resolution : option (gmap string Z);
  scale_factor : option Q;
  size_inches : option Q;
  ppi : option Z;
  is_primary : option bool;
  is_builtin : option bool;
}.

(** [d.get(key) or other]: an empty dictionary is falsy. *)
Definition dict_or (d : option (gmap string Z)) (other : gmap string Z)
  : gmap string Z :=
  match d with
  | Some r => if decide (r = ∅) then other else r
  | None => other
  end.

(** [display.get("effective_resolution") or display.get("resolution", {})] *)
Definition resolution_of (d : display) : gmap string Z :=
  dict_or (effective_resolution d) (default ∅ (resolution d)).

(** [resolution.get("width", 0) * resolution.get("height", 0)] *)
Definition total_pixels (r : gmap string Z) : Z :=
  default 0 (r !! "width") * default 0 (r !! "height").

Definition Qgtb (a b : Q) : bool := negb (Qle_bool a b).
Definition Qgeb (a b : Q) : bool := Qle_bool b a.

Definition _calculate_display_category (displays : list display)
  : string * string :=
  let num_displays := Z.of_nat (length displays) in
  if num_displays =? 0 then ("unknown", "No displays detected")
  else if num_displays >=? 3 then
    ("triple_plus",
     "Three or more monitors: focus=primary, reference=secondary, communication=tertiary")
  else if num_displays =? 2 then
    ("dual_display", "Two monitors: focus on primary, reference on secondary")
  else
    match displays with
    | [] => ("unknown", "No displays detected") (* not reached: the length is 1 *)
    | display :: _ =>
        let resolution := resolution_of display in
        let total_pixels := total_pixels resolution in
        let size_inches := default 0%Q (size_inches display) in
        if Qgtb size_inches 0 then
          if Qgeb size_inches 27 then
            ("large_single",
             "Large single display (27" +:+ dq +:+ "+): centered focus with flanking reference")
          else if Qgeb size_inches 15 then
            ("medium_single",
             "Medium single display (15-24" +:+ dq +:+ "): 70/30 split with sidebar")
          else
            ("small_single",
             "Small single display (<15" +:+ dq +:+ "): fullscreen focus, workspaces for others")
        else
          if total_pixels >=? 3686400 then
            ("large_single", "Large single display: centered focus with flanking reference")
          else if total_pixels >=? 1036800 then
            ("medium_single", "Medium single display: 70/30 split with sidebar")
          else
            ("small_single", "Small single display: fullscreen focus, workspaces for others")
    end.

Definition _get_size_category (resolution : gmap string Z) : string :=
  let total_pixels := total_pixels resolution in
  if total_pixels >=? 3686400 then "large"
  else if total_pixels >=? 1036800 then "medium"
  else "small".

(** The displays of [tests/test_tools_display.py]: an effective
    resolution and, in some tests, a size; no other key. *)
Definition fixture (width height : Z) (size : option Q) : display :=
  {| id := None; name := None; resolution := None;
     effective_resolution := Some {[ "width" := width; "height" := height ]};
     scale_factor := None; size_inches := size; ppi := None;
     is_primary := None; is_builtin := None |}.

End Display.

(** ** Python values and string operations *)

Module Py.

(** JSON-like values: what the tools put in their responses and in the
    [details] of an error.  A dictionary literal keeps its source order. *)
#[local] Set Warnings "-register-all".
Inductive pyval :=
| VNone
| VBool (b : bool)
| VInt (z : Z)
| VStr (s : string)
| VList (l : list pyval)
| VDict (d : list (string * pyval)).
#[local] Set Warnings "register-all".

Definition pydict := list (string * pyval).

(** [d.get(key)] on a dictionary literal. *)
Fixpoint get {A} (key : string) (d : list (string * A)) : option A :=
  match d with
  | [] => None
  | (k, v) :: d' => if String.eqb k key then Some v else get key d'
  end.

Definition opt_int (z : option Z) : pyval := from_option VInt VNone z.
Definition opt_str (s : option string) : pyval := from_option VStr VNone s.

(** [str(x)] for an integer or [None], and for a string or [None]. *)
Definition str_int (z : option Z) : string := from_option pretty "None" z.
Definition str_str (s : option string) : string := default "None" s.

(** Truthiness of a string or [None]: [None] and the empty string are falsy. *)
Definition truthy (s : option string) : bool :=
  match s with
  | Some (String _ _) => true
  | _ => false
  end.

(** [str.lower()] on ASCII text: [A]..[Z] move to [a]..[z]. *)
Definition lower_ascii (c : Ascii.ascii) : Ascii.ascii :=
  let n := Ascii.nat_of_ascii c in
  if ((65 <=? n) && (n <=? 90))%nat then Ascii.ascii_of_nat (n + 32) else c.

Fixpoint lower (s : string) : string :=
  match s with
  | "" => ""
  | String c s' => String (lower_ascii c) (lower s')
  end.

(** [sub in s] on strings: [sub] occurs in [s] as a contiguous substring. *)
Fixpoint contains (sub s : string) : bool :=
  String.prefix sub s ||
  match s with
  | "" => false
  | String _ s' => contains sub s'
  end.

(** [x in xs] on a list of strings. *)
Definition mem (x : string) (xs : list string) : bool := bool_decide (x ∈ xs).

(** [s.isdigit()] and [int(s)] on ASCII digits. *)
Definition is_digit (c : Ascii.ascii) : bool :=
  let n := Ascii.nat_of_ascii c in ((48 <=? n) && (n <=? 57))%nat.

Fixpoint all_digits (s : string) : bool :=
  match s with
  | "" => true
  | String c s' => is_digit c && all_digits s'
  end.

Definition isdigit (s : string) : bool :=
  match s with
  | "" => false
  | _ => all_digits s
  end.

Fixpoint int_acc (acc : Z) (s : string) : Z :=
  match s with
  | "" => acc
  | String c s' => int_acc (10 * acc + (Z.of_nat (Ascii.nat_of_ascii c) - 48)) s'
  end.

Definition int (s : string) : Z := int_acc 0 s.

End Py.

(** ** The data the tools exchange *)

(** A window as [aerospace list-windows --json] describes it. *)
Module Window.
Record t := {
  window_id : option Z;       (* "window-id" *)
  app_name : option string;   (* "app-name" *)
  title : option string;
  workspace : option string;
  monitor : option string;
  is_focused : option bool;   (* "is-focused" *)
}.

(** The dictionary with no key is the only falsy one. *)
Definition truthy (w : t) : bool :=
  bool_decide (is_Some (window_id w)) || bool_decide (is_Some (app_name w))
  || bool_decide (is_Some (title w)) || bool_decide (is_Some (workspace w))
  || bool_decide (is_Some (monitor w)) || bool_decide (is_Some (is_focused w)).
End Window.

(** A monitor as [aerospace list-monitors --json] describes it. *)
Module Monitor.
Record t := { name : option string }.
End Monitor.

(** One display of [system_profiler SPDisplaysDataType], as
    [_get_system_display_info] builds it: [name], the flags and
    [resolution] are always set, [native_resolution] only when the pixel
    string parses. *)
Module SystemDisplay.
Record t := {
  name : string;
  is_builtin : bool;
  is_main : bool;
  resolution : gmap string Z;
  native_resolution : option (gmap string Z);
}.
End SystemDisplay.

(** One entry of a preset's ["windows"] list. *)
Module PresetWindow.
Record t := {
  app_name : option string;
  workspace : option string;
  is_focused : bool;
}.
End PresetWindow.

(** The document of a preset file. *)
Module Preset.
Record t := {
  name : string;
  description : string;
  display_category : option string;
  created_at : string;
  windows : list PresetWindow.t;
  monitors : list (option string);
}.
End Preset.

(** ** The world outside the program *)

(** How a child process ended: with its decoded and stripped output streams
    and its exit status, or not at all because the executable is missing
    ([FileNotFoundError]). *)
Inductive proc_result :=
| Exited (stdout stderr : string) (returncode : Z)
| NoExecutable.

(** Everything the program reaches through a subprocess, the environment or
    the clock.  [wm] is the state of the machine (window manager included);
    running a command may change it in any way. *)
Class World := {
  wm : Type;
  (** [asyncio.create_subprocess_exec] on the argument vector, then
      [communicate()] *)
  aerospace_cli : list string → wm → proc_result * wm;
  (** [os.environ.get("PATH", "")] *)
  environ_PATH : string;
  (** [_get_system_display_info()]: the displays [system_profiler] reports,
      the empty list when it fails *)
  _get_system_display_info : wm → list SystemDisplay.t * wm;
  (** [datetime.now(timezone.utc).isoformat()] *)
  utcnow_isoformat : wm → string * wm;
  (** [json.loads] on the output of [list-windows] and of [list-monitors];
      [None] when the text is not JSON *)
  json_windows : string → option (list Window.t);
  json_monitors : string → option (list Monitor.t);
}.

(** Binary64 arithmetic as Python performs it, on the rationals that the
    floats denote. *)
Class Binary64 := {
  truediv : Z → Z → Q;          (* [a / b] on two ints *)
  fmul : Q → Q → Q;             (* [x * y] *)
  fadd : Q → Q → Q;             (* [x + y] *)
  fpow : Q → Q → Q;             (* [x ** y] *)
  round_ndigits : Q → Z → Q;    (* [round(x, ndigits)] *)
}.

(** ** Exceptions and the monad of the tools *)

Inductive exn :=
| AeroSpaceError (code message : string) (details : Py.pydict)
| JSONDecodeError.

(** One call of the command line: the argument vector and how it ended. *)
Definition call : Type := list string * proc_result.

(** The state the tools run in.  A preset name is the stem of a file
    directly under [PRESET_DIR] (no path separator in it), and every file
    there holds a preset document that [json.load] reads back as written. *)
Record state `{World} := {
  ext : wm;
  (** [PRESET_DIR]: [None] while the directory does not exist, else the
      preset documents keyed by file stem *)
  preset_dir : option (gmap string Preset.t);
  (** the calls made so far, oldest first *)
  calls : list call;
}.

Definition M `{World} (A : Type) : Type := state → (exn + A) * state.

#[global] Instance M_ret `{World} : MRet M := λ A a s, (inr a, s).

#[global] Instance M_bind `{World} : MBind M :=
  λ A B k m s, match m s with
               | (inr a, s') => k a s'
               | (inl e, s') => (inl e, s')
               end.

Definition raise `{World} {A} (e : exn) : M A := λ s, (inl e, s).

(** [try: body  except AeroSpaceError: pass], where [body] ends by updating
    a local variable: the variable keeps its value [old] when an
    [AeroSpaceError] cuts the body short.  What the body did to the world
    before the error stays done. *)
Definition try_except `{World} {A} (body : M A) (old : A) : M A :=
  λ s, match body s with
       | (inl (AeroSpaceError _ _ _), s') => (inr old, s')
       | r => r
       end.

(** A [for] loop that threads its local variables through the body. *)
Fixpoint for_each `{World} {A B} (xs : list A) (body : B → A → M B) (acc : B) : M B :=
  match xs with
  | [] => mret acc
  | x :: xs' => acc' ← body acc x; for_each xs' body acc'
  end.

(** ** [aerospace.py] *)

Definition ERROR_AEROSPACE_NOT_RUNNING := "AEROSPACE_NOT_RUNNING".
Definition ERROR_WINDOW_NOT_FOUND := "WINDOW_NOT_FOUND".
Definition ERROR_NO_WINDOW_FOCUSED := "NO_WINDOW_FOCUSED".
Definition ERROR_COMMAND_FAILED := "COMMAND_FAILED".

Section Aerospace.
Context `{World}.

Definition run_aerospace_command (args : list string) (json_output check : bool)
  : M (string * string * Z) :=
  λ s,
    let cmd := "aerospace" :: args ++ (if json_output then ["--json"] else []) in
    let '(r, e) := aerospace_cli cmd (ext s) in
    let s' := {| ext := e; preset_dir := preset_dir s; calls := calls s ++ [(cmd, r)] |} in
    match r with
    | Exited stdout_str stderr_str returncode =>
        if check && negb (returncode =? 0) then
          if negb (Py.contains "aerospace" environ_PATH) && (returncode =? 127) then
            (inl (AeroSpaceError ERROR_AEROSPACE_NOT_RUNNING
                    "AeroSpace CLI not found. Please ensure AeroSpace is installed and in PATH."
                    [("suggestion",
                      Py.VStr "Install AeroSpace from https://nikitabobko.github.io/AeroSpace/")]),
             s')
          else
            (inl (AeroSpaceError ERROR_COMMAND_FAILED
                    ("AeroSpace command failed: " +:+
                     (if Py.truthy (Some stderr_str) then stderr_str else stdout_str))
                    [("command", Py.VList (Py.VStr <$> cmd));
                     ("return_code", Py.VInt returncode);
                     ("stderr", Py.VStr stderr_str)]),
             s')
        else (inr (stdout_str, stderr_str, returncode), s')
    | NoExecutable =>
        (inl (AeroSpaceError ERROR_AEROSPACE_NOT_RUNNING
                "AeroSpace daemon is not running. Please start it first."
                [("suggestion",
                  Py.VStr "Run 'aerospace start' or launch AeroSpace from Applications")]),
         s')
    end.

(** [json.loads(stdout)], raising when the text does not parse. *)
Definition loads {A} (decode : string → option A) (stdout : string) : M A :=
  match decode stdout with
  | Some a => mret a
  | None => raise JSONDecodeError
  end.

Definition list_windows (workspace monitor : option string) (all_windows : bool)
  : M (list Window.t) :=
  let args :=
    ["list-windows"] ++ (if all_windows then ["--all"] else [])
    ++ (if Py.truthy workspace then ["--workspace"; default "" workspace] else [])
    ++ (if Py.truthy monitor then ["--monitor"; default "" monitor] else []) in
  '(stdout, _, _) ← run_aerospace_command args true true;
  if Py.truthy (Some stdout) then loads json_windows stdout else mret [].

Definition list_monitors : M (list Monitor.t) :=
  '(stdout, _, _) ← run_aerospace_command ["list-monitors"] true true;
  if Py.truthy (Some stdout) then loads json_monitors stdout else mret [].

Definition get_focused_window : M (option Window.t) :=
  '(stdout, _, code) ← run_aerospace_command ["list-windows"; "--focused"] true false;
  if negb (code =? 0) || negb (Py.truthy (Some stdout)) then mret None
  else windows ← loads json_windows stdout; mret (head windows).

Definition get_window_by_id (window_id : Z) : M (option Window.t) :=
  windows ← list_windows None None true;
  mret (find (λ window, bool_decide (Window.window_id window = Some window_id)) windows).

End Aerospace.

(** ** [tools/display.py], the part that asks the world *)

Module DisplayInfo.
Record t := {
  displays : list Display.display;
  arrangement : string;
  total_effective_pixels : Z;
  category : string;
}.
End DisplayInfo.

Module DisplayCategory.
Record t := {
  category : string;
  primary_size : string;
  secondary_sizes : list string;
  recommended_strategy : string;
  description : string;
}.
End DisplayCategory.

Definition strategies : list (string * string) :=
  [("small_single", "fullscreen_focus");
   ("medium_single", "split_sidebar");
   ("large_single", "centered_focus");
   ("dual_display", "primary_focus_secondary_reference");
   ("triple_plus", "dedicated_monitors")].

Section DisplayTools.
Context `{World} `{Binary64}.

(** The test of the matching loop of [get_display_info] on one system
    display; the loop keeps the first display that passes it. *)
Definition matches_system_display (display_name : string) (sd : SystemDisplay.t) : bool :=
  Py.contains (SystemDisplay.name sd) display_name
  || Py.contains display_name (SystemDisplay.name sd)
  || (SystemDisplay.is_builtin sd && Py.contains "built-in" (Py.lower display_name)).

(** [native and effective and effective.get("width")] *)
Definition has_scale (native : option (gmap string Z)) (effective : gmap string Z) : bool :=
  match native with
  | Some n =>
      negb (bool_decide (n = ∅)) && negb (bool_decide (effective = ∅))
      && negb (default 0 (effective !! "width") =? 0)
  | None => false
  end.

(** The size estimate of lines 204-219: the pixel density, then the
    diagonal of a 16:10 panel of that width. *)
Definition estimate_ppi (is_builtin : bool) (scale_factor : Q) : Z :=
  let ppi := if is_builtin then 220 else 110 in
  if Display.Qgtb scale_factor 1 then 220 else ppi.

Definition estimate_size (width_px ppi : Z) : Q * Z :=
  if (ppi >? 0) && (width_px >? 0) then
    let width_inches := truediv width_px ppi in
    let height_inches := fmul width_inches 0.625 in
    let diagonal := fpow (fadd (fpow width_inches 2) (fpow height_inches 2)) 0.5 in
    (round_ndigits diagonal 1, ppi)
  else (0%Q, 0).

(** The body of the loop over [enumerate(monitors)]. *)
Definition merge_display (i : nat) (monitor : Monitor.t)
    (system_displays : list SystemDisplay.t) : Display.display :=
  let id := Z.of_nat i + 1 in
  let name := default ("Display " +:+ pretty id) (Monitor.name monitor) in
  match find (matches_system_display name) system_displays with
  | Some system_display =>
      let resolution := SystemDisplay.resolution system_display in
      let native := SystemDisplay.native_resolution system_display in
      let effective := SystemDisplay.resolution system_display in
      let '(scale_factor, effective_resolution) :=
        if has_scale native effective then
          (round_ndigits
             (truediv (default 0 (default ∅ native !! "width"))
                      (default 1 (effective !! "width"))) 1,
           effective)
        else (1%Q, resolution) in
      let ppi := estimate_ppi (SystemDisplay.is_builtin system_display) scale_factor in
      let '(size_inches, ppi) := estimate_size (default 0 (resolution !! "width")) ppi in
      {| Display.id := Some id;
         Display.name := Some name;
         Display.resolution := Some resolution;
         Display.effective_resolution := Some effective_resolution;
         Display.scale_factor := Some scale_factor;
         Display.size_inches := Some size_inches;
         Display.ppi := Some ppi;
         Display.is_primary := Some (SystemDisplay.is_main system_display);
         Display.is_builtin := Some (SystemDisplay.is_builtin system_display) |}
  | None =>
      {| Display.id := Some id;
         Display.name := Some name;
         Display.resolution := Some {[ "width" := 0; "height" := 0 ]};
         Display.effective_resolution := Some {[ "width" := 0; "height" := 0 ]};
         Display.scale_factor := Some 1%Q;
         Display.size_inches := Some 0%Q;
         Display.ppi := Some 0;
         Display.is_primary := Some (bool_decide (i = 0%nat));
         Display.is_builtin := Some false |}
  end.

(** The call of [_get_system_display_info], which never raises an
    [AeroSpaceError] and makes no call of the AeroSpace command line. *)
Definition system_display_info : M (list SystemDisplay.t) :=
  λ s,
    let '(system_displays, e) := _get_system_display_info (ext s) in
    (inr system_displays, {| ext := e; preset_dir := preset_dir s; calls := calls s |}).

Definition get_display_info : M DisplayInfo.t :=
  monitors ← list_monitors;
  system_displays ← system_display_info;
  let displays := imap (λ i monitor, merge_display i monitor system_displays) monitors in
  let arrangement :=
    if (length displays =? 1)%nat then "single"
    else if (length displays =? 2)%nat then "horizontal"
    else "multiple" in
  let total_pixels :=
    foldr Z.add 0
      ((λ d, Display.total_pixels (default ∅ (Display.effective_resolution d))) <$> displays) in
  let '(category, _) := Display._calculate_display_category displays in
  mret {| DisplayInfo.displays := displays;
          DisplayInfo.arrangement := arrangement;
          DisplayInfo.total_effective_pixels := total_pixels;
          DisplayInfo.category := category |}.

Definition get_display_category : M DisplayCategory.t :=
  display_info ← get_display_info;
  let displays := DisplayInfo.displays display_info in
  let '(category, description) := Display._calculate_display_category displays in
  let is_primary d := default false (Display.is_primary d) in
  let '(primary_size, secondary_sizes) :=
    match displays with
    | [] => ("medium", [])
    | first :: _ =>
        let primary_display := default first (find is_primary displays) in
        (Display._get_size_category (Display.resolution_of primary_display),
         (λ d, Display._get_size_category (Display.resolution_of d))
           <$> filter (λ d, is_primary d = false) displays)
    end in
  mret {| DisplayCategory.category := category;
          DisplayCategory.primary_size := primary_size;
          DisplayCategory.secondary_sizes := secondary_sizes;
          DisplayCategory.recommended_strategy :=
            default "fullscreen_focus" (Py.get category strategies);
          DisplayCategory.description := description |}.

End DisplayTools.

(** ** [tools/focus.py] *)

Definition APP_CATEGORIES : list (string * list string) :=
  [("communication",
    ["Slack"; "Discord"; "Mail"; "Messages"; "Microsoft Teams"; "Zoom"; "Telegram";
     "WhatsApp"; "Signal"]);
   ("development",
    ["Visual Studio Code"; "Code"; "Xcode"; "Terminal"; "iTerm"; "iTerm2";
     "IntelliJ IDEA"; "PyCharm"; "WebStorm"; "Android Studio"; "Sublime Text"; "Atom";
     "Vim"; "Neovim"; "Emacs"]);
   ("reference",
    ["Google Chrome"; "Chrome"; "Safari"; "Firefox"; "Arc"; "Notes"; "Notion";
     "Obsidian"; "Evernote"; "Bear"; "Preview"; "Finder"]);
   ("media",
    ["Spotify"; "Music"; "Apple Music"; "YouTube"; "VLC"; "Photos"; "QuickTime Player";
     "IINA"])].

(** [app_name in apps or any(app.lower() in app_name.lower() for app in apps)] *)
Definition in_apps (app_name : string) (apps : list string) : bool :=
  Py.mem app_name apps
  || existsb (λ app, Py.contains (Py.lower app) (Py.lower app_name)) apps.

Definition _get_app_category (app_name : string) : option string :=
  fst <$> find (λ '(_, apps), in_apps app_name apps) APP_CATEGORIES.

Definition preset_map : list (string * string) :=
  [("small_single", "small_single_focus");
   ("medium_single", "medium_split");
   ("large_single", "large_centered");
   ("dual_display", "dual_monitor_focus");
   ("triple_plus", "triple_monitor_focus")].

(** The block "Determine which preset to use" of [apply_focus_preset]. *)
Definition resolve_preset (preset category : string) : string :=
  if String.eqb preset "auto" then default "medium_split" (Py.get category preset_map)
  else preset.

Definition layout_map : list (string * string) :=
  [("tiled", "h_tiles"); ("accordion", "h_accordion"); ("stacked", "v_accordion")].

(** The entry that [save_focus_preset] appends to [windows_list] for a
    live window. *)
Definition snapshot (window : Window.t) : PresetWindow.t :=
  {| PresetWindow.app_name := Window.app_name window;
     PresetWindow.workspace := Window.workspace window;
     PresetWindow.is_focused := default false (Window.is_focused window) |}.

Section FocusTools.
Context `{World} `{Binary64}.

(** The document stored under a preset name, if the file exists. *)
Definition stored (s : state) (name : string) : option Preset.t :=
  preset_dir s ≫= (.!! name).

(** [(PRESET_DIR / f"{name}.json").exists()], and reading that file. *)
Definition read_preset (name : string) : M (option Preset.t) :=
  λ s, (inr (stored s name), s).

(** [[f.stem for f in PRESET_DIR.glob("*.json")]] when the directory
    exists, else the empty list. *)
Definition available_presets : M (list string) :=
  λ s, (inr (from_option (λ dir, (map_to_list dir).*1) [] (preset_dir s)), s).

(** [PRESET_DIR.mkdir(parents=True, exist_ok=True)], then [json.dump] to
    the file of the preset. *)
Definition write_preset (name : string) (preset_data : Preset.t) : M unit :=
  λ s, (inr tt,
        {| ext := ext s;
           preset_dir := Some (<[name := preset_data]> (default ∅ (preset_dir s)));
           calls := calls s |}).

Definition now : M string :=
  λ s, let '(t, e) := utcnow_isoformat (ext s) in
       (inr t, {| ext := e; preset_dir := preset_dir s; calls := calls s |}).

Definition focus_window_id_cmd (window_id : option Z) : M unit :=
  run_aerospace_command ["focus"; "--window-id"; Py.str_int window_id] false true;;
  mret tt.

Definition command (args : list string) : M unit :=
  run_aerospace_command args false true;; mret tt.

(** The inner loop of [load_focus_preset], which runs to the first live
    window whose ["app-name"] equals the recorded name and stops there
    ([break]). *)
Definition first_live (all_windows : list Window.t) (app_name : option string)
  : option Window.t :=
  find (λ window, bool_decide (Window.app_name window = app_name)) all_windows.

(** The body of the outer loop of [load_focus_preset]. *)
Definition arrange_entry (all_windows : list Window.t) (windows_arranged : Z)
    (preset_window : PresetWindow.t) : M Z :=
  let app_name := PresetWindow.app_name preset_window in
  let workspace := PresetWindow.workspace preset_window in
  match first_live all_windows app_name with
  | Some window =>
      try_except
        (focus_window_id_cmd (Window.window_id window);;
         (if Py.truthy workspace
          then command ["move-node-to-workspace"; default "" workspace]
          else mret tt);;
         mret (windows_arranged + 1))
        windows_arranged
  | None => mret windows_arranged
  end.

(** The response of a successful [load_focus_preset]. *)
Definition load_response (name : string) (adapted : bool) (windows_arranged : Z)
  : Py.pydict :=
  [("success", Py.VBool true);
   ("preset_loaded", Py.VStr name);
   ("adapted", Py.VBool adapted);
   ("windows_arranged", Py.VInt windows_arranged)].

Definition load_focus_preset (name : string) (adapt_to_displays : bool) : M Py.pydict :=
  file ← read_preset name;
  match file with
  | None =>
      available ← available_presets;
      raise (AeroSpaceError "PRESET_NOT_FOUND"
               ("Preset '" +:+ name +:+ "' not found")
               [("available_presets", Py.VList (Py.VStr <$> available))])
  | Some preset_data =>
      display_cat ← get_display_category;
      let current_category := Some (DisplayCategory.category display_cat) in
      let saved_category := Preset.display_category preset_data in
      if bool_decide (current_category ≠ saved_category) && negb adapt_to_displays then
        raise (AeroSpaceError "DISPLAY_MISMATCH"
                 ("Display configuration changed from '" +:+ Py.str_str saved_category
                  +:+ "' to '" +:+ Py.str_str current_category +:+ "'")
                 [("suggestion", Py.VStr "Set adapt_to_displays=True to adapt the preset")])
      else
        let adapted := bool_decide (current_category ≠ saved_category) in
        all_windows ← list_windows None None true;
        windows_arranged ←
          for_each (Preset.windows preset_data) (arrange_entry all_windows) 0;
        mret (load_response name adapted windows_arranged)
  end.

Definition save_focus_preset (name : string) (description : option string) : M Py.pydict :=
  display_cat ← get_display_category;
  all_windows ← list_windows None None true;
  monitors ← list_monitors;
  created_at ← now;
  let windows_list := snapshot <$> all_windows in
  let preset_data :=
    {| Preset.name := name;
       Preset.description :=
         if Py.truthy description then default "" description
         else "Focus preset: " +:+ name;
       Preset.display_category := Some (DisplayCategory.category display_cat);
       Preset.created_at := created_at;
       Preset.windows := windows_list;
       Preset.monitors := Monitor.name <$> monitors |} in
  write_preset name preset_data;;
  mret [("success", Py.VBool true);
        ("preset",
         Py.VDict
           [("name", Py.VStr name);
            ("description", Py.VStr (Preset.description preset_data));
            ("display_category", Py.VStr (DisplayCategory.category display_cat));
            ("created_at", Py.VStr created_at);
            ("window_count", Py.VInt (Z.of_nat (length all_windows)))])].


(** The [WINDOW_NOT_FOUND] error that the tools share: it lists the
    identifiers of the live windows. *)
Definition raise_window_not_found {A} (window_id : Z) : M A :=
  available ← list_windows None None true;
  let available_ids := (λ w, Py.opt_int (Window.window_id w)) <$> available in
  raise (AeroSpaceError ERROR_WINDOW_NOT_FOUND
           ("Window with ID " +:+ pretty window_id +:+ " not found")
           [("requested_window_id", Py.VInt window_id);
            ("available_windows", Py.VList available_ids)]).

Definition raise_no_window_focused {A} : M A :=
  raise (AeroSpaceError ERROR_NO_WINDOW_FOCUSED
           "No window is currently focused"
           [("suggestion", Py.VStr "Focus a window first")]).

(** The sorting loop of [apply_focus_preset] (lines 201-212), one list at
    a time. *)
Definition is_reference_window (focus_window_id : option Z) (reference_apps : list string)
    (window : Window.t) : bool :=
  let app_name := default "" (Window.app_name window) in
  negb (bool_decide (Window.window_id window = focus_window_id))
  && (Py.mem app_name reference_apps
      || bool_decide (_get_app_category app_name = Some "reference")).

Definition is_hidden_window (focus_window_id : option Z) (reference_apps : list string)
    (hide_communication : bool) (window : Window.t) : bool :=
  let app_name := default "" (Window.app_name window) in
  negb (bool_decide (Window.window_id window = focus_window_id))
  && negb (Py.mem app_name reference_apps
           || bool_decide (_get_app_category app_name = Some "reference"))
  && hide_communication
  && bool_decide (_get_app_category app_name = Some "communication").

(** The loop that moves the reference windows to the next monitor. *)
Definition move_reference (acc : list Py.pyval) (ref_win : Window.t) : M (list Py.pyval) :=
  try_except
    (focus_window_id_cmd (Window.window_id ref_win);;
     command ["move-node-to-monitor"; "next"];;
     mret (acc ++ [Py.VDict [("window_id", Py.opt_int (Window.window_id ref_win));
                             ("monitor", Py.VInt 2);
                             ("arrangement", Py.VStr "tiled")]]))
    acc.

(** The loop that hides the communication windows. *)
Definition hide_window (acc : list Py.pyval) (hidden_win : Window.t) : M (list Py.pyval) :=
  try_except
    (focus_window_id_cmd (Window.window_id hidden_win);;
     command ["move-node-to-workspace"; "communication"];;
     mret (acc ++ [Py.VDict [("window_id", Py.opt_int (Window.window_id hidden_win));
                             ("moved_to_workspace", Py.VStr "communication")]]))
    acc.

(** The layout of each built-in preset: the arrangement it reports for the
    focus window and the reference windows it reports as moved. *)
Definition apply_layout (preset : string) (monitors : list Monitor.t)
    (reference_windows : list Window.t) : M (string * list Py.pyval) :=
  if String.eqb preset "small_single_focus" then
    command ["fullscreen"];; mret ("fullscreen", [])
  else if String.eqb preset "medium_split" then
    command ["layout"; "h_tiles"];;
    command ["resize"; "width"; "+30%"];;
    mret ("tiled_70", [])
  else if String.eqb preset "large_centered" then
    command ["layout"; "h_tiles"];; mret ("centered", [])
  else if String.eqb preset "dual_monitor_focus" then
    if (2 <=? length monitors)%nat then
      command ["fullscreen"];;
      moved ← for_each reference_windows move_reference [];
      mret ("fullscreen", moved)
    else mret ("normal", [])
  else if String.eqb preset "triple_monitor_focus" then
    if (3 <=? length monitors)%nat then
      command ["fullscreen"];; mret ("fullscreen", [])
    else mret ("normal", [])
  else mret ("normal", []).

Definition apply_focus_preset (preset : string) (focus_window_id : option Z)
    (reference_apps : option (list string)) (hide_communication : bool) : M Py.pydict :=
  display_cat ← get_display_category;
  let category := DisplayCategory.category display_cat in
  let preset := resolve_preset preset category in
  saved ← read_preset preset;
  if bool_decide (is_Some saved) then load_focus_preset preset true
  else
    focus_window_id ←
      match focus_window_id with
      | Some window_id =>
          focus_win ← get_window_by_id window_id;
          match focus_win with
          | None => raise_window_not_found window_id
          | Some _ => mret (Some window_id)
          end
      | None =>
          focus_win ← get_focused_window;
          match focus_win with
          | None => raise_no_window_focused
          | Some focus_win => mret (Window.window_id focus_win)
          end
      end;
    all_windows ← list_windows None None true;
    monitors ← list_monitors;
    let reference_apps := default [] reference_apps in
    let reference_windows :=
      filter (λ w, is_reference_window focus_window_id reference_apps w = true)
             all_windows in
    let hidden_windows :=
      filter (λ w, is_hidden_window focus_window_id reference_apps hide_communication w
                   = true)
             all_windows in
    focus_window_id_cmd focus_window_id;;
    '(arrangement, moved) ← apply_layout preset monitors reference_windows;
    hidden ←
      (if hide_communication then for_each hidden_windows hide_window [] else mret []);
    focus_window_id_cmd focus_window_id;;
    mret [("success", Py.VBool true);
          ("preset_applied", Py.VStr preset);
          ("display_category", Py.VStr category);
          ("layout",
           Py.VDict
             [("focus_window",
               Py.VDict [("window_id", Py.opt_int focus_window_id);
                         ("monitor", Py.VInt 1);
                         ("arrangement", Py.VStr arrangement)]);
              ("reference_windows", Py.VList moved);
              ("hidden_windows", Py.VList hidden)])].

(** The choice of the target monitor in [move_app_category_to_monitor]. *)
Definition target_monitor_of (monitor : string) (monitors : list Monitor.t)
  : option string :=
  if String.eqb monitor "primary" then monitors !! 0%nat ≫= Monitor.name
  else if String.eqb monitor "secondary" && (2 <=? length monitors)%nat then
    monitors !! 1%nat ≫= Monitor.name
  else if String.eqb monitor "tertiary" && (3 <=? length monitors)%nat then
    monitors !! 2%nat ≫= Monitor.name
  else if Py.isdigit monitor then
    let idx := Py.int monitor - 1 in
    if (0 <=? idx) && (idx <? Z.of_nat (length monitors)) then
      monitors !! Z.to_nat idx ≫= Monitor.name
    else None
  else None.

(** The body of the loop over the live windows in
    [move_app_category_to_monitor]. *)
Definition move_window_of_category (category_apps : list string) (target_monitor : string)
    (windows_moved : list (option Z * string)) (window : Window.t)
  : M (list (option Z * string)) :=
  let app_name := default "" (Window.app_name window) in
  if in_apps app_name category_apps then
    try_except
      (focus_window_id_cmd (Window.window_id window);;
       command ["move-node-to-monitor"; target_monitor];;
       mret (windows_moved ++ [(Window.window_id window, app_name)]))
      windows_moved
  else mret windows_moved.

Definition move_app_category_to_monitor (category monitor layout : string) : M Py.pydict :=
  match Py.get category APP_CATEGORIES with
  | None =>
      raise (AeroSpaceError "INVALID_PARAMETERS"
               ("Invalid category '" +:+ category +:+ "'")
               [("valid_options", Py.VList (Py.VStr <$> APP_CATEGORIES.*1))])
  | Some category_apps =>
      if negb (Py.mem layout ["tiled"; "accordion"; "stacked"]) then
        raise (AeroSpaceError "INVALID_PARAMETERS"
                 ("Invalid layout '" +:+ layout +:+ "'")
                 [("valid_options",
                   Py.VList (Py.VStr <$> ["tiled"; "accordion"; "stacked"]))])
      else
        monitors ← list_monitors;
        match monitors with
        | [] => raise (AeroSpaceError "NO_MONITORS" "No monitors found" [])
        | _ =>
            let target_monitor := target_monitor_of monitor monitors in
            if negb (Py.truthy target_monitor) then
              raise (AeroSpaceError "MONITOR_NOT_FOUND"
                       ("Monitor '" +:+ monitor +:+ "' not found")
                       [("available_monitors",
                         Py.VList ((λ m, Py.opt_str (Monitor.name m)) <$> monitors))])
            else
              let target_monitor := default "" target_monitor in
              all_windows ← list_windows None None true;
              windows_moved ←
                for_each all_windows
                  (move_window_of_category category_apps target_monitor) [];
              match windows_moved with
              | [] => mret tt
              | (first_id, _) :: _ =>
                  let aerospace_layout := default "h_tiles" (Py.get layout layout_map) in
                  try_except
                    (focus_window_id_cmd first_id;;
                     command ["layout"; aerospace_layout])
                    tt
              end;;
              mret [("success", Py.VBool true);
                    ("category", Py.VStr category);
                    ("monitor", Py.VStr monitor);
                    ("windows_moved",
                     Py.VList ((λ '(window_id, app_name),
                                  Py.VDict [("window_id", Py.opt_int window_id);
                                            ("app_name", Py.VStr app_name)])
                                 <$> windows_moved));
                    ("layout_applied", Py.VStr layout)]
        end
  end.

End FocusTools.

(** ** [tools/window.py] *)

Section WindowTools.
Context `{World}.

Definition fullscreen_toggle (window_id : option Z) : M Py.pydict :=
  actual_window_id ←
    match window_id with
    | Some window_id =>
        window ← get_window_by_id window_id;
        match window with
        | None => raise_window_not_found window_id
        | Some _ =>
            focus_window_id_cmd (Some window_id);;
            mret window_id
        end
    | None =>
        focused ← get_focused_window;
        match focused with
        | None => raise_no_window_focused
        | Some focused => mret (default 0 (Window.window_id focused))
        end
    end;
  command ["fullscreen"];;
  updated_window ← get_window_by_id actual_window_id;
  let is_fullscreen :=
    match updated_window with
    | Some w => Window.truthy w
    | None => false
    end in
  mret [("success", Py.VBool true);
        ("window_id", Py.VInt actual_window_id);
        ("fullscreen", Py.VBool is_fullscreen)].

End WindowTools.

(** ** [aerospace.py] and [tools/window.py], the remaining window tools *)

Definition ERROR_INVALID_DIRECTION := "INVALID_DIRECTION".

(** [sorted(VALID_DIRECTIONS)] *)
Definition VALID_DIRECTIONS : list string := ["down"; "left"; "right"; "up"].

Section MoreWindowTools.
Context `{World}.

Definition validate_direction (direction : string) : M unit :=
  if negb (Py.mem direction VALID_DIRECTIONS) then
    raise (AeroSpaceError ERROR_INVALID_DIRECTION
             ("Invalid direction '" +:+ direction
              +:+ "'. Must be one of: down, left, right, up")
             [("provided", Py.VStr direction);
              ("valid_options", Py.VList (Py.VStr <$> VALID_DIRECTIONS))])
  else mret tt.

(** The description of a window that [focus_window] and [close_window]
    put in their responses. *)
Definition window_summary (window_id : Py.pyval) (window : Window.t) : Py.pyval :=
  Py.VDict [("window_id", window_id);
            ("app_name", Py.opt_str (Window.app_name window));
            ("title", Py.VStr (default "" (Window.title window)))].

(** The block "Get the newly focused window" of [focus_window]. *)
Definition focused_response : M Py.pydict :=
  focused ← get_focused_window;
  match focused with
  | None => mret [("success", Py.VBool true); ("focused_window", Py.VNone)]
  | Some focused =>
      mret [("success", Py.VBool true);
            ("focused_window",
             window_summary (Py.opt_int (Window.window_id focused)) focused)]
  end.

Definition focus_window (direction : option string) (window_id : option Z)
  : M Py.pydict :=
  match direction, window_id with
  | None, None =>
      raise (AeroSpaceError "INVALID_PARAMETERS"
               "Either 'direction' or 'window_id' must be provided"
               [("provided_direction", Py.VNone); ("provided_window_id", Py.VNone)])
  | Some direction, Some window_id =>
      raise (AeroSpaceError "INVALID_PARAMETERS"
               "Cannot specify both 'direction' and 'window_id'"
               [("provided_direction", Py.VStr direction);
                ("provided_window_id", Py.VInt window_id)])
  | Some direction, None =>
      validate_direction direction;;
      command ["focus"; direction];;
      focused_response
  | None, Some window_id =>
      window ← get_window_by_id window_id;
      match window with
      | None => raise_window_not_found window_id
      | Some _ => focus_window_id_cmd (Some window_id)
      end;;
      focused_response
  end.

(** The block that [move_window] and [minimize_window] open with (and
    [fullscreen_toggle], where it is written out): the window named, found
    and focused, or else the focused window. *)
Definition target_window (window_id : option Z) : M Z :=
  match window_id with
  | Some window_id =>
      window ← get_window_by_id window_id;
      match window with
      | None => raise_window_not_found window_id
      | Some _ =>
          focus_window_id_cmd (Some window_id);;
          mret window_id
      end
  | None =>
      focused ← get_focused_window;
      match focused with
      | None => raise_no_window_focused
      | Some focused => mret (default 0 (Window.window_id focused))
      end
  end.

Definition move_window (target_type target : string) (window_id : option Z)
  : M Py.pydict :=
  actual_window_id ← target_window window_id;
  (if String.eqb target_type "workspace" then
     command ["move-node-to-workspace"; target]
   else if String.eqb target_type "monitor" then
     command ["move-node-to-monitor"; target]
   else if String.eqb target_type "direction" then
     validate_direction target;;
     command ["move"; target]
   else
     raise (AeroSpaceError "INVALID_PARAMETERS"
              ("Invalid target_type '" +:+ target_type
               +:+ "'. Must be: workspace, monitor, or direction")
              [("provided", Py.VStr target_type);
               ("valid_options",
                Py.VList (Py.VStr <$> ["workspace"; "monitor"; "direction"]))]));;
  mret [("success", Py.VBool true);
        ("window_id", Py.VInt actual_window_id);
        ("moved_to", Py.VDict [("type", Py.VStr target_type); ("name", Py.VStr target)])].

(** [valid_options] is [list] of a set literal: the names are given here in
    the order of the literal, Python gives them in the order of its hashes. *)
Definition resize_window (dimension amount : string) : M Py.pydict :=
  if negb (Py.mem dimension ["smart"; "width"; "height"]) then
    raise (AeroSpaceError "INVALID_PARAMETERS"
             ("Invalid dimension '" +:+ dimension
              +:+ "'. Must be: smart, width, or height")
             [("provided", Py.VStr dimension);
              ("valid_options", Py.VList (Py.VStr <$> ["smart"; "width"; "height"]))])
  else
    focused ← get_focused_window;
    match focused with
    | None => raise_no_window_focused
    | Some focused =>
        command ["resize"; dimension; amount];;
        mret [("success", Py.VBool true);
              ("window_id", Py.opt_int (Window.window_id focused));
              ("resize",
               Py.VDict [("dimension", Py.VStr dimension); ("amount", Py.VStr amount)])]
    end.

Definition close_window (window_id : option Z) : M Py.pydict :=
  closed_window ←
    match window_id with
    | Some window_id =>
        window ← get_window_by_id window_id;
        match window with
        | None => raise_window_not_found window_id
        | Some window =>
            command ["close"; "--window-id"; pretty window_id];;
            mret (window_summary (Py.VInt window_id) window)
        end
    | None =>
        focused ← get_focused_window;
        match focused with
        | None => raise_no_window_focused
        | Some focused =>
            command ["close"];;
            mret (window_summary (Py.opt_int (Window.window_id focused)) focused)
        end
    end;
  mret [("success", Py.VBool true); ("closed_window", closed_window)].

Definition minimize_window (window_id : option Z) : M Py.pydict :=
  actual_window_id ← target_window window_id;
  command ["macos-native-minimize"];;
  mret [("success", Py.VBool true);
        ("window_id", Py.VInt actual_window_id);
        ("minimized", Py.VBool true)].

End MoreWindowTools.

(** ** [aerospace.py] and [tools/layout.py], workspaces and layouts *)

(** A workspace as [aerospace list-workspaces --json] describes it. *)
Module Workspace.
Record t := {
  workspace : option string;
  monitor : option string;
  (** whether the dictionary has further keys *)
  other_keys : bool;
}.

(** The dictionary with no key is the only falsy one. *)
Definition truthy (w : t) : bool :=
  bool_decide (is_Some (workspace w)) || bool_decide (is_Some (monitor w)) || other_keys w.
End Workspace.

(** [json.loads] on the output of [list-workspaces]; [None] when the text
    is not JSON. *)
Class Workspaces := {
  json_workspaces : string → option (list Workspace.t);
}.

Definition ERROR_INVALID_LAYOUT := "INVALID_LAYOUT".

(** [sorted(VALID_LAYOUTS)] *)
Definition VALID_LAYOUTS : list string :=
  ["accordion"; "floating"; "h_accordion"; "h_tiles"; "tiles"; "tiling"; "v_accordion";
   "v_tiles"].

Section LayoutTools.
Context `{World} `{Workspaces}.

Definition validate_layout (layout : string) : M unit :=
  if negb (Py.mem layout VALID_LAYOUTS) then
    raise (AeroSpaceError ERROR_INVALID_LAYOUT
             ("Invalid layout '" +:+ layout
              +:+ "'. Must be one of: accordion, floating, h_accordion, h_tiles, tiles, "
              +:+ "tiling, v_accordion, v_tiles")
             [("provided", Py.VStr layout);
              ("valid_options", Py.VList (Py.VStr <$> VALID_LAYOUTS))])
  else mret tt.

Definition list_workspaces (all_workspaces : bool) (monitor : option string)
    (visible focused : bool) : M (list Workspace.t) :=
  let args :=
    ["list-workspaces"] ++ (if all_workspaces then ["--all"] else [])
    ++ (if Py.truthy monitor then ["--monitor"; default "" monitor] else [])
    ++ (if visible then ["--visible"] else [])
    ++ (if focused then ["--focused"] else []) in
  '(stdout, _, _) ← run_aerospace_command args true true;
  if Py.truthy (Some stdout) then loads json_workspaces stdout else mret [].

Definition get_focused_workspace : M (option Workspace.t) :=
  '(stdout, _, code) ← run_aerospace_command ["list-workspaces"; "--focused"] true false;
  if negb (code =? 0) || negb (Py.truthy (Some stdout)) then mret None
  else workspaces ← loads json_workspaces stdout; mret (head workspaces).

(** The block "current workspace" that [set_layout] and [balance_sizes]
    share: the windows listed for the focused workspace, none when no
    workspace is focused. *)
Definition workspace_windows (workspace : option Workspace.t) : M (list Window.t) :=
  match workspace with
  | Some ws =>
      if Workspace.truthy ws then list_windows (Workspace.workspace ws) None true
      else mret []
  | None => mret []
  end.

Definition set_layout (layout : string) : M Py.pydict :=
  validate_layout layout;;
  command ["layout"; layout];;
  workspace ← get_focused_workspace;
  ws_windows ← workspace_windows workspace;
  mret [("success", Py.VBool true);
        ("layout", Py.VStr layout);
        ("affected_windows",
         Py.VList ((λ w, Py.opt_int (Window.window_id w)) <$> ws_windows))].

(** [valid_options] is [list] of a set literal, given here in the order of
    the literal. *)
Definition split_window (orientation : string) : M Py.pydict :=
  if negb (Py.mem orientation ["horizontal"; "vertical"]) then
    raise (AeroSpaceError "INVALID_PARAMETERS"
             ("Invalid orientation '" +:+ orientation
              +:+ "'. Must be: horizontal or vertical")
             [("provided", Py.VStr orientation);
              ("valid_options", Py.VList (Py.VStr <$> ["horizontal"; "vertical"]))])
  else
    command ["split"; orientation];;
    mret [("success", Py.VBool true); ("split_orientation", Py.VStr orientation)].

Definition flatten_workspace (workspace : option string) : M Py.pydict :=
  (if Py.truthy workspace then command ["workspace"; default "" workspace] else mret tt);;
  command ["flatten-workspace-tree"];;
  current_workspace ← get_focused_workspace;
  let ws_name :=
    if Py.truthy workspace then Py.opt_str workspace
    else
      match current_workspace with
      | Some ws =>
          if Workspace.truthy ws then Py.opt_str (Workspace.workspace ws)
          else Py.VStr "unknown"
      | None => Py.VStr "unknown"
      end in
  mret [("success", Py.VBool true);
        ("workspace", ws_name);
        ("flattened_containers", Py.VInt 1)].

Definition balance_sizes : M Py.pydict :=
  command ["balance-sizes"];;
  workspace ← get_focused_workspace;
  windows ← workspace_windows workspace;
  let name :=
    match workspace with
    | Some ws =>
        if Workspace.truthy ws then Py.opt_str (Workspace.workspace ws)
        else Py.VStr "unknown"
    | None => Py.VStr "unknown"
    end in
  mret [("success", Py.VBool true);
        ("workspace", name);
        ("balanced_windows", Py.VInt (Z.of_nat (length windows)))].

Definition focus_workspace (workspace : string) : M Py.pydict :=
  command ["workspace"; workspace];;
  workspaces ← list_workspaces true None false false;
  let ws_info :=
    find (λ ws, bool_decide (Workspace.workspace ws = Some workspace)) workspaces in
  windows ← list_windows (Some workspace) None true;
  mret [("success", Py.VBool true);
        ("workspace",
         Py.VDict [("name", Py.VStr workspace);
                   ("window_count", Py.VInt (Z.of_nat (length windows)));
                   ("monitor",
                    match ws_info with
                    | Some ws => Py.opt_str (Workspace.monitor ws)
                    | None => Py.VNone
                    end)])].

End LayoutTools.

(** The dictionary that [get_display_category] returns. *)
Definition category_response (dc : DisplayCategory.t) : Py.pydict :=
  [("category", Py.VStr (DisplayCategory.category dc));
   ("primary_size", Py.VStr (DisplayCategory.primary_size dc));
   ("secondary_sizes", Py.VList (Py.VStr <$> DisplayCategory.secondary_sizes dc));
   ("recommended_strategy", Py.VStr (DisplayCategory.recommended_strategy dc));
   ("description", Py.VStr (DisplayCategory.description dc))].

(** ** [server.py] *)

Section Server.
Context `{World} `{Binary64} `{Workspaces}.

(** [str(e)] of an exception that is no [AeroSpaceError]: the text of the
    [JSONDecodeError], which [loads] does not carry. *)
Variable json_error_text : string.

(** [AeroSpaceError.to_dict] *)
Definition to_dict (code message : string) (details : Py.pydict) : Py.pydict :=
  [("success", Py.VBool false);
   ("error",
    Py.VDict [("code", Py.VStr code);
              ("message", Py.VStr message);
              ("details", Py.VDict details)])].

Definition handle_error (e : exn) : Py.pydict :=
  match e with
  | AeroSpaceError code message details => to_dict code message details
  | JSONDecodeError =>
      [("success", Py.VBool false);
       ("error",
        Py.VDict [("code", Py.VStr "UNKNOWN_ERROR");
                  ("message", Py.VStr json_error_text);
                  ("details", Py.VDict [])])]
  end.

(** The body that every [tool_...] function shares:
    [try: return await tool(...)  except Exception as e: return handle_error(e)]. *)
Definition tool (body : M Py.pydict) (s : state) : Py.pydict * state :=
  match body s with
  | (inr response, s') => (response, s')
  | (inl e, s') => (handle_error e, s')
  end.

(** The tools of the server that this development models. *)
Inductive request :=
| FocusWindow (direction : option string) (window_id : option Z)
| FocusWorkspace (workspace : string)
| MoveWindow (target_type target : string) (window_id : option Z)
| ResizeWindow (dimension amount : string)
| CloseWindow (window_id : option Z)
| FullscreenToggle (window_id : option Z)
| MinimizeWindow (window_id : option Z)
| SetLayout (layout : string)
| SplitWindow (orientation : string)
| FlattenWorkspace (workspace : option string)
| BalanceSizes
| GetDisplayCategory
| ApplyFocusPreset (preset : string) (focus_window_id : option Z)
    (reference_apps : option (list string)) (hide_communication : bool)
| SaveFocusPreset (name : string) (description : option string)
| LoadFocusPreset (name : string) (adapt_to_displays : bool)
| MoveAppCategoryToMonitor (category monitor layout : string).

Definition serve (r : request) : state → Py.pydict * state :=
  match r with
  | FocusWindow direction window_id => tool (focus_window direction window_id)
  | FocusWorkspace workspace => tool (focus_workspace workspace)
  | MoveWindow target_type target window_id =>
      tool (move_window target_type target window_id)
  | ResizeWindow dimension amount => tool (resize_window dimension amount)
  | CloseWindow window_id => tool (close_window window_id)
  | FullscreenToggle window_id => tool (fullscreen_toggle window_id)
  | MinimizeWindow window_id => tool (minimize_window window_id)
  | SetLayout layout => tool (set_layout layout)
  | SplitWindow orientation => tool (split_window orientation)
  | FlattenWorkspace workspace => tool (flatten_workspace workspace)
  | BalanceSizes => tool balance_sizes
  | GetDisplayCategory => tool (dc ← get_display_category; mret (category_response dc))
  | ApplyFocusPreset preset focus_window_id reference_apps hide_communication =>
      tool (apply_focus_preset preset focus_window_id reference_apps hide_communication)
  | SaveFocusPreset name description => tool (save_focus_preset name description)
  | LoadFocusPreset name adapt_to_displays =>
      tool (load_focus_preset name adapt_to_displays)
  | MoveAppCategoryToMonitor category monitor layout =>
      tool (move_app_category_to_monitor category monitor layout)
  end.

End Server.

(** ** [tools/focus.py] and [server.py], the optimal width *)

Definition OPTIMAL_DIMENSIONS : list (string * list (string * Z)) :=
  [("code_editor",
    [("min_chars", 80); ("optimal_chars", 120); ("max_chars", 140); ("char_width_px", 10)]);
   ("browser",
    [("min_width_px", 1024); ("optimal_width_px", 1280); ("max_width_px", 1400)]);
   ("terminal",
    [("min_chars", 80); ("optimal_chars", 100); ("max_chars", 120); ("char_width_px", 9)]);
   ("document",
    [("min_chars", 50); ("optimal_chars", 70); ("max_chars", 80); ("char_width_px", 10)]);
   ("communication",
    [("min_width_px", 350); ("optimal_width_px", 450); ("max_width_px", 600)])].

(** [int(x)] on a float: its integer part, toward zero. *)
Definition int_of_float (x : Q) : Z := Z.quot (Qnum x) (Z.pos (Qden x)).

(** How [resize_window_optimal] ends when it raises no [AeroSpaceError]:
    with its response, or with the [ZeroDivisionError] of [/] on a zero
    divisor.  The division stands outside every [try], so that the tool
    ends there. *)
Inductive finished :=
| Returned (response : Py.pydict)
| ZeroDivisionError.

Section OptimalWidth.
Context `{World} `{Binary64}.

(** [str(e)] of an exception that is no [AeroSpaceError] and no
    [ZeroDivisionError]. *)
Variable json_error_text : string.

(** [valid_options] is [list] of a set literal, given here in the order of
    the literal. *)
Definition resize_window_optimal (window_id : option Z) (content_type : string)
    (max_width_percent min_width_percent : Z) : M finished :=
  let valid_types := ["code_editor"; "browser"; "terminal"; "document"; "communication"] in
  if negb (Py.mem content_type valid_types) then
    raise (AeroSpaceError "INVALID_PARAMETERS"
             ("Invalid content_type '" +:+ content_type +:+ "'")
             [("valid_options", Py.VList (Py.VStr <$> valid_types))])
  else
    window_id ←
      match window_id with
      | Some window_id =>
          window ← get_window_by_id window_id;
          match window with
          | None => raise_window_not_found window_id
          | Some _ => mret (Some window_id)
          end
      | None =>
          window ← get_focused_window;
          match window with
          | None => raise_no_window_focused
          | Some window => mret (Window.window_id window)
          end
      end;
    display_info ← get_display_info;
    let displays := DisplayInfo.displays display_info in
    let screen_width :=
      match displays with
      | [] => 1920
      | display :: _ => default 1920 (Display.resolution_of display !! "width")
      end in
    let dims :=
      default (default [] (Py.get "code_editor" OPTIMAL_DIMENSIONS))
              (Py.get content_type OPTIMAL_DIMENSIONS) in
    let optimal_px :=
      match Py.get "optimal_chars" dims with
      | Some optimal_chars =>
          optimal_chars * default 10 (Py.get "char_width_px" dims) + 50
      | None => default 1200 (Py.get "optimal_width_px" dims)
      end in
    let max_px := int_of_float (truediv (screen_width * max_width_percent) 100) in
    let min_px := int_of_float (truediv (screen_width * min_width_percent) 100) in
    let final_width := Z.max min_px (Z.min optimal_px max_px) in
    focus_window_id_cmd window_id;;
    if screen_width =? 0 then mret ZeroDivisionError
    else
      let target_percent :=
        int_of_float (fmul (truediv final_width screen_width) 100) in
      command ["layout"; "h_tiles"];;
      command ["resize"; "width"; pretty target_percent +:+ "%"];;
      mret (Returned
              [("success", Py.VBool true);
               ("window_id", Py.opt_int window_id);
               ("content_type", Py.VStr content_type);
               ("new_dimensions",
                Py.VDict [("width", Py.VInt final_width);
                          ("height", Py.VNone);
                          ("optimal_chars_per_line",
                           Py.opt_int (Py.get "optimal_chars" dims))])]).

(** [tool_resize_window_optimal] of [server.py]: the tool behind the
    [try] that every tool of the server has. *)
Definition tool_resize_window_optimal (window_id : option Z) (content_type : string)
    (max_width_percent min_width_percent : Z) (s : state) : Py.pydict * state :=
  match resize_window_optimal window_id content_type max_width_percent min_width_percent s
  with
  | (inr (Returned response), s') => (response, s')
  | (inr ZeroDivisionError, s') =>
      ([("success", Py.VBool false);
        ("error",
         Py.VDict [("code", Py.VStr "UNKNOWN_ERROR");
                   ("message", Py.VStr "division by zero");
                   ("details", Py.VDict [])])],
       s')
  | (inl e, s') => (handle_error json_error_text e, s')
  end.

End OptimalWidth.

(** The order of the single-display categories, smallest first. *)
Definition category_rank (category : string) : nat :=
  if String.eqb category "small_single" then 0
  else if String.eqb category "medium_single" then 1
  else if String.eqb category "large_single" then 2
  else 3.

(** ** The vocabulary of the claims

    What the specification says about the calls a tool makes, stated over
    the list of calls and not over the code. *)

(** A call that [run_aerospace_command] with [check=True] returns from
    without raising. *)
Definition succeeded (r : proc_result) : bool :=
  match r with
  | Exited _ _ returncode => returncode =? 0
  | NoExecutable => false
  end.

Definition focus_call (w : Window.t) : list string :=
  ["aerospace"; "focus"; "--window-id"; Py.str_int (Window.window_id w)].

Definition move_call (workspace : string) : list string :=
  ["aerospace"; "move-node-to-workspace"; workspace].

Definition is_focus_call (cmd : list string) : bool :=
  match cmd with
  | _ :: action :: _ => String.eqb action "focus"
  | _ => false
  end.

(** [w] is the first live window whose application name is the one the
    preset entry [e] records. *)
Definition first_match (live : list Window.t) (e : PresetWindow.t) (w : Window.t) : Prop :=
  ∃ before after,
    live = before ++ w :: after
    ∧ Window.app_name w = PresetWindow.app_name e
    ∧ ∀ w', w' ∈ before → Window.app_name w' ≠ PresetWindow.app_name e.

Definition no_match (live : list Window.t) (e : PresetWindow.t) : Prop :=
  ∀ w, w ∈ live → Window.app_name w ≠ PresetWindow.app_name e.

(** [reapplied live entries cs n]: the calls [cs] re-apply the preset
    entries to the live windows, each entry in turn, and [n] of the entries
    were re-applied without a failing call.  An entry with no live window is
    passed over without a call; an entry with one has its first live window
    focused and then, when the entry names a workspace (a string that is not
    empty), moved there; a failing call ends the entry's turn. *)
Inductive reapplied (live : list Window.t)
  : list PresetWindow.t → list call → Z → Prop :=
| reapplied_nil : reapplied live [] [] 0
| reapplied_skip e es cs n :
    no_match live e →
    reapplied live es cs n →
    reapplied live (e :: es) cs n
| reapplied_focus e es w r cs n :
    first_match live e w →
    succeeded r = true →
    Py.truthy (PresetWindow.workspace e) = false →
    reapplied live es cs n →
    reapplied live (e :: es) ((focus_call w, r) :: cs) (n + 1)
| reapplied_focus_move e es w r r' workspace cs n :
    first_match live e w →
    succeeded r = true →
    PresetWindow.workspace e = Some workspace → workspace ≠ "" →
    succeeded r' = true →
    reapplied live es cs n →
    reapplied live (e :: es) ((focus_call w, r) :: (move_call workspace, r') :: cs) (n + 1)
| reapplied_focus_failed e es w r cs n :
    first_match live e w →
    succeeded r = false →
    reapplied live es cs n →
    reapplied live (e :: es) ((focus_call w, r) :: cs) n
| reapplied_move_failed e es w r r' workspace cs n :
    first_match live e w →
    succeeded r = true →
    PresetWindow.workspace e = Some workspace → workspace ≠ "" →
    succeeded r' = false →
    reapplied live es cs n →
    reapplied live (e :: es) ((focus_call w, r) :: (move_call workspace, r') :: cs) n.

(** The calls that re-applying one entry takes when none fails, and whether
    the entry has a live window at all. *)
Definition entry_calls (live : list Window.t) (e : PresetWindow.t) : list (list string) :=
  match first_live live (PresetWindow.app_name e) with
  | Some w =>
      focus_call w ::
      match PresetWindow.workspace e with
      | Some (String c workspace) => [move_call (String c workspace)]
      | _ => []
      end
  | None => []
  end.

Definition has_live (live : list Window.t) (e : PresetWindow.t) : bool :=
  bool_decide (is_Some (first_live live (PresetWindow.app_name e))).

(** The windows that a call of [list-windows] reports, as [list_windows]
    reads them: none when the call failed, the empty list when it printed
    nothing. *)
Definition listed `{World} (r : proc_result) : option (list Window.t) :=
  match r with
  | Exited stdout _ returncode =>
      if returncode =? 0 then
        if Py.truthy (Some stdout) then json_windows stdout else Some []
      else None
  | NoExecutable => None
  end.

(** [sub] occurs in [s]: some text before it and some text after it make
    up [s]. *)
Definition occurs_in (sub s : string) : Prop :=
  ∃ before after, s = before +:+ sub +:+ after.

(** The application name contains, up to case, one of the known names. *)
Definition contains_known_name (app_name : string) (apps : list string) : Prop :=
  ∃ app, app ∈ apps ∧ occurs_in (Py.lower app) (Py.lower app_name).

(** ** A concrete desk

    A small machine on which the tools can be run: the windows of the test
    fixtures ([tests/conftest.py]), one or two monitors, and no display
    known to [system_profiler].  The command line prints its listings in a
    quote-free rendering of the JSON that AeroSpace prints. *)

Module Desk.

Definition firefox : Window.t :=
  {| Window.window_id := Some 1234; Window.app_name := Some "Firefox";
     Window.title := Some "GitHub - Mozilla Firefox"; Window.workspace := Some "1";
     Window.monitor := Some "Built-in Retina Display"; Window.is_focused := None |}.

Definition terminal : Window.t :=
  {| Window.window_id := Some 5678; Window.app_name := Some "Terminal";
     Window.title := Some "bash - 80x24"; Window.workspace := Some "1";
     Window.monitor := Some "Built-in Retina Display"; Window.is_focused := None |}.

Definition code : Window.t :=
  {| Window.window_id := Some 9012; Window.app_name := Some "Visual Studio Code";
     Window.title := Some "project - Visual Studio Code"; Window.workspace := Some "dev";
     Window.monitor := Some "DELL U2720Q"; Window.is_focused := None |}.

(** A second Firefox window and two communication applications, one of
    them known to [APP_CATEGORIES] only as a substring. *)
Definition firefox2 : Window.t :=
  {| Window.window_id := Some 4321; Window.app_name := Some "Firefox";
     Window.title := Some "Docs - Mozilla Firefox"; Window.workspace := Some "2";
     Window.monitor := Some "DELL U2720Q"; Window.is_focused := None |}.

Definition slack : Window.t :=
  {| Window.window_id := Some 9999; Window.app_name := Some "Slack";
     Window.title := None; Window.workspace := Some "1";
     Window.monitor := None; Window.is_focused := None |}.

Definition airmail : Window.t :=
  {| Window.window_id := Some 7777; Window.app_name := Some "Airmail 5";
     Window.title := None; Window.workspace := Some "1";
     Window.monitor := None; Window.is_focused := None |}.

Definition builtin : Monitor.t := {| Monitor.name := Some "Built-in Retina Display" |}.
Definition dell : Monitor.t := {| Monitor.name := Some "DELL U2720Q" |}.

Definition windows_texts : list (string * list Window.t) :=
  [("[]", []);
   ("[firefox]", [firefox]);
   ("[terminal]", [terminal]);
   ("[firefox, terminal, code]", [firefox; terminal; code]);
   ("[terminal, firefox, firefox2]", [terminal; firefox; firefox2]);
   ("[firefox, terminal, code, slack, airmail]", [firefox; terminal; code; slack; airmail])].

Definition monitors_texts : list (string * list Monitor.t) :=
  [("[]", []); ("[builtin]", [builtin]); ("[builtin, dell]", [builtin; dell])].

(** What the three listings print, and whether the focused application
    quits when it is asked to toggle fullscreen. *)
Record machine := {
  all_windows : string;
  focused_window : string;
  monitors : string;
  fragile : bool;
}.

Definition cli (cmd : list string) (m : machine) : proc_result * machine :=
  if bool_decide (cmd = ["aerospace"; "list-windows"; "--all"; "--json"]) then
    (Exited (all_windows m) "" 0, m)
  else if bool_decide (cmd = ["aerospace"; "list-windows"; "--focused"; "--json"]) then
    (Exited (focused_window m) "" 0, m)
  else if bool_decide (cmd = ["aerospace"; "list-monitors"; "--json"]) then
    (Exited (monitors m) "" 0, m)
  else if bool_decide (cmd = ["aerospace"; "fullscreen"]) && fragile m then
    (Exited "" "" 0,
     {| all_windows := "[]"; focused_window := "[]"; monitors := monitors m;
        fragile := fragile m |})
  else (Exited "" "" 0, m).

Definition world : World :=
  {| wm := machine;
     aerospace_cli := cli;
     environ_PATH := "/opt/homebrew/bin:/usr/bin:/bin";
     _get_system_display_info := λ m, ([], m);
     utcnow_isoformat := λ m, ("2025-01-01T00:00:00+00:00", m);
     json_windows := λ text, Py.get text windows_texts;
     json_monitors := λ text, Py.get text monitors_texts |}.

(** Exact rational arithmetic in place of binary64.  On this desk
    [system_profiler] reports no display, so no tool calls it. *)
Definition arith : Binary64 :=
  {| truediv := λ a b, (inject_Z a / inject_Z b)%Q;
     fmul := Qmult;
     fadd := Qplus;
     fpow := λ x _, x;
     round_ndigits := λ x _, x |}.

(** A preset saved on two monitors: a Firefox window for workspace 2, a
    Slack window, a terminal with no workspace, and Firefox once more. *)
Definition work : Preset.t :=
  {| Preset.name := "work";
     Preset.description := "Focus preset: work";
     Preset.display_category := Some "dual_display";
     Preset.created_at := "2024-12-31T09:00:00+00:00";
     Preset.windows :=
       [ {| PresetWindow.app_name := Some "Firefox"; PresetWindow.workspace := Some "2";
            PresetWindow.is_focused := true |};
         {| PresetWindow.app_name := Some "Slack"; PresetWindow.workspace := Some "1";
            PresetWindow.is_focused := false |};
         {| PresetWindow.app_name := Some "Terminal"; PresetWindow.workspace := None;
            PresetWindow.is_focused := false |};
         {| PresetWindow.app_name := Some "Firefox"; PresetWindow.workspace := Some "1";
            PresetWindow.is_focused := false |} ];
     Preset.monitors := [Some "Built-in Retina Display"; Some "DELL U2720Q"] |}.

Definition start (all_windows focused_window monitors : string) (fragile : bool)
    (dir : option (gmap string Preset.t)) : @state world :=
  {| ext := {| all_windows := all_windows; focused_window := focused_window;
               monitors := monitors; fragile := fragile |} : @wm world;
     preset_dir := dir;
     calls := [] |}.

(** The same store and call history on a machine whose listings have
    changed. *)
Definition reopen (s : @state world) (all_windows focused_window monitors : string)
  : @state world :=
  {| ext := {| all_windows := all_windows; focused_window := focused_window;
               monitors := monitors; fragile := false |} : @wm world;
     preset_dir := preset_dir s;
     calls := calls s |}.

End Desk.

(** ** The vocabulary of the further properties *)

(** A computation whose every returned value satisfies [P]. *)
Definition returns `{World} {A} (P : A → Prop) (m : M A) : Prop :=
  ∀ s a s', m s = (inr a, s') → P a.

(** The identifiers that a [WINDOW_NOT_FOUND] error lists. *)
Definition window_ids (windows : list Window.t) : Py.pyval :=
  Py.VList ((λ w, Py.opt_int (Window.window_id w)) <$> windows).

(** A response that reports success and carries no error. *)
Definition answered (response : Py.pydict) : Prop :=
  Py.get "success" response = Some (Py.VBool true) ∧ Py.get "error" response = None.

(** The words of a call are the executable, a subcommand among [allowed]
    and the arguments of the subcommand. *)
Definition runs_one_of (allowed : list string) (c : call) : Prop :=
  ∃ action rest, c.1 = "aerospace" :: action :: rest ∧ action ∈ allowed.

(** The AeroSpace subcommands that each tool runs. *)
Definition subcommands_of (r : request) : list string :=
  match r with
  | FocusWindow _ _ => ["list-windows"; "focus"]
  | FocusWorkspace _ => ["workspace"; "list-workspaces"; "list-windows"]
  | MoveWindow _ _ _ =>
      ["list-windows"; "focus"; "move-node-to-workspace"; "move-node-to-monitor"; "move"]
  | ResizeWindow _ _ => ["list-windows"; "resize"]
  | CloseWindow _ => ["list-windows"; "close"]
  | FullscreenToggle _ => ["list-windows"; "focus"; "fullscreen"]
  | MinimizeWindow _ => ["list-windows"; "focus"; "macos-native-minimize"]
  | SetLayout _ => ["layout"; "list-workspaces"; "list-windows"]
  | SplitWindow _ => ["split"]
  | FlattenWorkspace _ => ["workspace"; "flatten-workspace-tree"; "list-workspaces"]
  | BalanceSizes => ["balance-sizes"; "list-workspaces"; "list-windows"]
  | GetDisplayCategory => ["list-monitors"]
  | ApplyFocusPreset _ _ _ _ =>
      ["list-monitors"; "list-windows"; "focus"; "fullscreen"; "layout"; "resize";
       "move-node-to-monitor"; "move-node-to-workspace"]
  | SaveFocusPreset _ _ => ["list-monitors"; "list-windows"]
  | LoadFocusPreset _ _ => ["list-monitors"; "list-windows"; "focus"; "move-node-to-workspace"]
  | MoveAppCategoryToMonitor _ _ _ =>
      ["list-monitors"; "list-windows"; "focus"; "move-node-to-monitor"; "layout"]
  end.

(** A call whose arguments AeroSpace knows: a [focus] or [move] names one
    of the four directions ([focus] may name a window instead), a [layout]
    names a layout of [VALID_LAYOUTS], a [resize] names one of the three
    dimensions and an amount. *)
Definition well_formed (c : call) : bool :=
  match c.1 with
  | _ :: action :: arguments =>
      if String.eqb action "focus" then
        match arguments with
        | [direction] => Py.mem direction VALID_DIRECTIONS
        | [flag; _] => String.eqb flag "--window-id"
        | _ => false
        end
      else if String.eqb action "move" then
        match arguments with
        | [direction] => Py.mem direction VALID_DIRECTIONS
        | _ => false
        end
      else if String.eqb action "layout" then
        match arguments with
        | [layout] => Py.mem layout VALID_LAYOUTS
        | _ => false
        end
      else if String.eqb action "resize" then
        match arguments with
        | [dimension; _] => Py.mem dimension ["smart"; "width"; "height"]
        | _ => false
        end
      else true
  | _ => true
  end.

(** The state after further calls: the machine has moved on and the log
    has grown, the presets are as they were. *)
Definition after `{World} (s : state) (e : wm) (cs : list call) : state :=
  {| ext := e; preset_dir := preset_dir s; calls := calls s ++ cs |}.

(** The listings of windows and of monitors, as the command line sees
    them. *)
Definition LIST_ALL : list string := ["aerospace"; "list-windows"; "--all"; "--json"].
Definition LIST_FOCUSED : list string :=
  ["aerospace"; "list-windows"; "--focused"; "--json"].
Definition LIST_MONITORS : list string := ["aerospace"; "list-monitors"; "--json"].

(** The monitors that a call of [list-monitors] reports, as [list_monitors]
    reads them. *)
Definition monitors_listed `{World} (r : proc_result) : option (list Monitor.t) :=
  match r with
  | Exited stdout _ returncode =>
      if returncode =? 0 then
        if Py.truthy (Some stdout) then json_monitors stdout else Some []
      else None
  | NoExecutable => None
  end.

(** The window that a request of a window tool names, when it names one
    and nothing else stands in the way of looking for it. *)
Definition named_window (r : request) : option Z :=
  match r with
  | FocusWindow None (Some window_id) => Some window_id
  | MoveWindow _ _ (Some window_id) => Some window_id
  | CloseWindow (Some window_id) => Some window_id
  | FullscreenToggle (Some window_id) => Some window_id
  | MinimizeWindow (Some window_id) => Some window_id
  | _ => None
  end.

(** The requests that act on the focused window: those of a window tool
    that name no window, and a resize of a valid dimension. *)
Definition on_focused_window (r : request) : bool :=
  match r with
  | MoveWindow _ _ None => true
  | ResizeWindow dimension _ => Py.mem dimension ["smart"; "width"; "height"]
  | CloseWindow None => true
  | FullscreenToggle None => true
  | MinimizeWindow None => true
  | _ => false
  end.

(** The requests that the parameter checks at the head of a tool turn
    down. *)
Definition turned_down (r : request) : bool :=
  match r with
  | FocusWindow None None => true
  | FocusWindow (Some _) (Some _) => true
  | FocusWindow (Some direction) None => negb (Py.mem direction VALID_DIRECTIONS)
  | ResizeWindow dimension _ => negb (Py.mem dimension ["smart"; "width"; "height"])
  | SetLayout layout => negb (Py.mem layout VALID_LAYOUTS)
  | SplitWindow orientation => negb (Py.mem orientation ["horizontal"; "vertical"])
  | MoveAppCategoryToMonitor category _ layout =>
      negb (Py.mem category APP_CATEGORIES.*1)
      || negb (Py.mem layout ["tiled"; "accordion"; "stacked"])
  | _ => false
  end.

(** The entry of a window in the ["windows_moved"] list of
    [move_app_category_to_monitor]. *)
Definition moved_entry (window : Window.t) : Py.pyval :=
  Py.VDict [("window_id", Py.opt_int (Window.window_id window));
            ("app_name", Py.VStr (default "" (Window.app_name window)))].

(** The application of the window belongs to the category whose names are
    [category_apps]. *)
Definition of_category (category_apps : list string) (window : Window.t) : Prop :=
  in_apps (default "" (Window.app_name window)) category_apps = true.

#[global] Instance of_category_dec (category_apps : list string) (window : Window.t) :
  Decision (of_category category_apps window).
Proof. unfold of_category. apply _. Defined.

(** The desk has no listing of workspaces to read: asked for one, its
    command line prints nothing. *)
Definition desk_workspaces : Workspaces := {| json_workspaces := λ _, None |}.

(** A computation whose every run, returning or raising, takes a state to
    one that [R] relates to it. *)
Definition always `{World} {A} (R : relation state) (m : M A) : Prop :=
  ∀ s, R s (m s).2.

(** The preset directory is as it was. *)
Definition same_presets `{World} : relation state :=
  λ s s', preset_dir s' = preset_dir s.

(** The log has grown by calls that satisfy [P], and by nothing else. *)
Definition more_calls `{World} (P : call → Prop) : relation state :=
  λ s s', ∃ cs, calls s' = calls s ++ cs ∧ Forall P cs.

(** A computation whose every exception satisfies [Q]. *)
Definition raises `{World} {A} (Q : exn → Prop) (m : M A) : Prop :=
  ∀ s e s', m s = (inl e, s') → Q e.

(** The error codes that the tools raise. *)
Definition ERROR_CODES : list string :=
  [ERROR_AEROSPACE_NOT_RUNNING; ERROR_COMMAND_FAILED; ERROR_WINDOW_NOT_FOUND;
   ERROR_NO_WINDOW_FOCUSED; ERROR_INVALID_DIRECTION; ERROR_INVALID_LAYOUT;
   "INVALID_PARAMETERS"; "PRESET_NOT_FOUND"; "DISPLAY_MISMATCH"; "NO_MONITORS";
   "MONITOR_NOT_FOUND"].

(** An [AeroSpaceError] with one of these codes, or an exception of
    another class. *)
Definition known_error (e : exn) : Prop :=
  match e with
  | AeroSpaceError code _ _ => code ∈ ERROR_CODES
  | JSONDecodeError => True
  end.

(** ** A concrete bench

    A machine with one workspace, [dev], whose command line accepts every
    command but a listing of windows that asks for all windows and for the
    windows of a workspace at once. *)

Module Bench.

Definition dev : Workspace.t :=
  {| Workspace.workspace := Some "dev"; Workspace.monitor := None;
     Workspace.other_keys := false |}.

Definition cli (cmd : list string) (m : unit) : proc_result * unit :=
  if bool_decide (cmd = ["aerospace"; "list-workspaces"; "--focused"; "--json"]) then
    (Exited "[dev]" "" 0, m)
  else if bool_decide
            (cmd = ["aerospace"; "list-windows"; "--all"; "--workspace"; "dev"; "--json"])
  then (Exited "" "--all conflicts with --workspace" 1, m)
  else (Exited "" "" 0, m).

Definition world : World :=
  {| wm := unit;
     aerospace_cli := cli;
     environ_PATH := "/opt/homebrew/bin:/usr/bin:/bin";
     _get_system_display_info := λ m, ([], m);
     utcnow_isoformat := λ m, ("2025-01-01T00:00:00+00:00", m);
     json_windows := λ _, None;
     json_monitors := λ _, None |}.

Definition workspaces : Workspaces :=
  {| json_workspaces := λ text, if String.eqb text "[dev]" then Some [dev] else None |}.

Definition start : @state world :=
  {| ext := tt : @wm world; preset_dir := None; calls := [] |}.

End Bench.

(** * Properties *)

(** ** The display classifier *)

Section DisplayFacts.
Import Display.

Lemma Qgeb_true (a b : Q) : Qgeb a b = true ↔ (b <= a)%Q.
Proof. apply Qle_bool_iff. Qed.

Lemma Qgeb_false (a b : Q) : Qgeb a b = false ↔ (a < b)%Q.
Proof.
  unfold Qgeb. rewrite <- not_true_iff_false, Qle_bool_iff.
  split; [apply Qnot_le_lt | apply Qlt_not_le].
Qed.

Lemma Qgtb_true (a b : Q) : Qgtb a b = true ↔ (b < a)%Q.
Proof.
  unfold Qgtb. rewrite negb_true_iff, <- not_true_iff_false, Qle_bool_iff.
  split; [apply Qnot_le_lt | apply Qlt_not_le].
Qed.

Lemma Qgtb_false (a b : Q) : Qgtb a b = false ↔ (a <= b)%Q.
Proof. unfold Qgtb. rewrite negb_false_iff. apply Qle_bool_iff. Qed.

(** The classifier on a list of one display, with the tests of the source
    in the order of the source. *)
Lemma single_display_unfold (d : display) :
  (_calculate_display_category [d]).1 =
    let s := default 0%Q (size_inches d) in
    let pixels := total_pixels (resolution_of d) in
    if Qgtb s 0 then
      if Qgeb s 27 then "large_single"
      else if Qgeb s 15 then "medium_single" else "small_single"
    else
      if pixels >=? 3686400 then "large_single"
      else if pixels >=? 1036800 then "medium_single" else "small_single".
Proof.
  unfold _calculate_display_category. cbv zeta.
  change (Z.of_nat (length [d])) with 1.
  change (1 =? 0) with false. change (1 >=? 3) with false.
  change (1 =? 2) with false. cbv iota.
  repeat match goal with |- context [if ?b then _ else _] => destruct b end;
    reflexivity.
Qed.

(** C1.  The category of a display list of length 0, 2, or 3 and more is
    [unknown], [dual_display] and [triple_plus], whatever the displays
    hold; only a list of one display is classified by its content: two
    single displays that differ in [size_inches] alone can fall in
    different categories. *)
Theorem category_by_display_count :
  _calculate_display_category [] = ("unknown", "No displays detected")
  ∧ (∀ d1 d2 : display,
       (_calculate_display_category [d1; d2]).1 = "dual_display")
  ∧ (∀ (d1 d2 d3 : display) (rest : list display),
       (_calculate_display_category (d1 :: d2 :: d3 :: rest)).1 = "triple_plus")
  ∧ (∃ d d' : display,
       resolution d = resolution d'
       ∧ effective_resolution d = effective_resolution d'
       ∧ (_calculate_display_category [d]).1 ≠ (_calculate_display_category [d']).1).
Proof.
  split; [reflexivity |]. split; [reflexivity |]. split.
  - intros d1 d2 d3 rest. unfold _calculate_display_category.
    destruct (Z.of_nat (length (d1 :: d2 :: d3 :: rest)) =? 0) eqn:E0.
    + apply Z.eqb_eq in E0. cbn [length] in E0. lia.
    + destruct (Z.of_nat (length (d1 :: d2 :: d3 :: rest)) >=? 3) eqn:E3;
        [reflexivity |].
      rewrite Z.geb_leb in E3. apply Z.leb_gt in E3. cbn [length] in E3. lia.
  - exists (fixture 1920 1080 (Some 13%Q)), (fixture 1920 1080 (Some 27%Q)).
    split; [reflexivity |]. split; [reflexivity |]. vm_compute. discriminate.
Qed.

(** C2, the claim as it is worded, fails on a negative size: the size is
    available and nonzero and below 15, yet the display is classified by
    its pixel count. *)
Lemma negative_size_counterexample :
  let d := fixture 2560 1440 (Some (-1)%Q) in
  ¬ (∀ s : Q, size_inches d = Some s → ¬ (s == 0)%Q → (s < 15)%Q →
       (_calculate_display_category [d]).1 = "small_single").
Proof.
  intros d Hclaim. specialize (Hclaim (-1)%Q eq_refl).
  assert (Hne : ¬ (-1 == 0)%Q) by (intros E; discriminate E).
  assert (Hlt : (-1 < 15)%Q) by reflexivity.
  specialize (Hclaim Hne Hlt). vm_compute in Hclaim. discriminate Hclaim.
Qed.

(** C2, amended.  A single display whose [size_inches] is present and
    positive is [large_single] from 27 inches, [medium_single] from 15
    inches and [small_single] below; when the size is missing, zero or
    negative, the pixel count of the effective resolution decides, with
    the thresholds 3,686,400 and 1,036,800. *)
Theorem single_display_category (d : display) :
  let category := (_calculate_display_category [d]).1 in
  let pixels := total_pixels (resolution_of d) in
  (∀ s : Q, size_inches d = Some s → (0 < s)%Q →
     ((27 <= s)%Q → category = "large_single")
     ∧ ((15 <= s)%Q → (s < 27)%Q → category = "medium_single")
     ∧ ((s < 15)%Q → category = "small_single"))
  ∧ ((∀ s : Q, size_inches d = Some s → (s <= 0)%Q) →
     (3686400 ≤ pixels → category = "large_single")
     ∧ (1036800 ≤ pixels → pixels < 3686400 → category = "medium_single")
     ∧ (pixels < 1036800 → category = "small_single"))
  ∧ (∀ r, effective_resolution d = Some r → r ≠ ∅ → resolution_of d = r).
Proof.
  intros category pixels. subst category pixels.
  rewrite single_display_unfold. cbv zeta. split; [| split].
  - intros s Hs Hpos. rewrite Hs. cbn [default from_option]. unfold Datatypes.id.
    apply Qgtb_true in Hpos. rewrite Hpos.
    destruct (Qgeb s 27) eqn:E27; [apply Qgeb_true in E27 | apply Qgeb_false in E27];
      (destruct (Qgeb s 15) eqn:E15;
         [apply Qgeb_true in E15 | apply Qgeb_false in E15]);
      repeat split; intros; try reflexivity; exfalso; lra.
  - intros Hnone.
    assert (Hfalse : Qgtb (default 0%Q (size_inches d)) 0 = false).
    { apply Qgtb_false. destruct (size_inches d) as [s |]; cbn.
      - apply Hnone. reflexivity.
      - apply Qle_refl. }
    rewrite Hfalse.
    destruct (total_pixels (resolution_of d) >=? 3686400) eqn:El;
      destruct (total_pixels (resolution_of d) >=? 1036800) eqn:Em;
      rewrite Z.geb_leb in El, Em;
      [apply Z.leb_le in El | apply Z.leb_le in El | apply Z.leb_gt in El
      | apply Z.leb_gt in El];
      [apply Z.leb_le in Em | apply Z.leb_gt in Em | apply Z.leb_le in Em
      | apply Z.leb_gt in Em];
      repeat split; intros; try reflexivity; lia.
  - intros r Hr Hne. unfold resolution_of, dict_or. rewrite Hr.
    destruct (decide (r = ∅)); [contradiction | reflexivity].
Qed.

(** The sizes and resolutions that the specification lists, each obtained
    from [single_display_category]. *)
Lemma single_display_category_witness :
  (_calculate_display_category [fixture 1366 768 (Some 13%Q)]).1 = "small_single"
  ∧ (_calculate_display_category [fixture 1920 1080 (Some 15%Q)]).1 = "medium_single"
  ∧ (_calculate_display_category [fixture 1920 1080 (Some 26.9%Q)]).1 = "medium_single"
  ∧ (_calculate_display_category [fixture 2560 1440 (Some 27%Q)]).1 = "large_single"
  ∧ (_calculate_display_category [fixture 1920 1080 None]).1 = "medium_single"
  ∧ (_calculate_display_category [fixture 2560 1440 (Some 0%Q)]).1 = "large_single"
  ∧ (_calculate_display_category [fixture 1024 768 None]).1 = "small_single".
Proof.
  repeat apply conj.
  - apply (proj1 (single_display_category _) 13%Q); reflexivity.
  - apply (proj1 (single_display_category _) 15%Q); try reflexivity; discriminate.
  - apply (proj1 (single_display_category _) 26.9%Q); try reflexivity; discriminate.
  - apply (proj1 (single_display_category _) 27%Q); try reflexivity; discriminate.
  - apply (proj1 (proj2 (single_display_category _)));
      [intros s Hs; discriminate Hs | vm_compute; discriminate | reflexivity].
  - apply (proj1 (proj2 (single_display_category _)));
      [intros s Hs; injection Hs as <-; discriminate | vm_compute; discriminate].
  - apply (proj1 (proj2 (single_display_category _)));
      [intros s Hs; discriminate Hs | reflexivity].
Defined.

End DisplayFacts.

(** ** Running the tools *)

Section MonadFacts.
Context `{World}.

Lemma bind_run {A B} (m : M A) (k : A → M B) (s : state) :
  (m ≫= k) s =
    match m s with
    | (inr a, s') => k a s'
    | (inl e, s') => (inl e, s')
    end.
Proof. reflexivity. Qed.

Lemma bind_ok {A B} (m : M A) (k : A → M B) (s s' : state) (a : A) :
  m s = (inr a, s') → (m ≫= k) s = k a s'.
Proof. intros Hm. rewrite bind_run, Hm. reflexivity. Qed.

Lemma bind_raise {A B} (m : M A) (k : A → M B) (s s' : state) (e : exn) :
  m s = (inl e, s') → (m ≫= k) s = (inl e, s').
Proof. intros Hm. rewrite bind_run, Hm. reflexivity. Qed.

Lemma bind_ok_inv {A B} (m : M A) (k : A → M B) (s s'' : state) (b : B) :
  (m ≫= k) s = (inr b, s'') →
  ∃ a s', m s = (inr a, s') ∧ k a s' = (inr b, s'').
Proof.
  rewrite bind_run. destruct (m s) as [[e | a] s']; [discriminate |].
  intros Hk. exists a, s'. split; [reflexivity | exact Hk].
Qed.

(** One call of the command line with [check=True]: it is recorded, the
    preset directory is not touched, and it raises exactly when the call
    did not succeed; what it raises is an [AeroSpaceError]. *)
Lemma command_spec (args : list string) (s : state) :
  ∃ r s',
    calls s' = calls s ++ [("aerospace" :: args, r)]
    ∧ preset_dir s' = preset_dir s
    ∧ ((succeeded r = true ∧ command args s = (inr tt, s'))
       ∨ (succeeded r = false
          ∧ ∃ code message details,
              command args s = (inl (AeroSpaceError code message details), s'))).
Proof.
  unfold command. rewrite bind_run. unfold run_aerospace_command.
  rewrite app_nil_r.
  destruct (aerospace_cli ("aerospace" :: args) (ext s)) as [r e] eqn:Hcli.
  exists r,
    {| ext := e; preset_dir := preset_dir s;
       calls := calls s ++ [("aerospace" :: args, r)] |}.
  split; [reflexivity |]. split; [reflexivity |].
  destruct r as [out err rc |]; cbn [succeeded andb].
  - destruct (rc =? 0) eqn:Hrc; cbn [negb].
    + left. split; reflexivity.
    + right. split; [reflexivity |].
      destruct (negb (Py.contains "aerospace" environ_PATH) && (rc =? 127));
        eauto.
  - right. split; [reflexivity |]. eauto.
Qed.

Lemma focus_window_id_cmd_eq (window_id : option Z) :
  focus_window_id_cmd window_id
  = command ["focus"; "--window-id"; Py.str_int window_id].
Proof. reflexivity. Qed.

End MonadFacts.

(** ** Re-applying a preset *)

Section LoadLoop.
Context `{World}.

Lemma find_first_match (live : list Window.t) (e : PresetWindow.t) :
  match first_live live (PresetWindow.app_name e) with
  | Some w => first_match live e w
  | None => no_match live e
  end.
Proof.
  unfold first_live. induction live as [| w0 live IH]; cbn [find].
  - intros w Hw. inversion Hw.
  - case_bool_decide as Hw0.
    + exists [], live. split; [reflexivity |]. split; [exact Hw0 |].
      intros w' Hw'. inversion Hw'.
    + destruct (find _ live) as [w |].
      * destruct IH as (before & after & -> & Hw & Hbefore).
        exists (w0 :: before), after. split; [reflexivity |]. split; [exact Hw |].
        intros w' Hw'. apply elem_of_cons in Hw' as [-> | Hw']; auto.
      * intros w Hw. apply elem_of_cons in Hw as [-> | Hw]; auto.
Qed.

Lemma first_match_unique (live : list Window.t) (e : PresetWindow.t) (w : Window.t) :
  first_match live e w →
  first_live live (PresetWindow.app_name e) = Some w.
Proof.
  unfold first_live. intros (before & after & -> & Hw & Hbefore).
  induction before as [| w0 before IH]; cbn [app find].
  - rewrite bool_decide_eq_true_2 by exact Hw. reflexivity.
  - rewrite bool_decide_eq_false_2 by (apply Hbefore; left).
    apply IH. intros w' Hw'. apply Hbefore. right. exact Hw'.
Qed.

Lemma truthy_workspace (workspace : option string) :
  Py.truthy workspace = true →
  ∃ ws, workspace = Some ws ∧ ws ≠ "" ∧ default "" workspace = ws.
Proof.
  destruct workspace as [[| c ws] |]; try discriminate.
  intros _. exists (String c ws). repeat split. discriminate.
Qed.

(** One turn of the loop of [load_focus_preset]. *)
Lemma arrange_entry_spec (live : list Window.t) (n0 : Z) (e : PresetWindow.t)
    (s : state) :
  ∃ (counted : bool) (s' : state) (cs : list call),
    arrange_entry live n0 e s = (inr (if counted then n0 + 1 else n0), s')
    ∧ calls s' = calls s ++ cs
    ∧ preset_dir s' = preset_dir s
    ∧ ∀ es cs' n,
        reapplied live es cs' n →
        reapplied live (e :: es) (cs ++ cs') (if counted then n + 1 else n).
Proof.
  unfold arrange_entry. pose proof (find_first_match live e) as Hfind.
  destruct (first_live live _) as [w |].
  2:{ exists false, s, []. rewrite app_nil_r. repeat split.
      intros es cs' n Hrest. apply reapplied_skip; assumption. }
  unfold try_except. rewrite focus_window_id_cmd_eq.
  destruct (command_spec ["focus"; "--window-id"; Py.str_int (Window.window_id w)] s)
    as (r & s1 & Hcalls1 & Hdir1 & [[Hr Hrun] | [Hr (c & m & d & Hrun)]]).
  2:{ rewrite (bind_raise _ _ _ _ _ Hrun).
      exists false, s1, [(focus_call w, r)]. repeat split; try assumption.
      intros es cs' n Hrest. apply reapplied_focus_failed; assumption. }
  rewrite (bind_ok _ _ _ _ _ Hrun).
  destruct (Py.truthy (PresetWindow.workspace e)) eqn:Hws.
  - destruct (truthy_workspace _ Hws) as (ws & Hsome & Hne & ->).
    destruct (command_spec ["move-node-to-workspace"; ws] s1)
      as (r' & s2 & Hcalls2 & Hdir2 & [[Hr' Hrun'] | [Hr' (c & m & d & Hrun')]]).
    + rewrite (bind_ok _ _ _ _ _ Hrun').
      exists true, s2, [(focus_call w, r); (move_call ws, r')].
      split; [reflexivity |]. split.
      { rewrite Hcalls2, Hcalls1, <- app_assoc. reflexivity. }
      split; [congruence |].
      intros es cs' n Hrest. eapply reapplied_focus_move; eassumption.
    + rewrite (bind_raise _ _ _ _ _ Hrun').
      exists false, s2, [(focus_call w, r); (move_call ws, r')].
      split; [reflexivity |]. split.
      { rewrite Hcalls2, Hcalls1, <- app_assoc. reflexivity. }
      split; [congruence |].
      intros es cs' n Hrest. eapply reapplied_move_failed; eassumption.
  - exists true, s1, [(focus_call w, r)]. repeat split; try assumption.
    intros es cs' n Hrest. apply reapplied_focus; assumption.
Qed.

(** The whole loop: it never raises, it only adds calls, and the calls it
    adds re-apply the entries in the sense of [reapplied]. *)
Lemma load_loop (live : list Window.t) (es : list PresetWindow.t) :
  ∀ (n0 : Z) (s : state),
    ∃ (n : Z) (s' : state) (cs : list call),
      for_each es (arrange_entry live) n0 s = (inr (n0 + n), s')
      ∧ calls s' = calls s ++ cs
      ∧ preset_dir s' = preset_dir s
      ∧ reapplied live es cs n.
Proof.
  induction es as [| e es IH]; intros n0 s; cbn [for_each].
  - exists 0, s, []. rewrite Z.add_0_r, app_nil_r. repeat split. constructor.
  - destruct (arrange_entry_spec live n0 e s)
      as (counted & s1 & cs1 & Hrun & Hcalls1 & Hdir1 & Hstep).
    rewrite (bind_ok _ _ _ _ _ Hrun).
    destruct (IH (if counted then n0 + 1 else n0) s1)
      as (n & s2 & cs2 & Hloop & Hcalls2 & Hdir2 & Hrest).
    exists (if counted then n + 1 else n), s2, (cs1 ++ cs2).
    split.
    { rewrite Hloop. f_equal. f_equal. destruct counted; lia. }
    split; [rewrite Hcalls2, Hcalls1, app_assoc; reflexivity |].
    split; [congruence |]. apply Hstep. exact Hrest.
Qed.

End LoadLoop.

(** ** What the queries do to the state *)

Section QueryFacts.
Context `{World} `{Binary64}.

(** Any call of the command line is recorded and leaves the preset
    directory alone, whether it raises or not. *)
Lemma run_aerospace_command_state (args : list string) (json_output check : bool)
    (s : state) :
  let s' := (run_aerospace_command args json_output check s).2 in
  preset_dir s' = preset_dir s
  ∧ ∃ r, calls s' =
           calls s ++ [("aerospace" :: args ++ (if json_output then ["--json"] else []), r)].
Proof.
  unfold run_aerospace_command.
  destruct (aerospace_cli _ (ext s)) as [r e].
  destruct r as [out err rc |].
  - destruct (check && negb (rc =? 0));
      [destruct (negb (Py.contains "aerospace" environ_PATH) && (rc =? 127)) |];
      (split; [reflexivity | exists (Exited out err rc); reflexivity]).
  - split; [reflexivity | exists NoExecutable; reflexivity].
Qed.

Lemma loads_state {A} (decode : string → option A) (stdout : string) (s : state) :
  (loads decode stdout s).2 = s.
Proof. unfold loads. destruct (decode stdout); reflexivity. Qed.

Lemma list_monitors_state (s : state) :
  let s' := (list_monitors s).2 in
  preset_dir s' = preset_dir s
  ∧ ∃ r, calls s' = calls s ++ [(["aerospace"; "list-monitors"; "--json"], r)].
Proof.
  unfold list_monitors. rewrite bind_run.
  pose proof (run_aerospace_command_state ["list-monitors"] true true s) as Hrun.
  destruct (run_aerospace_command ["list-monitors"] true true s)
    as [[e | [[stdout stderr] rc]] s1]; [exact Hrun |].
  cbv beta iota zeta in *.
  destruct (Py.truthy (Some stdout));
    [rewrite (loads_state json_monitors stdout s1) |]; exact Hrun.
Qed.

Lemma list_windows_state (s : state) :
  let s' := (list_windows None None true s).2 in
  preset_dir s' = preset_dir s
  ∧ ∃ r, calls s' = calls s ++ [(["aerospace"; "list-windows"; "--all"; "--json"], r)].
Proof.
  unfold list_windows. change (Py.truthy None) with false. cbv iota.
  change (["list-windows"] ++ ["--all"] ++ [] ++ []) with ["list-windows"; "--all"].
  rewrite bind_run.
  pose proof (run_aerospace_command_state ["list-windows"; "--all"] true true s) as Hrun.
  destruct (run_aerospace_command ["list-windows"; "--all"] true true s)
    as [[e | [[stdout stderr] rc]] s1]; [exact Hrun |].
  cbv beta iota zeta in *.
  destruct (Py.truthy (Some stdout));
    [rewrite (loads_state json_windows stdout s1) |]; exact Hrun.
Qed.

(** Reading the display category costs one listing of the monitors and
    nothing else: no window is focused or moved by it.  The category it
    reports is the classifier's, on the displays it has built. *)
Lemma get_display_category_state (s s1 : state) (dc : DisplayCategory.t) :
  get_display_category s = (inr dc, s1) →
  preset_dir s1 = preset_dir s
  ∧ (∃ r, calls s1 = calls s ++ [(["aerospace"; "list-monitors"; "--json"], r)])
  ∧ ∃ displays,
      DisplayCategory.category dc = (Display._calculate_display_category displays).1.
Proof.
  intros Hrun. unfold get_display_category in Hrun.
  apply bind_ok_inv in Hrun as (info & s' & Hinfo & Hrest).
  unfold get_display_info in Hinfo.
  apply bind_ok_inv in Hinfo as (monitors & s0 & Hmon & Hinfo).
  apply bind_ok_inv in Hinfo as (sds & s0' & Hsys & Hinfo).
  pose proof (list_monitors_state s) as Hstate. rewrite Hmon in Hstate.
  cbn [snd] in Hstate. destruct Hstate as [Hdir Hcalls].
  unfold system_display_info in Hsys.
  destruct (_get_system_display_info (ext s0)) as [sds' e'].
  injection Hsys as <- <-.
  match type of Hinfo with
  | context [Display._calculate_display_category ?ds] =>
      destruct (Display._calculate_display_category ds) as [c0 d0]
  end.
  injection Hinfo as <- <-. cbn [DisplayInfo.displays] in Hrest.
  match type of Hrest with
  | context [Display._calculate_display_category ?ds] =>
      pose (displays := ds); fold displays in Hrest;
      destruct (Display._calculate_display_category displays) as [c1 d1] eqn:Ecat
  end.
  match type of Hrest with
  | context [match ?ds with [] => ?a | first :: rest => @?b first rest end] =>
      destruct (match ds with [] => a | first :: rest => b first rest end)
        as [psize ssizes]
  end.
  injection Hrest as <- <-. cbn [preset_dir calls DisplayCategory.category].
  split; [exact Hdir |]. split; [exact Hcalls |].
  exists displays. rewrite Ecat. reflexivity.
Qed.

(** The classifier only ever answers with one of its six categories. *)
Lemma category_cases (displays : list Display.display) :
  (Display._calculate_display_category displays).1
  ∈ ["unknown"; "small_single"; "medium_single"; "large_single"; "dual_display";
     "triple_plus"].
Proof.
  unfold Display._calculate_display_category.
  repeat match goal with
         | |- context [if ?b then _ else _] => destruct b
         | |- context [match ?l with [] => _ | _ :: _ => _ end] => destruct l
         end; cbn [fst]; set_solver.
Qed.

End QueryFacts.

(** ** Loading and saving presets *)

Section PresetFacts.
Context `{World} `{Binary64}.

(** C6.  Loading a name with no stored file fails with [PRESET_NOT_FOUND];
    the details list each stored preset name once and nothing else, the
    empty list when the directory is empty or missing; the state is the one
    before the call, so no command was run. *)
Theorem load_missing_preset (name : string) (adapt_to_displays : bool) (s : state) :
  stored s name = None →
  ∃ available : list string,
    load_focus_preset name adapt_to_displays s =
      (inl (AeroSpaceError "PRESET_NOT_FOUND" ("Preset '" +:+ name +:+ "' not found")
              [("available_presets", Py.VList (Py.VStr <$> available))]),
       s)
    ∧ NoDup available
    ∧ (∀ n, n ∈ available ↔ is_Some (stored s n))
    ∧ (preset_dir s = None ∨ preset_dir s = Some ∅ → available = []).
Proof.
  intros Hnone.
  exists (from_option (λ dir : gmap string Preset.t, (map_to_list dir).*1) []
            (preset_dir s)).
  split.
  { unfold load_focus_preset. rewrite bind_run. unfold read_preset.
    rewrite Hnone. reflexivity. }
  unfold stored. destruct (preset_dir s) as [dir |]; cbn.
  - split; [apply NoDup_fst_map_to_list |]. split.
    + intros n. rewrite list_elem_of_fmap. split.
      * intros ([n' p] & -> & Hin). apply elem_of_map_to_list in Hin.
        exists p. exact Hin.
      * intros [p Hp]. exists (n, p). split; [reflexivity |].
        apply elem_of_map_to_list. exact Hp.
    + intros [Hdir | Hdir]; [discriminate |]. injection Hdir as ->.
      rewrite map_to_list_empty. reflexivity.
  - split; [constructor |]. split.
    + intros n. split; [intros Hin; inversion Hin | intros [p Hp]; discriminate].
    + reflexivity.
Qed.

(** How a load of a stored preset runs, once the display category is
    known: either the mismatch error, raised before any window is listed,
    or the listing of the windows followed by the loop. *)
Lemma load_run (name : string) (adapt_to_displays : bool) (s s1 : state)
    (p : Preset.t) (dc : DisplayCategory.t) :
  stored s name = Some p →
  get_display_category s = (inr dc, s1) →
  let differs :=
    bool_decide (Some (DisplayCategory.category dc) ≠ Preset.display_category p) in
  (differs && negb adapt_to_displays = true →
     ∃ message details,
       load_focus_preset name adapt_to_displays s =
         (inl (AeroSpaceError "DISPLAY_MISMATCH" message details), s1))
  ∧ (differs && negb adapt_to_displays = false →
     (∀ e s2, list_windows None None true s1 = (inl e, s2) →
        load_focus_preset name adapt_to_displays s = (inl e, s2))
     ∧ (∀ live s2, list_windows None None true s1 = (inr live, s2) →
          ∃ n s3 cs,
            load_focus_preset name adapt_to_displays s =
              (inr (load_response name differs n), s3)
            ∧ calls s3 = calls s2 ++ cs
            ∧ preset_dir s3 = preset_dir s2
            ∧ reapplied live (Preset.windows p) cs n)).
Proof.
  intros Hp Hcat differs.
  assert (Hload : load_focus_preset name adapt_to_displays s =
    (if differs && negb adapt_to_displays then
       raise (AeroSpaceError "DISPLAY_MISMATCH"
                ("Display configuration changed from '"
                 +:+ Py.str_str (Preset.display_category p) +:+ "' to '"
                 +:+ Py.str_str (Some (DisplayCategory.category dc)) +:+ "'")
                [("suggestion",
                  Py.VStr "Set adapt_to_displays=True to adapt the preset")])
     else
       all_windows ← list_windows None None true;
       windows_arranged ←
         for_each (Preset.windows p) (arrange_entry all_windows) 0;
       mret (load_response name differs windows_arranged)) s1).
  { unfold load_focus_preset. rewrite bind_run. unfold read_preset.
    rewrite Hp. cbv beta iota. rewrite (bind_ok _ _ _ _ _ Hcat). reflexivity. }
  rewrite Hload. clear Hload. split; intros Hgate; rewrite Hgate.
  - eauto.
  - split.
    + intros e s2 Hlist. rewrite (bind_raise _ _ _ _ _ Hlist). reflexivity.
    + intros live s2 Hlist. rewrite (bind_ok _ _ _ _ _ Hlist).
      destruct (load_loop live (Preset.windows p) 0 s2)
        as (n & s3 & cs & Hloop & Hcalls & Hdir & Hre).
      exists n, s3, cs. rewrite (bind_ok _ _ _ _ _ Hloop).
      rewrite Z.add_0_l. repeat split; assumption.
Qed.

(** C3.  When the stored category differs from the current one, a load
    with [adapt_to_displays=False] fails with [DISPLAY_MISMATCH] after the
    one monitor listing that reads the category, so without a command on
    any window; with [adapt_to_displays=True] every load that returns
    reports [adapted=True], and it does return once the windows can be
    listed.  When the categories are equal, every load that returns reports
    [adapted=False], whatever the flag, and it returns once the windows can
    be listed. *)
Theorem load_display_mismatch (name : string) (s s1 : state) (p : Preset.t)
    (dc : DisplayCategory.t) :
  stored s name = Some p →
  get_display_category s = (inr dc, s1) →
  (Preset.display_category p ≠ Some (DisplayCategory.category dc) →
     (∃ message details,
        load_focus_preset name false s =
          (inl (AeroSpaceError "DISPLAY_MISMATCH" message details), s1))
     ∧ (∃ r, calls s1 = calls s ++ [(["aerospace"; "list-monitors"; "--json"], r)])
     ∧ (∀ r s3, load_focus_preset name true s = (inr r, s3) →
          Py.get "adapted" r = Some (Py.VBool true))
     ∧ (∀ live s2, list_windows None None true s1 = (inr live, s2) →
          ∃ n s3, load_focus_preset name true s = (inr (load_response name true n), s3)))
  ∧ (Preset.display_category p = Some (DisplayCategory.category dc) →
     ∀ adapt_to_displays,
       (∀ r s3, load_focus_preset name adapt_to_displays s = (inr r, s3) →
          Py.get "adapted" r = Some (Py.VBool false))
       ∧ (∀ live s2, list_windows None None true s1 = (inr live, s2) →
            ∃ n s3,
              load_focus_preset name adapt_to_displays s =
                (inr (load_response name false n), s3))).
Proof.
  intros Hp Hcat. split.
  - intros Hne.
    assert (Hd : bool_decide (Some (DisplayCategory.category dc)
                              ≠ Preset.display_category p) = true)
      by (apply bool_decide_eq_true_2; congruence).
    pose proof (load_run name false s s1 p dc Hp Hcat) as [Hfail _].
    pose proof (load_run name true s s1 p dc Hp Hcat) as [_ Hpass].
    cbv zeta in Hfail, Hpass. rewrite Hd in Hfail, Hpass.
    specialize (Hfail eq_refl). specialize (Hpass eq_refl).
    destruct Hpass as [Herr Hok].
    split; [exact Hfail |]. split; [apply (get_display_category_state _ _ _ Hcat) |].
    split.
    + intros r s3 Hload.
      destruct (list_windows None None true s1) as [[e | live] s2] eqn:Hlist.
      * rewrite (Herr _ _ eq_refl) in Hload. discriminate.
      * destruct (Hok _ _ eq_refl) as (n & s3' & cs & Hload' & _).
        rewrite Hload' in Hload. injection Hload as <- <-. reflexivity.
    + intros live s2 Hlist. destruct (Hok _ _ Hlist) as (n & s3 & cs & Hload & _).
      eauto.
  - intros Heq adapt.
    assert (Hd : bool_decide (Some (DisplayCategory.category dc)
                              ≠ Preset.display_category p) = false)
      by (apply bool_decide_eq_false_2; intros Hne; apply Hne; congruence).
    pose proof (load_run name adapt s s1 p dc Hp Hcat) as [_ Hpass].
    cbv zeta in Hpass. rewrite Hd in Hpass.
    specialize (Hpass eq_refl). destruct Hpass as [Herr Hok]. split.
    + intros r s3 Hload.
      destruct (list_windows None None true s1) as [[e | live] s2] eqn:Hlist.
      * rewrite (Herr _ _ eq_refl) in Hload. discriminate.
      * destruct (Hok _ _ eq_refl) as (n & s3' & cs & Hload' & _).
        rewrite Hload' in Hload. injection Hload as <- <-. reflexivity.
    + intros live s2 Hlist. destruct (Hok _ _ Hlist) as (n & s3 & cs & Hload & _).
      eauto.
Qed.

(** What [save_focus_preset] leaves in the store when it returns. *)
Lemma save_run (name : string) (description : option string) (s0 s1 : state)
    (r0 : Py.pydict) :
  save_focus_preset name description s0 = (inr r0, s1) →
  ∃ dc0 sA saved sB p,
    get_display_category s0 = (inr dc0, sA)
    ∧ list_windows None None true sA = (inr saved, sB)
    ∧ stored s1 name = Some p
    ∧ Preset.display_category p = Some (DisplayCategory.category dc0)
    ∧ Preset.windows p = snapshot <$> saved.
Proof.
  intros Hsave. unfold save_focus_preset in Hsave.
  apply bind_ok_inv in Hsave as (dc0 & sA & Hcat & Hsave).
  apply bind_ok_inv in Hsave as (saved & sB & Hlist & Hsave).
  apply bind_ok_inv in Hsave as (monitors & sC & Hmon & Hsave).
  apply bind_ok_inv in Hsave as (created & sD & Hnow & Hsave).
  cbv zeta in Hsave.
  apply bind_ok_inv in Hsave as ([] & sE & Hwrite & Hret).
  injection Hret as <- <-. unfold write_preset in Hwrite.
  injection Hwrite as <-.
  eexists dc0, sA, saved, sB, _. split; [exact Hcat |]. split; [exact Hlist |].
  split.
  { unfold stored. cbn [preset_dir mbind option_bind]. apply lookup_insert_eq. }
  split; reflexivity.
Qed.

Lemma no_match_first_live (live : list Window.t) (e : PresetWindow.t) :
  no_match live e → first_live live (PresetWindow.app_name e) = None.
Proof.
  intros Hno. pose proof (find_first_match live e) as Hfind.
  destruct (first_live live (PresetWindow.app_name e)) as [w |]; [| reflexivity].
  destruct Hfind as (before & after & -> & Hw & _).
  exfalso. apply (Hno w); [| exact Hw]. apply elem_of_app. right. left.
Qed.

(** When no call fails, the calls are the calls of the entries, entry by
    entry, and every entry with a live window is counted. *)
Lemma reapplied_all_succeeded (live : list Window.t) (es : list PresetWindow.t)
    (cs : list call) (n : Z) :
  reapplied live es cs n →
  Forall (λ c : call, succeeded c.2 = true) cs →
  cs.*1 = concat (entry_calls live <$> es)
  ∧ n = Z.of_nat (length (List.filter (has_live live) es)).
Proof.
  induction 1 as [| e es cs n Hno _ IH | e es w r cs n Hw _ Hws _ IH
                  | e es w r r' ws cs n Hw _ Hws Hne _ _ IH
                  | e es w r cs n Hw Hr _ IH
                  | e es w r r' ws cs n Hw _ Hws Hne Hr' _ IH];
    intros Hall; cbn [fmap list_fmap concat List.filter length fst];
    unfold entry_calls, has_live.
  - split; reflexivity.
  - rewrite (no_match_first_live _ _ Hno).
    rewrite bool_decide_eq_false_2 by (intros [? ?]; discriminate).
    apply IH, Hall.
  - rewrite (first_match_unique _ _ _ Hw).
    rewrite bool_decide_eq_true_2 by (exists w; reflexivity).
    apply Forall_cons in Hall as [_ Hall]. destruct (IH Hall) as [-> ->].
    cbv iota. cbn [length]. split; [| rewrite Nat2Z.inj_succ; reflexivity].
    destruct (PresetWindow.workspace e) as [[| c ws] |]; try discriminate; reflexivity.
  - rewrite (first_match_unique _ _ _ Hw), Hws.
    rewrite bool_decide_eq_true_2 by (exists w; reflexivity).
    apply Forall_cons in Hall as [_ Hall]. apply Forall_cons in Hall as [_ Hall].
    destruct (IH Hall) as [-> ->]. cbv iota. cbn [length]. split; [| rewrite Nat2Z.inj_succ; reflexivity].
    destruct ws as [| c ws]; [contradiction | reflexivity].
  - apply Forall_cons in Hall as [Hok _]. cbn [snd] in Hok. congruence.
  - apply Forall_cons in Hall as [_ Hall]. apply Forall_cons in Hall as [Hok _].
    cbn [snd] in Hok. congruence.
Qed.

(** C4.  Round trip.  After [save_focus_preset] has returned, a load of
    the same name made while the file is still the saved one and the
    display category is the category of the save returns [adapted=False],
    whatever the flag.  Its calls, after the listing of the live windows,
    re-apply the saved entries, one for each window listed at the save:
    an entry whose application has a live window gets the first such
    window focused and, when a workspace is recorded, moved there; an entry
    with no live window adds no call and no error; the count returned is
    the number of entries re-applied without a failing call. *)
Theorem save_then_load (name : string) (description : option string)
    (adapt_to_displays : bool) (s0 sA sB s1 s2 s3 s4 : state) (r0 : Py.pydict)
    (dc0 dc : DisplayCategory.t) (saved live : list Window.t) :
  save_focus_preset name description s0 = (inr r0, s1) →
  get_display_category s0 = (inr dc0, sA) →
  list_windows None None true sA = (inr saved, sB) →
  stored s2 name = stored s1 name →
  get_display_category s2 = (inr dc, s3) →
  DisplayCategory.category dc = DisplayCategory.category dc0 →
  list_windows None None true s3 = (inr live, s4) →
  ∃ n s5 cs,
    load_focus_preset name adapt_to_displays s2 = (inr (load_response name false n), s5)
    ∧ calls s5 = calls s4 ++ cs
    ∧ reapplied live (snapshot <$> saved) cs n
    ∧ (Forall (λ c : call, succeeded c.2 = true) cs →
       cs.*1 = concat (entry_calls live <$> (snapshot <$> saved))
       ∧ n = Z.of_nat (length (List.filter (has_live live) (snapshot <$> saved)))).
Proof.
  intros Hsave Hcat0 Hlist0 Hfile Hcat Hsame Hlist.
  destruct (save_run _ _ _ _ _ Hsave)
    as (dc0' & sA' & saved' & sB' & p & Hcat0' & Hlist0' & Hp & Hpc & Hpw).
  rewrite Hcat0 in Hcat0'. injection Hcat0' as <- <-.
  rewrite Hlist0 in Hlist0'. injection Hlist0' as <- <-.
  rewrite <- Hfile in Hp.
  pose proof (load_run name adapt_to_displays s2 s3 p dc Hp Hcat) as [_ Hpass].
  cbv zeta in Hpass.
  assert (Hd : bool_decide (Some (DisplayCategory.category dc)
                            ≠ Preset.display_category p) = false)
    by (apply bool_decide_eq_false_2; intros Hne; apply Hne; congruence).
  rewrite Hd in Hpass. destruct (Hpass eq_refl) as [_ Hok].
  destruct (Hok _ _ Hlist) as (n & s5 & cs & Hload & Hcalls & _ & Hre).
  exists n, s5, cs. rewrite <- Hpw.
  split; [exact Hload |]. split; [exact Hcalls |]. split; [exact Hre |].
  apply reapplied_all_succeeded, Hre.
Qed.

Lemma reapplied_bounds (live : list Window.t) (es : list PresetWindow.t)
    (cs : list call) (n : Z) :
  reapplied live es cs n → 0 ≤ n ≤ Z.of_nat (length es).
Proof. induction 1; cbn [length]; lia. Qed.

Lemma reapplied_focus_calls (live : list Window.t) (es : list PresetWindow.t)
    (cs : list call) (n : Z) :
  reapplied live es cs n →
  List.filter is_focus_call cs.*1
  = omap (λ e, focus_call <$> first_live live (PresetWindow.app_name e)) es.
Proof.
  induction 1 as [| e es cs n Hno _ IH | e es w r cs n Hw _ _ _ IH
                  | e es w r r' ws cs n Hw _ _ _ _ _ IH | e es w r cs n Hw _ _ IH
                  | e es w r r' ws cs n Hw _ _ _ _ _ IH];
    cbn [omap list_omap fmap list_fmap List.filter fst];
    try (rewrite (first_match_unique _ _ _ Hw); cbn [fmap option_fmap option_map];
         change (is_focus_call (focus_call w)) with true; cbv iota;
         try (change (is_focus_call (move_call ws)) with false; cbv iota);
         rewrite <- IH; reflexivity).
  - reflexivity.
  - pose proof (find_first_match live e) as Hfind.
    destruct (first_live live (PresetWindow.app_name e)) as [w |]; cbn.
    + destruct Hfind as (before & after & -> & Hw & _).
      exfalso. apply (Hno w); [| exact Hw]. apply elem_of_app. right. left.
    + exact IH.
Qed.

(** C8.  A load acts on one live window per entry at most: the focus
    calls of the loop are, entry by entry and in order, the calls for the
    first live window of the entry's application, one for each entry that
    has such a window (two entries of one application both focus that same
    first window); any focus call is therefore for the first live window of
    some entry; and the count returned is at most the number of entries. *)
Theorem load_first_window_only (name : string) (adapt_to_displays : bool)
    (s s1 s2 s3 : state) (p : Preset.t) (dc : DisplayCategory.t)
    (live : list Window.t) (r : Py.pydict) :
  stored s name = Some p →
  get_display_category s = (inr dc, s1) →
  list_windows None None true s1 = (inr live, s2) →
  load_focus_preset name adapt_to_displays s = (inr r, s3) →
  ∃ n cs,
    Py.get "windows_arranged" r = Some (Py.VInt n)
    ∧ 0 ≤ n ≤ Z.of_nat (length (Preset.windows p))
    ∧ calls s3 = calls s2 ++ cs
    ∧ List.filter is_focus_call cs.*1
      = omap (λ e, focus_call <$> first_live live (PresetWindow.app_name e))
             (Preset.windows p)
    ∧ ∀ c, c ∈ cs.*1 → is_focus_call c = true →
           ∃ e w, e ∈ Preset.windows p ∧ first_match live e w ∧ c = focus_call w.
Proof.
  intros Hp Hcat Hlist Hload.
  pose proof (load_run name adapt_to_displays s s1 p dc Hp Hcat) as [Hfail Hpass].
  cbv zeta in Hfail, Hpass.
  destruct (bool_decide _ && negb adapt_to_displays) eqn:Hgate.
  { destruct (Hfail eq_refl) as (m & d & Herr). rewrite Herr in Hload. discriminate. }
  destruct (Hpass eq_refl) as [_ Hok].
  destruct (Hok _ _ Hlist) as (n & s3' & cs & Hload' & Hcalls & _ & Hre).
  rewrite Hload' in Hload. injection Hload as <- <-.
  exists n, cs. split; [reflexivity |].
  split; [exact (reapplied_bounds _ _ _ _ Hre) |]. split; [exact Hcalls |].
  pose proof (reapplied_focus_calls _ _ _ _ Hre) as Hfocus.
  split; [exact Hfocus |].
  intros c Hc Hfc.
  assert (Hin : c ∈ List.filter is_focus_call cs.*1).
  { apply list_elem_of_In, filter_In. split; [apply list_elem_of_In, Hc | exact Hfc]. }
  rewrite Hfocus in Hin. apply list_elem_of_omap in Hin as (e & He & Hsome).
  pose proof (find_first_match live e) as Hfind.
  destruct (first_live live (PresetWindow.app_name e)) as [w |]; [| discriminate].
  injection Hsome as <-. exists e, w. repeat split; assumption.
Qed.

(** C5.  With [preset="auto"] the name is resolved through the fixed
    table, [medium_split] standing in for any category outside it; and
    whenever a preset is stored under the resolved name, the whole call is
    the call of [load_focus_preset] on that name (with the default
    [adapt_to_displays=True]), made in the state the category query left,
    and its outcome is the outcome of the call. *)
Theorem apply_auto_delegates :
  resolve_preset "auto" "small_single" = "small_single_focus"
  ∧ resolve_preset "auto" "medium_single" = "medium_split"
  ∧ resolve_preset "auto" "large_single" = "large_centered"
  ∧ resolve_preset "auto" "dual_display" = "dual_monitor_focus"
  ∧ resolve_preset "auto" "triple_plus" = "triple_monitor_focus"
  ∧ (∀ category,
       category ∉ ["small_single"; "medium_single"; "large_single"; "dual_display";
                   "triple_plus"] →
       resolve_preset "auto" category = "medium_split")
  ∧ ∀ (preset : string) (focus_window_id : option Z)
      (reference_apps : option (list string)) (hide_communication : bool)
      (s s1 : state) (dc : DisplayCategory.t),
      get_display_category s = (inr dc, s1) →
      is_Some (stored s1 (resolve_preset preset (DisplayCategory.category dc))) →
      apply_focus_preset preset focus_window_id reference_apps hide_communication s
      = load_focus_preset (resolve_preset preset (DisplayCategory.category dc)) true s1.
Proof.
  repeat apply conj; try reflexivity.
  - intros category Hnot. unfold resolve_preset. cbn [String.eqb Ascii.eqb Bool.eqb].
    unfold preset_map. cbn [Py.get].
    repeat match goal with
           | |- context [String.eqb ?k category] =>
               destruct (String.eqb_spec k category) as [<- | _];
               [exfalso; apply Hnot; set_solver |]
           end.
    reflexivity.
  - intros preset fid refs hide s s1 dc Hcat Hsaved.
    unfold apply_focus_preset. rewrite (bind_ok _ _ _ _ _ Hcat). cbv zeta.
    rewrite bind_run. unfold read_preset.
    rewrite (bool_decide_eq_true_2 _ Hsaved). reflexivity.
Qed.

End PresetFacts.

(** ** Application categories *)

Section CategoryFacts.
Context `{World}.

Lemma append_cons (c : Ascii.ascii) (a b : string) :
  String c a +:+ b = String c (a +:+ b).
Proof. reflexivity. Qed.

Lemma append_empty_r (a : string) : a +:+ "" = a.
Proof. induction a as [| c a IH]; [reflexivity |]. rewrite append_cons, IH. reflexivity. Qed.

Lemma prefix_spec (sub s : string) :
  String.prefix sub s = true ↔ ∃ after, s = sub +:+ after.
Proof.
  revert sub. induction s as [| b s IH]; intros [| a sub]; cbn [String.prefix].
  - split; [exists ""; reflexivity | reflexivity].
  - split; [discriminate | intros [after Heq]; discriminate Heq].
  - split; [exists (String b s); reflexivity | reflexivity].
  - destruct (Ascii.ascii_dec a b) as [-> | Hne].
    + rewrite IH. split; intros [after Heq]; exists after.
      * rewrite append_cons, <- Heq. reflexivity.
      * rewrite append_cons in Heq. injection Heq as ->. reflexivity.
    + split; [discriminate |]. intros [after Heq].
      rewrite append_cons in Heq. injection Heq as Hab _. congruence.
Qed.

(** [Py.contains] decides occurrence as a substring. *)
Lemma contains_spec (sub s : string) :
  Py.contains sub s = true ↔ occurs_in sub s.
Proof.
  unfold occurs_in. induction s as [| c s IH]; cbn [Py.contains].
  - rewrite orb_false_r, prefix_spec. split.
    + intros [after Heq]. exists "", after. exact Heq.
    + intros ([| b before] & after & Heq); [exists after; exact Heq |].
      rewrite append_cons in Heq. discriminate Heq.
  - rewrite orb_true_iff, prefix_spec, IH. split.
    + intros [[after Heq] | (before & after & Heq)].
      * exists "", after. exact Heq.
      * exists (String c before), after. rewrite append_cons, <- Heq. reflexivity.
    + intros ([| b before] & after & Heq).
      * left. exists after. exact Heq.
      * right. rewrite append_cons in Heq. injection Heq as -> ->.
        exists before, after. reflexivity.
Qed.

Lemma occurs_in_refl (s : string) : occurs_in s s.
Proof. exists "", "". cbn. rewrite append_empty_r. reflexivity. Qed.

Lemma lower_append (a b : string) : Py.lower (a +:+ b) = Py.lower a +:+ Py.lower b.
Proof.
  induction a as [| c a IH]; [reflexivity |].
  rewrite append_cons. cbn [Py.lower]. rewrite IH, append_cons. reflexivity.
Qed.

Lemma occurs_in_lower (sub s : string) :
  occurs_in sub s → occurs_in (Py.lower sub) (Py.lower s).
Proof.
  intros (before & after & ->). exists (Py.lower before), (Py.lower after).
  rewrite !lower_append. reflexivity.
Qed.

(** The membership test that [_get_app_category] and
    [move_app_category_to_monitor] share is containment up to case; the
    exact-equality disjunct adds nothing to it. *)
Lemma in_apps_spec (app_name : string) (apps : list string) :
  in_apps app_name apps = true ↔ contains_known_name app_name apps.
Proof.
  unfold in_apps, contains_known_name, Py.mem.
  rewrite orb_true_iff, bool_decide_eq_true, existsb_exists. split.
  - intros [Hin | (app & Hin & Hc)].
    + exists app_name. split; [exact Hin | apply occurs_in_refl].
    + exists app. split; [apply list_elem_of_In, Hin | apply contains_spec, Hc].
  - intros (app & Hin & Hocc). right. exists app.
    split; [apply list_elem_of_In, Hin | apply contains_spec, Hocc].
Qed.

Lemma in_apps_false (app_name : string) (apps : list string) :
  in_apps app_name apps = false ↔ ¬ contains_known_name app_name apps.
Proof. rewrite <- in_apps_spec. symmetry. apply not_true_iff_false. Qed.

(** What [_get_app_category] answers: the first category of the table,
    in the order of the table, one of whose names the application name
    contains. *)
Lemma get_app_category_cases (app_name : string) :
  match _get_app_category app_name with
  | Some category =>
      ∃ apps, Py.get category APP_CATEGORIES = Some apps
              ∧ in_apps app_name apps = true
  | None =>
      ∀ category apps, Py.get category APP_CATEGORIES = Some apps →
                       in_apps app_name apps = false
  end.
Proof.
  unfold _get_app_category, APP_CATEGORIES. cbn [find].
  repeat match goal with
         | |- context [if in_apps app_name ?apps then _ else _] =>
             let E := fresh "E" in destruct (in_apps app_name apps) eqn:E
         end;
    cbn [fmap option_fmap option_map fst].
  1-4: eexists; split; [reflexivity | assumption].
  intros category apps. cbn [Py.get].
  repeat match goal with
         | |- context [String.eqb ?k category] => destruct (String.eqb k category)
         end;
    intros [= <-]; assumption || discriminate.
Qed.

Lemma communication_first (app_name : string) (apps : list string) :
  Py.get "communication" APP_CATEGORIES = Some apps →
  (_get_app_category app_name = Some "communication"
   ↔ contains_known_name app_name apps).
Proof.
  intros [= <-]. rewrite <- in_apps_spec.
  unfold _get_app_category, APP_CATEGORIES. cbn [find].
  repeat match goal with
         | |- context [if in_apps app_name ?apps then _ else _] =>
             destruct (in_apps app_name apps)
         end;
    cbn [fmap option_fmap option_map fst]; split; intros; congruence.
Qed.

(** A guarded attempt on one window: the window is focused first, whatever
    comes of it. *)
Lemma focus_then_command {A} (window : Window.t) (args : list string) (new old : A)
    (s : state) :
  ∃ (result : A) (s' : state) (r : proc_result) (cs : list call),
    try_except
      (focus_window_id_cmd (Window.window_id window);; command args;; mret new) old s
    = (inr result, s')
    ∧ calls s' = calls s ++ (focus_call window, r) :: cs.
Proof.
  unfold try_except. rewrite focus_window_id_cmd_eq.
  destruct (command_spec ["focus"; "--window-id"; Py.str_int (Window.window_id window)] s)
    as (r & s1 & Hcalls1 & _ & [[_ Hrun] | [_ (c & m & d & Hrun)]]).
  - rewrite (bind_ok _ _ _ _ _ Hrun).
    destruct (command_spec args s1)
      as (r' & s2 & Hcalls2 & _ & [[_ Hrun'] | [_ (c & m & d & Hrun')]]).
    + rewrite (bind_ok _ _ _ _ _ Hrun').
      exists new, s2, r, [("aerospace" :: args, r')]. split; [reflexivity |].
      rewrite Hcalls2, Hcalls1, <- app_assoc. reflexivity.
    + rewrite (bind_raise _ _ _ _ _ Hrun').
      exists old, s2, r, [("aerospace" :: args, r')]. split; [reflexivity |].
      rewrite Hcalls2, Hcalls1, <- app_assoc. reflexivity.
  - rewrite (bind_raise _ _ _ _ _ Hrun).
    exists old, s1, r, []. split; [reflexivity | exact Hcalls1].
Qed.

(** C9.  Membership in an application category is containment up to
    case, not equality.  The test shared by [_get_app_category] and
    [move_app_category_to_monitor] holds exactly when the application name
    contains a known name of the category; a category that
    [_get_app_category] answers is one whose names the application name
    contains, and it answers [communication] exactly for the names that
    contain a communication name, as every name containing ["Mail"] does.
    The loop of [move_app_category_to_monitor] passes over a window that
    contains no known name and focuses every window that contains one; the
    windows that [apply_focus_preset] hides are the windows, other than the
    focus window and the caller's reference applications, whose name
    contains a communication name, and each is focused in its turn. *)
Theorem category_by_containment :
  (∀ app_name apps,
     in_apps app_name apps = true ↔ contains_known_name app_name apps)
  ∧ (∀ app_name category,
       _get_app_category app_name = Some category →
       ∃ apps, Py.get category APP_CATEGORIES = Some apps
               ∧ contains_known_name app_name apps)
  ∧ (∀ app_name apps,
       Py.get "communication" APP_CATEGORIES = Some apps →
       (_get_app_category app_name = Some "communication"
        ↔ contains_known_name app_name apps))
  ∧ (∀ app_name,
       occurs_in "Mail" app_name → _get_app_category app_name = Some "communication")
  ∧ (∀ category_apps target_monitor windows_moved window (s : state),
       let app_name := default "" (Window.app_name window) in
       (¬ contains_known_name app_name category_apps →
          move_window_of_category category_apps target_monitor windows_moved window s
          = (inr windows_moved, s))
       ∧ (contains_known_name app_name category_apps →
            ∃ windows_moved' s' r cs,
              move_window_of_category category_apps target_monitor windows_moved window s
              = (inr windows_moved', s')
              ∧ calls s' = calls s ++ (focus_call window, r) :: cs))
  ∧ (∀ focus_window_id reference_apps window apps,
       Py.get "communication" APP_CATEGORIES = Some apps →
       let app_name := default "" (Window.app_name window) in
       is_hidden_window focus_window_id reference_apps true window = true
       ↔ Window.window_id window ≠ focus_window_id
         ∧ (app_name ∉ reference_apps)
         ∧ contains_known_name app_name apps)
  ∧ (∀ hidden window (s : state),
       ∃ hidden' s' r cs,
         hide_window hidden window s = (inr hidden', s')
         ∧ calls s' = calls s ++ (focus_call window, r) :: cs).
Proof.
  repeat apply conj.
  - exact in_apps_spec.
  - intros app_name category Hcat.
    pose proof (get_app_category_cases app_name) as Hcases. rewrite Hcat in Hcases.
    destruct Hcases as (apps & Hget & Hin). exists apps.
    split; [exact Hget | apply in_apps_spec, Hin].
  - exact communication_first.
  - intros app_name Hmail. apply (communication_first app_name _ eq_refl).
    exists "Mail". split; [set_solver |]. apply (occurs_in_lower "Mail"), Hmail.
  - intros apps target moved window s app_name. unfold move_window_of_category.
    fold app_name. split.
    + intros Hno. apply in_apps_false in Hno. rewrite Hno. reflexivity.
    + intros Hyes. apply in_apps_spec in Hyes. rewrite Hyes.
      apply focus_then_command.
  - intros fid refs window apps Hget app_name. unfold is_hidden_window.
    fold app_name. rewrite !andb_true_iff, !negb_true_iff, orb_false_iff.
    rewrite !bool_decide_eq_true, !bool_decide_eq_false. unfold Py.mem.
    rewrite bool_decide_eq_false, (communication_first app_name apps Hget).
    split.
    + intros [[[Hid [Hrefs _]] _] Hcomm]. auto.
    + intros (Hid & Hrefs & Hcomm). repeat split; try assumption.
      apply (communication_first app_name apps Hget) in Hcomm. congruence.
  - intros hidden window s. unfold hide_window. apply focus_then_command.
Qed.

End CategoryFacts.

(** ** The fullscreen toggle *)

Section WindowFacts.
Context `{World}.

Lemma command_ok_inv (args : list string) (s s' : state) :
  command args s = (inr tt, s') →
  ∃ r, succeeded r = true ∧ calls s' = calls s ++ [("aerospace" :: args, r)].
Proof.
  intros Hrun.
  destruct (command_spec args s)
    as (r & s1 & Hcalls & _ & [[Hr Hrun'] | [_ (c & m & d & Hrun')]]);
    rewrite Hrun' in Hrun; [| discriminate].
  injection Hrun as <-. exists r. split; assumption.
Qed.

Lemma list_windows_listed (s s' : state) (live : list Window.t) :
  list_windows None None true s = (inr live, s') →
  ∃ r, calls s' = calls s ++ [(["aerospace"; "list-windows"; "--all"; "--json"], r)]
       ∧ listed r = Some live.
Proof.
  unfold list_windows. change (Py.truthy None) with false. cbv iota.
  change (["list-windows"] ++ ["--all"] ++ [] ++ []) with ["list-windows"; "--all"].
  intros Hrun. apply bind_ok_inv in Hrun as ([[stdout stderr] rc] & s1 & Hcmd & Hrest).
  unfold run_aerospace_command in Hcmd. cbn [app] in Hcmd.
  destruct (aerospace_cli _ (ext s)) as [r e].
  destruct r as [out err rc' |]; [| discriminate].
  cbn [andb] in Hcmd. destruct (rc' =? 0) eqn:Hrc; cbn [negb] in Hcmd.
  2:{ destruct (negb _ && _); discriminate. }
  injection Hcmd as -> -> -> <-.
  exists (Exited stdout stderr rc). cbn [listed]. rewrite Hrc.
  destruct (Py.truthy (Some stdout)).
  - unfold loads in Hrest. destruct (json_windows stdout) as [ws |]; [| discriminate].
    injection Hrest as <- <-. split; reflexivity.
  - injection Hrest as <- <-. split; reflexivity.
Qed.

(** The flag computed from the window found again: it is set exactly when
    a window with the identifier is in the list. *)
Lemma found_again (live : list Window.t) (id : Z) :
  match find (λ window, bool_decide (Window.window_id window = Some id)) live with
  | Some w => Window.truthy w
  | None => false
  end = true
  ↔ ∃ w, w ∈ live ∧ Window.window_id w = Some id.
Proof.
  destruct (find _ live) as [w |] eqn:Hfind.
  - apply find_some in Hfind as [Hin Hid]. apply bool_decide_eq_true in Hid.
    split.
    + intros _. exists w. split; [apply list_elem_of_In, Hin | exact Hid].
    + intros _. unfold Window.truthy. rewrite Hid. reflexivity.
  - split; [discriminate |]. intros (w & Hin & Hid).
    pose proof (find_none _ _ Hfind w (proj1 (list_elem_of_In _ _) Hin)) as Hno.
    cbv beta in Hno. rewrite (bool_decide_eq_true_2 _ Hid) in Hno. discriminate.
Qed.

(** C10, amended.  [fullscreen_toggle] asks nothing about fullscreen:
    its last two calls are the toggle and one listing of the windows, and
    it reports [fullscreen=True] exactly when the toggled window is in that
    listing, [False] when it is gone, whatever the window manager did to
    the window. *)
Theorem fullscreen_reports_window_listed (window_id : option Z) (s s' : state)
    (r : Py.pydict) :
  fullscreen_toggle window_id s = (inr r, s') →
  ∃ (id : Z) (live : list Window.t) (before : list call)
    (toggled relisted : proc_result) (is_fullscreen : bool),
    calls s' =
      before ++ [(["aerospace"; "fullscreen"], toggled);
                 (["aerospace"; "list-windows"; "--all"; "--json"], relisted)]
    ∧ succeeded toggled = true
    ∧ listed relisted = Some live
    ∧ Py.get "window_id" r = Some (Py.VInt id)
    ∧ Py.get "fullscreen" r = Some (Py.VBool is_fullscreen)
    ∧ (is_fullscreen = true ↔ ∃ w, w ∈ live ∧ Window.window_id w = Some id).
Proof.
  intros Hrun. unfold fullscreen_toggle in Hrun.
  apply bind_ok_inv in Hrun as (id & sa & _ & Hrun).
  apply bind_ok_inv in Hrun as ([] & sb & Hcmd & Hrun).
  apply bind_ok_inv in Hrun as (updated & sc & Hget & Hret).
  injection Hret as <- <-.
  unfold get_window_by_id in Hget.
  apply bind_ok_inv in Hget as (live & sc' & Hlist & Hfind).
  injection Hfind as <- <-.
  apply command_ok_inv in Hcmd as (toggled & Hok & Hcalls).
  apply list_windows_listed in Hlist as (relisted & Hcalls' & Hlisted).
  eexists id, live, (calls sa), toggled, relisted, _.
  split; [rewrite Hcalls', Hcalls, <- app_assoc; reflexivity |].
  split; [exact Hok |]. split; [exact Hlisted |]. split; [reflexivity |].
  split; [reflexivity |]. apply found_again.
Qed.

End WindowFacts.

(** ** The size estimate *)

Section EstimateFacts.
Context `{World} `{Binary64}.

(** The discrete part of the size estimate of [get_display_info]: which
    density is assumed, and when the size is zero.  The arithmetic itself is
    the parameter [Binary64]. *)
Lemma estimate_ppi_spec (is_builtin : bool) (scale_factor : Q) :
  estimate_ppi is_builtin scale_factor
  = if is_builtin || Display.Qgtb scale_factor 1 then 220 else 110.
Proof.
  unfold estimate_ppi. destruct is_builtin, (Display.Qgtb scale_factor 1); reflexivity.
Qed.

Lemma estimate_size_spec (width_px : Z) (is_builtin : bool) (scale_factor : Q) :
  let ppi := estimate_ppi is_builtin scale_factor in
  let width_inches := truediv width_px ppi in
  let height_inches := fmul width_inches 0.625 in
  estimate_size width_px ppi
  = if width_px >? 0 then
      (round_ndigits (fpow (fadd (fpow width_inches 2) (fpow height_inches 2)) 0.5) 1,
       ppi)
    else (0%Q, 0).
Proof.
  cbv zeta. unfold estimate_size. rewrite estimate_ppi_spec.
  destruct (is_builtin || Display.Qgtb scale_factor 1); reflexivity.
Qed.

Lemma size_estimate_shape (i : nat) (monitor : Monitor.t)
    (system_displays : list SystemDisplay.t) :
  let display := merge_display i monitor system_displays in
  let name := default ("Display " +:+ pretty (Z.of_nat i + 1)) (Monitor.name monitor) in
  match find (matches_system_display name) system_displays with
  | None => Display.size_inches display = Some 0%Q ∧ Display.ppi display = Some 0
  | Some system_display =>
      ∃ scale_factor,
        Display.scale_factor display = Some scale_factor
        ∧ (Display.size_inches display, Display.ppi display)
          = let '(size_inches, ppi) :=
              estimate_size
                (default 0 (SystemDisplay.resolution system_display !! "width"))
                (estimate_ppi (SystemDisplay.is_builtin system_display) scale_factor) in
            (Some size_inches, Some ppi)
  end.
Proof.
  cbv zeta. unfold merge_display.
  destruct (find _ system_displays) as [sd |]; [| split; reflexivity].
  destruct (has_scale _ _); cbv beta iota zeta;
    match goal with
    | |- context [estimate_size ?w ?p] =>
        destruct (estimate_size w p) as [size ppi] eqn:Esize
    end;
    eexists; (split; [reflexivity | rewrite Esize; reflexivity]).
Qed.

End EstimateFacts.

(** ** Runs on the desk *)

Section DeskRuns.
#[local] Existing Instance Desk.world.
#[local] Existing Instance Desk.arith.

(** Loading a name that is not stored, next to a stored one. *)
Lemma load_missing_preset_witness :
  let s := Desk.start "[firefox]" "[firefox]" "[builtin]" false
             (Some {[ "work" := Desk.work ]}) in
  stored s "nope" = None
  ∧ ∃ available : list string,
      load_focus_preset "nope" true s =
        (inl (AeroSpaceError "PRESET_NOT_FOUND" "Preset 'nope' not found"
                [("available_presets", Py.VList (Py.VStr <$> available))]),
         s)
      ∧ NoDup available
      ∧ (∀ n, n ∈ available ↔ is_Some (stored s n))
      ∧ (preset_dir s = None ∨ preset_dir s = Some ∅ → available = []).
Proof.
  intros s.
  assert (Hnone : stored s "nope" = None) by (vm_compute; reflexivity).
  split; [exact Hnone |].
  exact (load_missing_preset "nope" true s Hnone).
Defined.

(** A preset saved on two monitors, loaded on one. *)
Lemma load_display_mismatch_witness :
  let s := Desk.start "[firefox, terminal, code]" "[firefox]" "[builtin]" false
             (Some {[ "work" := Desk.work ]}) in
  stored s "work" = Some Desk.work
  ∧ (∃ dc s1, get_display_category s = (inr dc, s1)
              ∧ DisplayCategory.category dc = "small_single")
  ∧ (∃ message details s1,
       load_focus_preset "work" false s =
         (inl (AeroSpaceError "DISPLAY_MISMATCH" message details), s1))
  ∧ (∃ n s3, load_focus_preset "work" true s = (inr (load_response "work" true n), s3)).
Proof.
  intros s.
  assert (Hp : stored s "work" = Some Desk.work) by (vm_compute; reflexivity).
  destruct (get_display_category s) as [[e | dc] s1] eqn:Hcat;
    [vm_compute in Hcat; discriminate Hcat |].
  assert (Hsmall : DisplayCategory.category dc = "small_single")
    by (vm_compute in Hcat; injection Hcat as <- _; reflexivity).
  destruct (list_windows None None true s1) as [[e | live] s2] eqn:Hlist.
  { vm_compute in Hcat. injection Hcat as _ <-. vm_compute in Hlist.
    discriminate Hlist. }
  destruct (load_display_mismatch "work" s s1 Desk.work dc Hp Hcat) as [Hdiff _].
  destruct Hdiff as (Hfail & _ & _ & Hok).
  { rewrite Hsmall. discriminate. }
  split; [exact Hp |]. split; [exists dc, s1; split; [reflexivity | exact Hsmall] |].
  split.
  - destruct Hfail as (message & details & Hfail). eauto.
  - exact (Hok live s2 Hlist).
Defined.

(** [known H] evaluates the run that the equation [H] names and replaces
    the names of its results by the results. *)
Ltac known H :=
  let H' := fresh in
  pose proof H as H'; vm_compute in H';
  first [discriminate H' | injection H'; intros; subst].

(** A save on one monitor with three windows, then a load of the same name
    after the editor has been closed and a second Firefox window opened:
    the first Firefox window and the terminal are focused and moved to
    workspace 1, the entry of the editor is passed over, the count is 2. *)
Lemma save_then_load_witness :
  let s0 := Desk.start "[firefox, terminal, code]" "[firefox]" "[builtin]" false None in
  ∃ r0 s1,
    save_focus_preset "work" None s0 = (inr r0, s1)
    ∧ let s2 := Desk.reopen s1 "[terminal, firefox, firefox2]" "[terminal]" "[builtin]" in
      ∃ s5 cs,
        load_focus_preset "work" false s2 = (inr (load_response "work" false 2), s5)
        ∧ reapplied [Desk.terminal; Desk.firefox; Desk.firefox2]
                    (snapshot <$> [Desk.firefox; Desk.terminal; Desk.code]) cs 2
        ∧ cs.*1 = [focus_call Desk.firefox; move_call "1";
                   focus_call Desk.terminal; move_call "1"].
Proof.
  intros s0.
  destruct (save_focus_preset "work" None s0) as [[e | r0] s1] eqn:Hsave;
    [vm_compute in Hsave; discriminate Hsave |].
  exists r0, s1. split; [reflexivity |]. intros s2.
  destruct (get_display_category s0) as [[e | dc0] sA] eqn:Hcat0; [known Hcat0 |].
  destruct (list_windows None None true sA) as [[e | saved] sB] eqn:Hlist0;
    [known Hcat0; known Hlist0 |].
  destruct (get_display_category s2) as [[e | dc] s3] eqn:Hcat;
    [known Hsave; known Hcat |].
  destruct (list_windows None None true s3) as [[e | live] s4] eqn:Hlist;
    [known Hsave; known Hcat; known Hlist |].
  assert (Hsaved : saved = [Desk.firefox; Desk.terminal; Desk.code])
    by (known Hcat0; known Hlist0; reflexivity).
  assert (Hlive : live = [Desk.terminal; Desk.firefox; Desk.firefox2])
    by (known Hsave; known Hcat; known Hlist; reflexivity).
  assert (Hsame : DisplayCategory.category dc = DisplayCategory.category dc0)
    by (known Hsave; known Hcat0; known Hcat; reflexivity).
  destruct (save_then_load "work" None false s0 sA sB s1 s2 s3 s4 r0 dc0 dc saved live
              Hsave Hcat0 Hlist0 eq_refl Hcat Hsame Hlist)
    as (n & s5 & cs & Hload & Hcalls & Hre & Hall).
  rewrite Hsaved, Hlive in Hre, Hall.
  assert (Hcs : cs = [(focus_call Desk.firefox, Exited "" "" 0);
                      (move_call "1", Exited "" "" 0);
                      (focus_call Desk.terminal, Exited "" "" 0);
                      (move_call "1", Exited "" "" 0)]).
  { known Hsave. known Hcat. known Hlist. known Hload. vm_compute in Hcalls.
    repeat (injection Hcalls as Hcalls). symmetry. exact Hcalls. }
  assert (Hok : Forall (λ c : call, succeeded c.2 = true) cs)
    by (rewrite Hcs; repeat constructor).
  destruct (Hall Hok) as [Hnames Hn].
  assert (Hn2 : n = 2) by (rewrite Hn; reflexivity).
  exists s5, cs. rewrite <- Hn2.
  split; [exact Hload |]. split; [exact Hre |]. rewrite Hcs. reflexivity.
Defined.

(** A preset with two Firefox entries, loaded while two Firefox windows are
    open: both entries focus window 1234, and window 4321 is never named. *)
Lemma load_first_window_only_witness :
  let s := Desk.start "[terminal, firefox, firefox2]" "[terminal]" "[builtin, dell]" false
             (Some {[ "work" := Desk.work ]}) in
  ∃ (r : Py.pydict) (s3 : state) (n : Z) (cs : list call),
    load_focus_preset "work" true s = (inr r, s3)
    ∧ Py.get "windows_arranged" r = Some (Py.VInt n)
    ∧ 0 ≤ n ≤ 4
    ∧ List.filter is_focus_call cs.*1
      = [focus_call Desk.firefox; focus_call Desk.terminal; focus_call Desk.firefox]
    ∧ ∀ c, c ∈ cs.*1 → is_focus_call c = true →
           ∃ e w, e ∈ Preset.windows Desk.work
                  ∧ first_match [Desk.terminal; Desk.firefox; Desk.firefox2] e w
                  ∧ c = focus_call w.
Proof.
  intros s.
  assert (Hp : stored s "work" = Some Desk.work) by (vm_compute; reflexivity).
  destruct (get_display_category s) as [[e | dc] s1] eqn:Hcat; [known Hcat |].
  destruct (list_windows None None true s1) as [[e | live] s2] eqn:Hlist;
    [known Hcat; known Hlist |].
  destruct (load_focus_preset "work" true s) as [[e | r] s3] eqn:Hload;
    [known Hload |].
  assert (Hlive : live = [Desk.terminal; Desk.firefox; Desk.firefox2])
    by (known Hcat; known Hlist; reflexivity).
  destruct (load_first_window_only "work" true s s1 s2 s3 Desk.work dc live r
              Hp Hcat Hlist Hload)
    as (n & cs & Hn & Hbound & _ & Hfocus & Honly).
  exists r, s3, n, cs. rewrite Hlive in Hfocus, Honly.
  split; [reflexivity |]. split; [exact Hn |]. split; [exact Hbound |].
  split; [exact Hfocus | exact Honly].
Defined.

(** On two monitors ["auto"] resolves to [dual_monitor_focus]; a preset is
    stored under that name, so the call is the load of it. *)
Lemma apply_auto_delegates_witness :
  let s := Desk.start "[firefox, terminal, code]" "[firefox]" "[builtin, dell]" false
             (Some {[ "dual_monitor_focus" := Desk.work ]}) in
  ∃ dc s1,
    get_display_category s = (inr dc, s1)
    ∧ resolve_preset "auto" (DisplayCategory.category dc) = "dual_monitor_focus"
    ∧ apply_focus_preset "auto" None None false s
      = load_focus_preset "dual_monitor_focus" true s1.
Proof.
  intros s.
  destruct (get_display_category s) as [[e | dc] s1] eqn:Hcat; [known Hcat |].
  assert (Hres : resolve_preset "auto" (DisplayCategory.category dc) = "dual_monitor_focus")
    by (known Hcat; reflexivity).
  exists dc, s1. split; [reflexivity |]. split; [exact Hres |].
  destruct apply_auto_delegates as (_ & _ & _ & _ & _ & _ & Hdelegate).
  rewrite <- Hres. apply Hdelegate; [exact Hcat |].
  rewrite Hres. known Hcat. vm_compute. eauto.
Defined.

(** An application that [APP_CATEGORIES] does not list, but whose name
    contains a listed one up to case. *)
Lemma category_by_containment_witness :
  Py.mem "Airmail 5" (concat APP_CATEGORIES.*2) = false
  ∧ _get_app_category "Airmail 5" = Some "communication"
  ∧ _get_app_category "Apple Mail" = Some "communication".
Proof.
  pose proof category_by_containment as (Htest & Hsound & Hcomm & Hmail & Hrest).
  split; [vm_compute; reflexivity |]. split.
  - apply (Hcomm "Airmail 5" _ eq_refl). exists "Mail".
    split; [apply list_elem_of_In; cbn; tauto |].
    exists "air", " 5". reflexivity.
  - apply Hmail. exists "Apple ", "". reflexivity.
Defined.

(** C10, the claim as it is worded, fails when the window is gone after
    the toggle: the application quits as it is asked to go fullscreen, the
    listing that follows is empty, and the tool reports [fullscreen=False]. *)
Lemma fullscreen_false_counterexample :
  let s := Desk.start "[firefox]" "[firefox]" "[builtin]" true None in
  (fullscreen_toggle None s).1
  = inr [("success", Py.VBool true); ("window_id", Py.VInt 1234);
         ("fullscreen", Py.VBool false)]
  ∧ ¬ (∀ (window_id : option Z) (s s' : state) (r : Py.pydict),
         fullscreen_toggle window_id s = (inr r, s') →
         Py.get "fullscreen" r = Some (Py.VBool true)).
Proof.
  intros s. split; [vm_compute; reflexivity |].
  intros Hclaim.
  destruct (fullscreen_toggle None s) as [[e | r] s'] eqn:Hrun; [known Hrun |].
  specialize (Hclaim None s s' r Hrun). known Hrun. vm_compute in Hclaim.
  discriminate Hclaim.
Qed.

(** The toggle on a window that stays open. *)
Lemma fullscreen_reports_window_listed_witness :
  let s := Desk.start "[firefox, terminal, code]" "[firefox]" "[builtin]" false None in
  ∃ r s' live relisted,
    fullscreen_toggle None s = (inr r, s')
    ∧ last (calls s') = Some (["aerospace"; "list-windows"; "--all"; "--json"], relisted)
    ∧ listed relisted = Some live
    ∧ Py.get "window_id" r = Some (Py.VInt 1234)
    ∧ Py.get "fullscreen" r = Some (Py.VBool true).
Proof.
  intros s.
  destruct (fullscreen_toggle None s) as [[e | r] s'] eqn:Hrun; [known Hrun |].
  destruct (fullscreen_reports_window_listed None s s' r Hrun)
    as (id & live & before & toggled & relisted & flag & Hcalls & _ & Hlisted & _ & _).
  exists r, s', live, relisted. split; [reflexivity |]. split.
  { rewrite Hcalls, last_app_cons. reflexivity. }
  split; [exact Hlisted |]. known Hrun. split; reflexivity.
Defined.

End DeskRuns.

(** * Further properties *)

(** ** The classifier and the size category *)

Section ClassifierFacts.
Import Display.

Lemma many_displays_unfold (d1 d2 d3 : display) (rest : list display) :
  (_calculate_display_category (d1 :: d2 :: d3 :: rest)).1 = "triple_plus".
Proof.
  unfold _calculate_display_category.
  destruct (Z.of_nat (length (d1 :: d2 :: d3 :: rest)) =? 0) eqn:E0.
  - apply Z.eqb_eq in E0. cbn [length] in E0. lia.
  - destruct (Z.of_nat (length (d1 :: d2 :: d3 :: rest)) >=? 3) eqn:E3; [reflexivity |].
    rewrite Z.geb_leb in E3. apply Z.leb_gt in E3. cbn [length] in E3. lia.
Qed.

Lemma single_display_cases (d : display) :
  (_calculate_display_category [d]).1 = "small_single"
  ∨ (_calculate_display_category [d]).1 = "medium_single"
  ∨ (_calculate_display_category [d]).1 = "large_single".
Proof.
  rewrite single_display_unfold. cbv zeta.
  repeat match goal with |- context [if ?b then _ else _] => destruct b end; auto.
Qed.

(** X1.  Without a positive size a single display is classified by
    [_get_size_category]: the category is the size category of its
    resolution followed by ["_single"], so the two functions never disagree
    on the thresholds. *)
Theorem fallback_is_size_category (d : display) :
  (∀ s : Q, size_inches d = Some s → (s <= 0)%Q) →
  (_calculate_display_category [d]).1
  = _get_size_category (resolution_of d) +:+ "_single".
Proof.
  intros Hsize. rewrite single_display_unfold. cbv zeta.
  assert (Hfalse : Qgtb (default 0%Q (size_inches d)) 0 = false).
  { apply Qgtb_false. destruct (size_inches d) as [s |]; cbn.
    - apply Hsize. reflexivity.
    - apply Qle_refl. }
  rewrite Hfalse. unfold _get_size_category.
  destruct (total_pixels (resolution_of d) >=? 3686400); [reflexivity |].
  destruct (total_pixels (resolution_of d) >=? 1036800); reflexivity.
Qed.

Lemma fallback_is_size_category_witness :
  (_calculate_display_category [fixture 1920 1080 None]).1
  = _get_size_category (resolution_of (fixture 1920 1080 None)) +:+ "_single".
Proof.
  apply fallback_is_size_category. intros s Hs. discriminate Hs.
Defined.

(** X2.  The category tells how many displays there are: [unknown] means
    none, a [_single] category exactly one, [dual_display] exactly two and
    [triple_plus] three or more. *)
Theorem category_tells_count (displays : list display) :
  let category := (_calculate_display_category displays).1 in
  (category = "unknown" ↔ length displays = 0%nat)
  ∧ (category ∈ ["small_single"; "medium_single"; "large_single"]
     ↔ length displays = 1%nat)
  ∧ (category = "dual_display" ↔ length displays = 2%nat)
  ∧ (category = "triple_plus" ↔ (3 ≤ length displays)%nat).
Proof.
  cbv zeta. destruct displays as [| d1 [| d2 [| d3 rest]]].
  - change (_calculate_display_category []).1 with "unknown".
    repeat split; intros Hc; cbn [length] in *; try lia; try discriminate; try reflexivity.
    exfalso. apply list_elem_of_In in Hc. cbn in Hc.
    repeat destruct Hc as [Hc | Hc]; tauto || discriminate.
  - destruct (single_display_cases d1) as [-> | [-> | ->]];
      repeat split; intros Hc; cbn [length] in *; try lia; try discriminate;
      try reflexivity; apply list_elem_of_In; cbn; tauto.
  - change (_calculate_display_category [d1; d2]).1 with "dual_display".
    repeat split; intros Hc; cbn [length] in *; try lia; try discriminate; try reflexivity.
    exfalso. apply list_elem_of_In in Hc. cbn in Hc.
    repeat destruct Hc as [Hc | Hc]; tauto || discriminate.
  - rewrite many_displays_unfold.
    repeat split; intros Hc; cbn [length] in *; try lia; try discriminate; try reflexivity.
    exfalso. apply list_elem_of_In in Hc. cbn in Hc.
    repeat destruct Hc as [Hc | Hc]; tauto || discriminate.
Qed.

(** X3.  Among single displays with a positive size, a larger size never
    gives a smaller category. *)
Theorem single_category_monotone (d d' : display) (s s' : Q) :
  size_inches d = Some s →
  size_inches d' = Some s' →
  (0 < s)%Q → (s <= s')%Q →
  (category_rank (_calculate_display_category [d]).1
   ≤ category_rank (_calculate_display_category [d']).1)%nat.
Proof.
  intros Hs Hs' Hpos Hle. rewrite !single_display_unfold. cbv zeta.
  rewrite Hs, Hs'. cbn [default from_option]. unfold Datatypes.id.
  assert (Hpos' : (0 < s')%Q) by lra.
  apply Qgtb_true in Hpos, Hpos'. rewrite Hpos, Hpos'.
  destruct (Qgeb s 27) eqn:E27; [apply Qgeb_true in E27 | apply Qgeb_false in E27];
    (destruct (Qgeb s 15) eqn:E15; [apply Qgeb_true in E15 | apply Qgeb_false in E15]);
    (destruct (Qgeb s' 27) eqn:E27'; [apply Qgeb_true in E27' | apply Qgeb_false in E27']);
    (destruct (Qgeb s' 15) eqn:E15'; [apply Qgeb_true in E15' | apply Qgeb_false in E15']);
    try (exfalso; lra); cbn; lia.
Qed.

Lemma single_category_monotone_witness :
  (category_rank (_calculate_display_category [fixture 1366 768 (Some 13%Q)]).1
   ≤ category_rank (_calculate_display_category [fixture 1366 768 (Some 26.9%Q)]).1)%nat.
Proof.
  apply (single_category_monotone _ _ 13%Q 26.9%Q); try reflexivity; discriminate.
Defined.

End ClassifierFacts.

(** ** Rules for what every run of a tool preserves *)

Section Rules.
Context `{World} `{Binary64} `{Workspaces}.
Context (R : relation state) `{!PreOrder R}.

(** [R] does not look at the machine. *)
Hypothesis R_ext :
  ∀ s e, R s {| ext := e; preset_dir := preset_dir s; calls := calls s |}.

Lemma always_same {A} (m : M A) : (∀ s, (m s).2 = s) → always R m.
Proof. intros Hm s. rewrite Hm. reflexivity. Qed.

Lemma always_ret {A} (a : A) : always R (mret a).
Proof. apply always_same. reflexivity. Qed.

Lemma always_raise {A} (e : exn) : always R (raise e : M A).
Proof. apply always_same. reflexivity. Qed.

Lemma always_bind {A B} (m : M A) (k : A → M B) :
  always R m → (∀ a, always R (k a)) → always R (m ≫= k).
Proof.
  intros Hm Hk s. rewrite bind_run. specialize (Hm s).
  destruct (m s) as [[e | a] s1]; cbn [snd] in *; [exact Hm |].
  transitivity s1; [exact Hm | apply Hk].
Qed.

Lemma always_raise_bind {A B} (e : exn) (k : A → M B) : always R (raise e ≫= k).
Proof. apply always_same. reflexivity. Qed.

Lemma always_try {A} (body : M A) (old : A) :
  always R body → always R (try_except body old).
Proof.
  intros Hbody s. unfold try_except. specialize (Hbody s).
  destruct (body s) as [[[c m d |] | a] s1]; exact Hbody.
Qed.

Lemma always_for_each {A B} (xs : list A) (body : B → A → M B) (acc : B) :
  (∀ acc x, always R (body acc x)) → always R (for_each xs body acc).
Proof.
  intros Hbody. revert acc. induction xs as [| x xs IH]; intros acc; cbn [for_each].
  - apply always_ret.
  - apply always_bind; [apply Hbody | intros acc'; apply IH].
Qed.

Lemma always_loads {A} (decode : string → option A) (stdout : string) :
  always R (loads decode stdout).
Proof. unfold loads. destruct (decode stdout); [apply always_ret | apply always_raise]. Qed.

Lemma always_read_preset (name : string) : always R (read_preset name).
Proof. apply always_same. reflexivity. Qed.

Lemma always_available_presets : always R available_presets.
Proof. apply always_same. reflexivity. Qed.

Lemma always_now : always R now.
Proof. intros s. unfold now. destruct (utcnow_isoformat (ext s)). apply R_ext. Qed.

Lemma always_system_display_info : always R system_display_info.
Proof.
  intros s. unfold system_display_info. destruct (_get_system_display_info (ext s)).
  apply R_ext.
Qed.

Lemma always_get_display_category :
  always R list_monitors → always R get_display_category.
Proof.
  intros Hmonitors. unfold get_display_category, get_display_info.
  apply always_bind.
  - apply always_bind; [exact Hmonitors |]. intros monitors.
    apply always_bind; [apply always_system_display_info |]. intros system_displays.
    cbv zeta. destruct (Display._calculate_display_category _). apply always_ret.
  - intros display_info. cbv zeta.
    destruct (Display._calculate_display_category _).
    destruct (DisplayInfo.displays display_info); apply always_ret.
Qed.

Lemma tool_always (json_error_text : string) (body : M Py.pydict) (s : state) :
  always R body → R s (tool json_error_text body s).2.
Proof.
  intros Hbody. unfold tool. specialize (Hbody s).
  destruct (body s) as [[e | response] s']; exact Hbody.
Qed.

End Rules.

Section Relations.
Context `{World}.

#[global] Instance same_presets_preorder : PreOrder same_presets.
Proof.
  split; [intros s; reflexivity |].
  intros s1 s2 s3 H12 H23. unfold same_presets in *. congruence.
Qed.

Lemma same_presets_ext (s : state) (e : wm) :
  same_presets s {| ext := e; preset_dir := preset_dir s; calls := calls s |}.
Proof. reflexivity. Qed.

Lemma same_presets_run (args : list string) (json_output check : bool) :
  always same_presets (run_aerospace_command args json_output check).
Proof. intros s. apply run_aerospace_command_state. Qed.

#[global] Instance more_calls_preorder (P : call → Prop) : PreOrder (more_calls P).
Proof.
  split.
  - intros s. exists []. rewrite app_nil_r. split; [reflexivity | constructor].
  - intros s1 s2 s3 (cs1 & H1 & Hall1) (cs2 & H2 & Hall2). exists (cs1 ++ cs2).
    rewrite H2, H1, app_assoc. split; [reflexivity | apply Forall_app; split; assumption].
Qed.

Lemma more_calls_ext (P : call → Prop) (s : state) (e : wm) :
  more_calls P s {| ext := e; preset_dir := preset_dir s; calls := calls s |}.
Proof. exists []. cbn [calls]. rewrite app_nil_r. split; [reflexivity | constructor]. Qed.

Lemma more_calls_run (P : call → Prop) (args : list string) (json_output check : bool) :
  (∀ result,
     P ("aerospace" :: args ++ (if json_output then ["--json"] else []), result)) →
  always (more_calls P) (run_aerospace_command args json_output check).
Proof.
  intros HP s.
  pose proof (run_aerospace_command_state args json_output check s) as Hrun.
  cbv zeta in Hrun. destruct Hrun as [_ [result Hresult]].
  eexists [_]. split; [exact Hresult |]. constructor; [apply HP | constructor].
Qed.

Lemma more_calls_write (P : call → Prop) (name : string) (preset_data : Preset.t) :
  always (more_calls P) (write_preset name preset_data).
Proof.
  intros s. exists []. cbn [snd write_preset calls]. rewrite app_nil_r.
  split; [reflexivity | constructor].
Qed.

End Relations.

(** ** Rules for what a tool returns *)

Section ReturnRules.
Context `{World}.

Lemma returns_ret {A} (P : A → Prop) (a : A) : P a → returns P (mret a).
Proof. intros Ha s a' s' [= <- _]. exact Ha. Qed.

Lemma returns_raise {A} (P : A → Prop) (e : exn) : returns P (raise e).
Proof. intros s a s' Hrun. discriminate Hrun. Qed.

Lemma returns_bind {A B} (P : B → Prop) (m : M A) (k : A → M B) :
  (∀ a, returns P (k a)) → returns P (m ≫= k).
Proof.
  intros Hk s b s' Hrun. apply bind_ok_inv in Hrun as (a & s1 & _ & Hrun).
  exact (Hk a s1 b s' Hrun).
Qed.

End ReturnRules.

(** Follows a tool through its code to every call of the command line,
    where [side] takes over. *)
Ltac walk_step side :=
  lazymatch goal with
  | |- PreOrder _ => apply _
  | |- ∀ _, _ => first [apply same_presets_ext | apply more_calls_ext | intro]
  | |- always _ (mret _) => apply always_ret
  | |- always _ (raise _) => apply always_raise
  | |- always _ (loads _ _) => apply always_loads
  | |- always _ (read_preset _) => apply always_read_preset
  | |- always _ available_presets => apply always_available_presets
  | |- always _ now => apply always_now
  | |- always _ get_display_category => apply always_get_display_category
  | |- always _ list_monitors => unfold list_monitors
  | |- always _ (try_except _ _) => apply always_try
  | |- always _ (for_each _ _ _) => apply always_for_each; intros; cbv beta
  | |- always _ (run_aerospace_command _ _ _) => side
  | |- always _ (write_preset _ _) => side
  | |- always _ ((if ?b then _ else _) ≫= _) => destruct b eqn:?
  | |- always _ (match ?x with _ => _ end) => destruct x eqn:?
  | |- always _ (raise _ ≫= _) => apply always_raise_bind
  | |- always _ (_ ≫= _) => apply always_bind
  end.

Ltac walk side :=
  repeat progress unfold
    focus_window, move_window, target_window, resize_window, close_window,
    fullscreen_toggle, minimize_window, focused_response, validate_direction,
    validate_layout, set_layout, split_window, flatten_workspace, balance_sizes,
    focus_workspace, workspace_windows, list_workspaces, get_focused_workspace,
    list_windows, list_monitors, get_focused_window, get_window_by_id,
    raise_window_not_found, raise_no_window_focused, command, focus_window_id_cmd,
    load_focus_preset, arrange_entry, save_focus_preset, apply_focus_preset,
    apply_layout, move_reference, hide_window, move_app_category_to_monitor,
    move_window_of_category;
  cbv beta zeta;
  repeat walk_step side.

(** Membership in a list of names that is written out. *)
Ltac among := refine (bool_decide_eq_true_1 _ _); vm_compute; reflexivity.

(** Follows a tool to each of its [return] statements. *)
Ltac to_returns :=
  repeat first
    [ apply returns_raise
    | apply returns_ret; first [split; reflexivity | reflexivity | discriminate | eauto]
    | apply returns_bind; intros
    | progress cbv zeta
    | match goal with
      | |- returns _ (if ?b then _ else _) => destruct b
      | |- returns _ (match ?x with _ => _ end) => destruct x
      end
    | progress unfold
        focus_window, move_window, resize_window, close_window, fullscreen_toggle,
        minimize_window, focused_response, set_layout, split_window, flatten_workspace,
        balance_sizes, focus_workspace, raise_window_not_found, raise_no_window_focused,
        load_focus_preset, save_focus_preset, apply_focus_preset,
        move_app_category_to_monitor ].

(** ** What the server does for every request *)

Section ServerFacts.
Context `{World} `{Binary64} `{Workspaces}.
Variable json_error_text : string.

(** X4.  Of the tools of the server, only [save_focus_preset] writes to
    the preset directory: after any other request, answered or failed, the
    directory holds what it held before. *)
Theorem only_save_writes_presets (r : request) (s : state) :
  (∀ name description, r ≠ SaveFocusPreset name description) →
  preset_dir (serve json_error_text r s).2 = preset_dir s.
Proof.
  intros Hnot.
  destruct r; cbn [serve];
    try (exfalso; eapply Hnot; reflexivity);
    apply (tool_always same_presets);
    walk ltac:(apply same_presets_run).
Qed.

Lemma layout_map_valid (layout : string) :
  Py.mem (default "h_tiles" (Py.get layout layout_map)) VALID_LAYOUTS = true.
Proof.
  unfold layout_map. cbn [Py.get].
  repeat match goal with
         | |- context [String.eqb ?k layout] => destruct (String.eqb k layout)
         end;
    reflexivity.
Qed.

(** X6.  Whatever the request and however it ends, the server only adds
    calls to the log, and each is a call of [aerospace] with a subcommand
    from the tool's own short list: a string of the request is never run as
    a subcommand, saving a preset and asking for the display category run
    nothing but listings, and [close_window] never focuses a window. *)
Theorem serve_subcommands (r : request) (s : state) :
  ∃ cs,
    calls (serve json_error_text r s).2 = calls s ++ cs
    ∧ Forall (runs_one_of (subcommands_of r)) cs.
Proof.
  destruct r; cbn [serve subcommands_of];
    apply (tool_always (more_calls (runs_one_of _)));
    walk ltac:(first [ apply more_calls_write
                     | apply more_calls_run; intros result; eexists _, _;
                       split; [reflexivity | among] ]).
Qed.

(** X18.  No tool hands AeroSpace an argument it has not checked or
    written itself: in every call the server makes, a [focus] or [move]
    names one of the four directions (or, for [focus], a window), a
    [layout] names one of the layouts of [VALID_LAYOUTS], and a [resize]
    names one of the three dimensions. *)
Theorem serve_well_formed (r : request) (s : state) :
  ∃ cs,
    calls (serve json_error_text r s).2 = calls s ++ cs
    ∧ Forall (λ c, well_formed c = true) cs.
Proof.
  destruct r; cbn [serve];
    apply (tool_always (more_calls (λ c, well_formed c = true)));
    walk ltac:(first
                 [ apply more_calls_write
                 | apply more_calls_run; intros result;
                   first [ reflexivity
                         | apply layout_map_valid
                         | match goal with
                           | E : negb _ = false |- _ =>
                               apply negb_false_iff in E; exact E
                           end ] ]).
Qed.

(** X5.  Every request is answered with the envelope of the server: for
    a tool that raised, [{success: False, error: {code, message, details}}],
    where an exception that is no [AeroSpaceError] gets the code
    [UNKNOWN_ERROR]; for a tool that returned, its response, which reports
    [success=True] and has no ["error"] key.  The one exception is
    [get_display_category], whose response has no ["success"] key at all. *)
Theorem serve_envelope (r : request) (s : state) :
  (∃ code message details,
     (serve json_error_text r s).1 = to_dict code message details
     ∧ Py.get "success" (serve json_error_text r s).1 = Some (Py.VBool false))
  ∨ match r with
    | GetDisplayCategory =>
        ∃ dc, (serve json_error_text r s).1 = category_response dc
              ∧ Py.get "success" (serve json_error_text r s).1 = None
    | _ => answered (serve json_error_text r s).1
    end.
Proof.
  assert (Htool : ∀ (P : Py.pydict → Prop) (body : M Py.pydict),
            returns P body →
            (∃ code message details,
               (tool json_error_text body s).1 = to_dict code message details
               ∧ Py.get "success" (tool json_error_text body s).1 = Some (Py.VBool false))
            ∨ P (tool json_error_text body s).1).
  { intros P body Hbody. unfold tool. specialize (Hbody s).
    destruct (body s) as [[e | response] s'].
    - left. destruct e as [code message details |]; cbn [fst handle_error]; eauto 6.
    - right. exact (Hbody response s' eq_refl). }
  destruct r; cbn [serve];
    first [ apply (Htool answered)
          | apply (Htool (λ response,
                            ∃ dc, response = category_response dc
                                  ∧ Py.get "success" response = None)) ];
    to_returns.
Qed.

End ServerFacts.

(** ** What a tool does on a machine that answers as given *)

Section RunFacts.
Context `{World} `{Binary64} `{Workspaces}.
Variable json_error_text : string.

Lemma after_after (s : state) (e1 e2 : wm) (cs1 cs2 : list call) :
  after (after s e1 cs1) e2 cs2 = after s e2 (cs1 ++ cs2).
Proof. unfold after. cbn [preset_dir calls]. rewrite app_assoc. reflexivity. Qed.

Lemma run_returns (args : list string) (json_output check : bool) (s : state)
    (out err : string) (rc : Z) (e : wm) :
  aerospace_cli ("aerospace" :: args ++ (if json_output then ["--json"] else [])) (ext s)
  = (Exited out err rc, e) →
  check = false ∨ rc = 0 →
  run_aerospace_command args json_output check s
  = (inr (out, err, rc),
     after s e [("aerospace" :: args ++ (if json_output then ["--json"] else []),
                 Exited out err rc)]).
Proof.
  intros Hcli Hok. unfold run_aerospace_command. rewrite Hcli.
  destruct Hok as [-> | ->]; [reflexivity |].
  rewrite andb_false_r. reflexivity.
Qed.

Lemma command_run (args : list string) (s : state) (r : proc_result) (e : wm) :
  aerospace_cli ("aerospace" :: args) (ext s) = (r, e) →
  succeeded r = true →
  command args s = (inr tt, after s e [("aerospace" :: args, r)]).
Proof.
  intros Hcli Hok. destruct r as [out err rc |]; [| discriminate].
  cbn [succeeded] in Hok. apply Z.eqb_eq in Hok as ->.
  unfold command. rewrite bind_run.
  rewrite (run_returns args false true s out err 0 e);
    rewrite ?app_nil_r; [reflexivity | exact Hcli | right; reflexivity].
Qed.

Lemma list_windows_run (s : state) (r : proc_result) (e : wm) (live : list Window.t) :
  aerospace_cli LIST_ALL (ext s) = (r, e) →
  listed r = Some live →
  list_windows None None true s = (inr live, after s e [(LIST_ALL, r)]).
Proof.
  intros Hcli Hlisted. destruct r as [out err rc |]; [| discriminate].
  cbn [listed] in Hlisted. destruct (rc =? 0) eqn:Hrc; [| discriminate].
  apply Z.eqb_eq in Hrc as ->.
  unfold list_windows. change (Py.truthy None) with false. cbv iota.
  change (["list-windows"] ++ ["--all"] ++ [] ++ []) with ["list-windows"; "--all"].
  rewrite bind_run.
  rewrite (run_returns ["list-windows"; "--all"] true true s out err 0 e);
    [| exact Hcli | right; reflexivity].
  cbv beta iota. destruct (Py.truthy (Some out)).
  - unfold loads. rewrite Hlisted. reflexivity.
  - injection Hlisted as <-. reflexivity.
Qed.

Lemma find_unlisted (live : list Window.t) (window_id : Z) :
  (∀ w, w ∈ live → Window.window_id w ≠ Some window_id) →
  find (λ window, bool_decide (Window.window_id window = Some window_id)) live = None.
Proof.
  intros Hnot. destruct (find _ live) as [w |] eqn:Hfind; [| reflexivity].
  apply find_some in Hfind as [Hin Hid]. apply bool_decide_eq_true in Hid.
  destruct (Hnot w (proj2 (list_elem_of_In _ _) Hin) Hid).
Qed.

Lemma get_window_by_id_run (window_id : Z) (s : state) (r : proc_result) (e : wm)
    (live : list Window.t) :
  aerospace_cli LIST_ALL (ext s) = (r, e) →
  listed r = Some live →
  get_window_by_id window_id s
  = (inr (find (λ window, bool_decide (Window.window_id window = Some window_id)) live),
     after s e [(LIST_ALL, r)]).
Proof.
  intros Hcli Hlisted. unfold get_window_by_id.
  rewrite (bind_ok _ _ _ _ _ (list_windows_run s r e live Hcli Hlisted)). reflexivity.
Qed.

Lemma raise_window_not_found_run {A} (window_id : Z) (s : state) (r : proc_result)
    (e : wm) (live : list Window.t) :
  aerospace_cli LIST_ALL (ext s) = (r, e) →
  listed r = Some live →
  raise_window_not_found (A := A) window_id s
  = (inl (AeroSpaceError ERROR_WINDOW_NOT_FOUND
            ("Window with ID " +:+ pretty window_id +:+ " not found")
            [("requested_window_id", Py.VInt window_id);
             ("available_windows", window_ids live)]),
     after s e [(LIST_ALL, r)]).
Proof.
  intros Hcli Hlisted. unfold raise_window_not_found.
  rewrite (bind_ok _ _ _ _ _ (list_windows_run s r e live Hcli Hlisted)). reflexivity.
Qed.

(** X7.  A window tool that is given the identifier of a window that the
    listing does not show lists the windows a second time and answers
    [WINDOW_NOT_FOUND]; the identifiers it offers are those of the second
    listing, and no command other than the two listings is run. *)
Theorem unlisted_window_not_found (r : request) (window_id : Z) (s : state)
    (first second : proc_result) (e1 e2 : wm) (live available : list Window.t) :
  named_window r = Some window_id →
  aerospace_cli LIST_ALL (ext s) = (first, e1) →
  listed first = Some live →
  (∀ w, w ∈ live → Window.window_id w ≠ Some window_id) →
  aerospace_cli LIST_ALL e1 = (second, e2) →
  listed second = Some available →
  serve json_error_text r s
  = (to_dict ERROR_WINDOW_NOT_FOUND
       ("Window with ID " +:+ pretty window_id +:+ " not found")
       [("requested_window_id", Py.VInt window_id);
        ("available_windows", window_ids available)],
     after s e2 [(LIST_ALL, first); (LIST_ALL, second)]).
Proof.
  intros Hnamed Hcli1 Hlive Hnot Hcli2 Havailable.
  pose proof (get_window_by_id_run window_id s first e1 live Hcli1 Hlive) as Hget.
  rewrite (find_unlisted live window_id Hnot) in Hget.
  assert (Hraise : ∀ A,
            raise_window_not_found (A := A) window_id (after s e1 [(LIST_ALL, first)])
            = (inl (AeroSpaceError ERROR_WINDOW_NOT_FOUND
                      ("Window with ID " +:+ pretty window_id +:+ " not found")
                      [("requested_window_id", Py.VInt window_id);
                       ("available_windows", window_ids available)]),
               after s e2 [(LIST_ALL, first); (LIST_ALL, second)])).
  { intros A.
    rewrite (raise_window_not_found_run window_id (after s e1 [(LIST_ALL, first)])
               second e2 available Hcli2 Havailable).
    rewrite after_after. reflexivity. }
  destruct r; cbn [named_window] in Hnamed;
    repeat match type of Hnamed with
           | context [match ?x with _ => _ end] => destruct x
           end;
    try discriminate Hnamed; injection Hnamed as ->; cbn [serve];
    unfold tool, focus_window, move_window, close_window, fullscreen_toggle,
      minimize_window, target_window;
    rewrite !bind_run, Hget; rewrite ?bind_run, Hraise; reflexivity.
Qed.

Lemma get_focused_window_none (s : state) (out err : string) (rc : Z) (e : wm) :
  aerospace_cli LIST_FOCUSED (ext s) = (Exited out err rc, e) →
  rc ≠ 0 ∨ out = "" ∨ json_windows out = Some [] →
  get_focused_window s = (inr None, after s e [(LIST_FOCUSED, Exited out err rc)]).
Proof.
  intros Hcli Hnone. unfold get_focused_window. rewrite bind_run.
  rewrite (run_returns ["list-windows"; "--focused"] true false s out err rc e);
    [| exact Hcli | left; reflexivity].
  cbv beta iota.
  destruct (negb (rc =? 0) || negb (Py.truthy (Some out))) eqn:Hcond; [reflexivity |].
  apply orb_false_elim in Hcond as [Hrc Hout].
  apply negb_false_iff in Hrc. apply Z.eqb_eq in Hrc.
  apply negb_false_iff in Hout.
  destruct Hnone as [Hne | [-> | Hjson]]; [contradiction | discriminate |].
  rewrite bind_run. unfold loads. rewrite Hjson. reflexivity.
Qed.

(** X8.  A tool that acts on the focused window asks for it with
    [check=False]: when that listing fails, prints nothing or prints an
    empty list, the tool answers [NO_WINDOW_FOCUSED] and not
    [COMMAND_FAILED], and runs nothing else. *)
Theorem no_focused_window (r : request) (s : state) (out err : string) (rc : Z)
    (e : wm) :
  on_focused_window r = true →
  aerospace_cli LIST_FOCUSED (ext s) = (Exited out err rc, e) →
  rc ≠ 0 ∨ out = "" ∨ json_windows out = Some [] →
  serve json_error_text r s
  = (to_dict ERROR_NO_WINDOW_FOCUSED "No window is currently focused"
       [("suggestion", Py.VStr "Focus a window first")],
     after s e [(LIST_FOCUSED, Exited out err rc)]).
Proof.
  intros Hr Hcli Hnone.
  pose proof (get_focused_window_none s out err rc e Hcli Hnone) as Hget.
  destruct r; cbn [on_focused_window] in Hr;
    repeat match type of Hr with
           | context [match ?x with _ => _ end] => destruct x
           end;
    try discriminate Hr; cbn [serve];
    unfold tool, move_window, resize_window, close_window, fullscreen_toggle,
      minimize_window, target_window;
    rewrite ?Hr; cbn [negb]; rewrite !bind_run, Hget; reflexivity.
Qed.

Lemma get_category_apps (category : string) :
  Py.mem category APP_CATEGORIES.*1 = false → Py.get category APP_CATEGORIES = None.
Proof.
  unfold Py.mem. intros Hmem. apply bool_decide_eq_false in Hmem.
  cbn [APP_CATEGORIES Py.get].
  repeat match goal with
         | |- context [String.eqb ?k category] =>
             destruct (String.eqb_spec k category) as [<- | _];
             [exfalso; apply Hmem; among |]
         end.
  reflexivity.
Qed.

(** X9.  A request that a parameter check at the head of its tool turns
    down is answered with [INVALID_PARAMETERS], [INVALID_DIRECTION] or
    [INVALID_LAYOUT] before anything is run: the state is the one the
    request found. *)
Theorem turned_down_untouched (r : request) (s : state) :
  turned_down r = true →
  ∃ code message details,
    serve json_error_text r s = (to_dict code message details, s)
    ∧ code ∈ ["INVALID_PARAMETERS"; ERROR_INVALID_DIRECTION; ERROR_INVALID_LAYOUT].
Proof.
  intros Hr.
  destruct r; cbn [turned_down] in Hr;
    repeat match type of Hr with
           | context [match ?x with _ => _ end] => destruct x
           end;
    try discriminate Hr; cbn [serve]; unfold tool.
  - eexists _, _, _. split; [reflexivity | among].
  - cbn [focus_window]. rewrite bind_run. unfold validate_direction. rewrite Hr.
    eexists _, _, _. split; [reflexivity | among].
  - eexists _, _, _. split; [reflexivity | among].
  - unfold resize_window. rewrite Hr. eexists _, _, _. split; [reflexivity | among].
  - unfold set_layout. rewrite bind_run. unfold validate_layout. rewrite Hr.
    eexists _, _, _. split; [reflexivity | among].
  - unfold split_window. rewrite Hr. eexists _, _, _. split; [reflexivity | among].
  - unfold move_app_category_to_monitor.
    destruct (Py.mem category APP_CATEGORIES.*1) eqn:Hcategory.
    + cbn [negb orb] in Hr.
      destruct (Py.get category APP_CATEGORIES) as [apps |]; [rewrite Hr |];
        (eexists _, _, _; split; [reflexivity | among]).
    + rewrite (get_category_apps category Hcategory).
      eexists _, _, _. split; [reflexivity | among].
Qed.

Lemma find_listed (live : list Window.t) (window_id : Z) (w : Window.t) :
  w ∈ live → Window.window_id w = Some window_id →
  is_Some (find (λ window, bool_decide (Window.window_id window = Some window_id)) live).
Proof.
  intros Hin Hid. destruct (find _ live) as [w' |] eqn:Hfind; [eexists; reflexivity |].
  pose proof (find_none _ _ Hfind w (proj1 (list_elem_of_In _ _) Hin)) as Hno.
  cbv beta in Hno. rewrite (bool_decide_eq_true_2 _ Hid) in Hno. discriminate.
Qed.

(** X10.  [move_window] looks at [target_type] only after it has found
    and focused the window it was given: a request with a target type that
    is none of the three is answered with [INVALID_PARAMETERS], but by then
    the window named has the focus. *)
Theorem invalid_move_focuses_first (target_type target : string) (window_id : Z)
    (s : state) (listing focusing : proc_result) (e1 e2 : wm) (live : list Window.t)
    (w : Window.t) :
  aerospace_cli LIST_ALL (ext s) = (listing, e1) →
  listed listing = Some live →
  w ∈ live → Window.window_id w = Some window_id →
  aerospace_cli ["aerospace"; "focus"; "--window-id"; pretty window_id] e1
  = (focusing, e2) →
  succeeded focusing = true →
  Py.mem target_type ["workspace"; "monitor"; "direction"] = false →
  serve json_error_text (MoveWindow target_type target (Some window_id)) s
  = (to_dict "INVALID_PARAMETERS"
       ("Invalid target_type '" +:+ target_type
        +:+ "'. Must be: workspace, monitor, or direction")
       [("provided", Py.VStr target_type);
        ("valid_options", Py.VList (Py.VStr <$> ["workspace"; "monitor"; "direction"]))],
     after s e2 [(LIST_ALL, listing);
                 (["aerospace"; "focus"; "--window-id"; pretty window_id], focusing)]).
Proof.
  intros Hcli1 Hlive Hin Hid Hcli2 Hok Htype.
  pose proof (get_window_by_id_run window_id s listing e1 live Hcli1 Hlive) as Hget.
  destruct (find_listed live window_id w Hin Hid) as [w' Hfind]. rewrite Hfind in Hget.
  pose proof (command_run ["focus"; "--window-id"; pretty window_id]
                (after s e1 [(LIST_ALL, listing)]) focusing e2 Hcli2 Hok) as Hfocus.
  rewrite after_after in Hfocus.
  apply bool_decide_eq_false in Htype.
  cbn [serve]. unfold tool, move_window, target_window.
  rewrite !bind_run, Hget. cbv beta iota. rewrite bind_run.
  rewrite focus_window_id_cmd_eq. cbn [Py.str_int from_option].
  rewrite Hfocus. cbv beta iota.
  destruct (String.eqb_spec target_type "workspace") as [-> | _];
    [exfalso; apply Htype; among |].
  destruct (String.eqb_spec target_type "monitor") as [-> | _];
    [exfalso; apply Htype; among |].
  destruct (String.eqb_spec target_type "direction") as [-> | _];
    [exfalso; apply Htype; among |].
  reflexivity.
Qed.

End RunFacts.

Section DeskRunsB.
#[local] Existing Instance Desk.world.
#[local] Existing Instance Desk.arith.
#[local] Existing Instance desk_workspaces.

Lemma unlisted_window_not_found_witness :
  serve "no JSON" (CloseWindow (Some 42))
    (Desk.start "[firefox]" "[firefox]" "[builtin]" false None)
  = (to_dict ERROR_WINDOW_NOT_FOUND "Window with ID 42 not found"
       [("requested_window_id", Py.VInt 42);
        ("available_windows", Py.VList [Py.VInt 1234])],
     after (Desk.start "[firefox]" "[firefox]" "[builtin]" false None)
       (ext (Desk.start "[firefox]" "[firefox]" "[builtin]" false None))
       [(LIST_ALL, Exited "[firefox]" "" 0); (LIST_ALL, Exited "[firefox]" "" 0)]).
Proof.
  apply (unlisted_window_not_found "no JSON" (CloseWindow (Some 42)) 42
           (Desk.start "[firefox]" "[firefox]" "[builtin]" false None)
           (Exited "[firefox]" "" 0) (Exited "[firefox]" "" 0)
           (ext (Desk.start "[firefox]" "[firefox]" "[builtin]" false None))
           (ext (Desk.start "[firefox]" "[firefox]" "[builtin]" false None))
           [Desk.firefox] [Desk.firefox]);
    try reflexivity.
  intros w Hin. apply list_elem_of_In in Hin. cbn in Hin.
  destruct Hin as [<- | []]. discriminate.
Defined.

Lemma no_focused_window_witness :
  serve "no JSON" (MinimizeWindow None)
    (Desk.start "[firefox]" "[]" "[builtin]" false None)
  = (to_dict ERROR_NO_WINDOW_FOCUSED "No window is currently focused"
       [("suggestion", Py.VStr "Focus a window first")],
     after (Desk.start "[firefox]" "[]" "[builtin]" false None)
       (ext (Desk.start "[firefox]" "[]" "[builtin]" false None))
       [(LIST_FOCUSED, Exited "[]" "" 0)]).
Proof.
  apply (no_focused_window "no JSON" (MinimizeWindow None)
           (Desk.start "[firefox]" "[]" "[builtin]" false None) "[]" "" 0
           (ext (Desk.start "[firefox]" "[]" "[builtin]" false None)));
    [reflexivity | reflexivity | right; right; reflexivity].
Defined.

Lemma turned_down_untouched_witness :
  ∃ code message details,
    serve "no JSON" (FocusWindow (Some "north") None)
      (Desk.start "[firefox]" "[firefox]" "[builtin]" false None)
    = (to_dict code message details,
       Desk.start "[firefox]" "[firefox]" "[builtin]" false None)
    ∧ code ∈ ["INVALID_PARAMETERS"; ERROR_INVALID_DIRECTION; ERROR_INVALID_LAYOUT].
Proof.
  apply (turned_down_untouched "no JSON" (FocusWindow (Some "north") None)).
  reflexivity.
Defined.

Lemma invalid_move_focuses_first_witness :
  serve "no JSON" (MoveWindow "desktop" "2" (Some 1234))
    (Desk.start "[firefox]" "[firefox]" "[builtin]" false None)
  = (to_dict "INVALID_PARAMETERS"
       "Invalid target_type 'desktop'. Must be: workspace, monitor, or direction"
       [("provided", Py.VStr "desktop");
        ("valid_options", Py.VList (Py.VStr <$> ["workspace"; "monitor"; "direction"]))],
     after (Desk.start "[firefox]" "[firefox]" "[builtin]" false None)
       (ext (Desk.start "[firefox]" "[firefox]" "[builtin]" false None))
       [(LIST_ALL, Exited "[firefox]" "" 0);
        (["aerospace"; "focus"; "--window-id"; "1234"], Exited "" "" 0)]).
Proof.
  apply (invalid_move_focuses_first "no JSON" "desktop" "2" 1234
           (Desk.start "[firefox]" "[firefox]" "[builtin]" false None)
           (Exited "[firefox]" "" 0) (Exited "" "" 0)
           (ext (Desk.start "[firefox]" "[firefox]" "[builtin]" false None))
           (ext (Desk.start "[firefox]" "[firefox]" "[builtin]" false None))
           [Desk.firefox] Desk.firefox);
    try reflexivity.
  apply list_elem_of_In. cbn. tauto.
Defined.

End DeskRunsB.

(** ** The preset store *)

Section StoreFacts.
Context `{World} `{Binary64} `{Workspaces}.

(** X11.  [save_focus_preset] writes its file last: a save that raises
    has written nothing, and a save that returns has created the directory
    if need be and written the one file of the preset, under the name given
    and with the description given or, for none or an empty one, the
    default; the files of other names are as they were. *)
Theorem save_writes_one_file (name : string) (description : option string) (s : state) :
  match save_focus_preset name description s with
  | (inl _, s') => preset_dir s' = preset_dir s
  | (inr _, s') =>
      ∃ p, preset_dir s' = Some (<[name := p]> (default ∅ (preset_dir s)))
           ∧ Preset.name p = name
           ∧ Preset.description p
             = match description with
               | Some (String c d) => String c d
               | _ => "Focus preset: " +:+ name
               end
           ∧ ∀ other, other ≠ name → stored s' other = stored s other
  end.
Proof.
  assert (Hcategory : always same_presets get_display_category)
    by walk ltac:(apply same_presets_run).
  assert (Hwindows : always same_presets (list_windows None None true))
    by walk ltac:(apply same_presets_run).
  assert (Hmonitors : always same_presets list_monitors)
    by walk ltac:(apply same_presets_run).
  unfold always, same_presets in *.
  unfold save_focus_preset. rewrite bind_run.
  pose proof (Hcategory s) as Hs1.
  destruct (get_display_category s) as [[e | dc] s1]; cbn [snd] in Hs1; [exact Hs1 |].
  rewrite bind_run. pose proof (Hwindows s1) as Hs2.
  destruct (list_windows None None true s1) as [[e | all_windows] s2]; cbn [snd] in Hs2;
    [congruence |].
  rewrite bind_run. pose proof (Hmonitors s2) as Hs3.
  destruct (list_monitors s2) as [[e | monitors] s3]; cbn [snd] in Hs3; [congruence |].
  rewrite bind_run. unfold now at 1.
  destruct (utcnow_isoformat (ext s3)) as [created_at e4]. cbv zeta.
  rewrite bind_run. unfold write_preset at 1. cbv beta iota. cbn [mret M_ret].
  cbn [preset_dir]. rewrite Hs3, Hs2, Hs1.
  eexists. split; [reflexivity |]. split; [reflexivity |]. split.
  - cbn [Preset.description]. destruct description as [[| c d] |]; reflexivity.
  - intros other Hother. unfold stored. cbn [preset_dir mbind option_bind].
    rewrite lookup_insert_ne by congruence.
    destruct (preset_dir s); [reflexivity | apply lookup_empty].
Qed.

End StoreFacts.

(** ** Application names *)

Section NameFacts.

(** X12.  The category of an application does not depend on the case of
    its name: two names that differ only in case are classified alike. *)
Theorem app_category_ignores_case (a b : string) :
  Py.lower a = Py.lower b → _get_app_category a = _get_app_category b.
Proof.
  intros Hlower.
  assert (Hsame : ∀ apps, in_apps a apps = in_apps b apps).
  { intros apps.
    assert (Hiff : in_apps a apps = true ↔ in_apps b apps = true).
    { rewrite !in_apps_spec. unfold contains_known_name. rewrite Hlower. reflexivity. }
    destruct (in_apps a apps), (in_apps b apps); try reflexivity.
    - symmetry. apply Hiff. reflexivity.
    - apply Hiff. reflexivity. }
  unfold _get_app_category, APP_CATEGORIES. cbn [find]. rewrite !Hsame. reflexivity.
Qed.

Lemma app_category_ignores_case_witness :
  Py.lower "SLACK" = Py.lower "Slack"
  ∧ _get_app_category "SLACK" = _get_app_category "Slack".
Proof.
  split; [reflexivity |]. apply (app_category_ignores_case "SLACK" "Slack"). reflexivity.
Defined.

(** X13.  The table of applications agrees with the classifier: every
    name that [APP_CATEGORIES] lists under a category is classified as that
    category, although a name is tried against the categories in order and
    matches by containment. *)
Theorem listed_names_keep_their_category :
  Forall (λ '(category, apps),
            Forall (λ app, _get_app_category app = Some category) apps)
         APP_CATEGORIES.
Proof.
  unfold APP_CATEGORIES.
  repeat (apply List.Forall_cons;
          [repeat (apply List.Forall_cons; [vm_compute; reflexivity |]);
           apply List.Forall_nil |]).
  apply List.Forall_nil.
Qed.

End NameFacts.

(** ** Monitors by number *)

Section NumberFacts.

Lemma digit_of_char (x : N) :
  (x < 10)%N →
  Py.is_digit (pretty_N_char x) = true
  ∧ Z.of_nat (Ascii.nat_of_ascii (pretty_N_char x)) - 48 = Z.of_N x.
Proof.
  intros Hx.
  assert (Hcases : (x = 0 ∨ x = 1 ∨ x = 2 ∨ x = 3 ∨ x = 4 ∨ x = 5 ∨ x = 6 ∨ x = 7
                    ∨ x = 8 ∨ x = 9)%N) by lia.
  repeat destruct Hcases as [-> | Hcases]; try subst x; split; reflexivity.
Qed.

Lemma pretty_N_go_digits (x : N) (t : string) :
  Py.all_digits t = true →
  Py.all_digits (pretty_N_go x t) = true
  ∧ Py.int_acc 0 (pretty_N_go x t) = Py.int_acc (Z.of_N x) t.
Proof.
  revert t. induction (N.lt_wf_0 x) as [x _ IH]. intros t Ht.
  destruct (decide (x = 0)%N) as [-> | Hx].
  - rewrite pretty_N_go_0. split; [exact Ht | reflexivity].
  - rewrite pretty_N_go_step by lia.
    destruct (digit_of_char (x `mod` 10)%N) as [Hdigit Hvalue];
      [apply N.mod_lt; lia |].
    destruct (IH (x `div` 10)%N (N.div_lt x 10 ltac:(lia) ltac:(lia))
                 (String (pretty_N_char (x `mod` 10)) t)) as [Hall Hint].
    { cbn [Py.all_digits]. rewrite Hdigit, Ht. reflexivity. }
    split; [exact Hall |]. rewrite Hint. cbn [Py.int_acc]. rewrite Hvalue.
    f_equal. rewrite (N.div_mod x 10) at 3 by lia. lia.
Qed.

Lemma pretty_N_go_nonempty (x : N) (t : string) : t ≠ "" → pretty_N_go x t ≠ "".
Proof.
  revert t. induction (N.lt_wf_0 x) as [x _ IH]. intros t Ht.
  destruct (decide (x = 0)%N) as [-> | Hx].
  - rewrite pretty_N_go_0. exact Ht.
  - rewrite pretty_N_go_step by lia.
    apply IH; [apply N.div_lt; lia | discriminate].
Qed.

(** [str] of a natural number is a string of digits that [int] reads
    back. *)
Lemma int_str (k : Z) :
  0 ≤ k → Py.isdigit (pretty k) = true ∧ Py.int (pretty k) = k.
Proof.
  intros Hk. destruct k as [| p | p]; [split; reflexivity | | lia].
  change (pretty (Z.pos p)) with (pretty (N.pos p)).
  unfold pretty, pretty_N. destruct (decide (N.pos p = 0)%N) as [Hp | _]; [lia |].
  destruct (pretty_N_go_digits (N.pos p) "" eq_refl) as [Hall Hint].
  split.
  - unfold Py.isdigit. rewrite pretty_N_go_step in * by lia.
    destruct (pretty_N_go _ _) eqn:Hgo; [| exact Hall].
    exfalso. revert Hgo. apply pretty_N_go_nonempty. discriminate.
  - unfold Py.int. rewrite Hint. reflexivity.
Qed.

(** X14.  A monitor given by its number: the decimal numeral of [k]
    selects the [k]-th monitor of the listing, counting from one, and no
    monitor when [k] is zero or larger than the number of monitors. *)
Theorem monitor_by_number (k : Z) (monitors : list Monitor.t) :
  0 ≤ k →
  target_monitor_of (pretty k) monitors
  = if (1 <=? k) && (k <=? Z.of_nat (length monitors))
    then monitors !! Z.to_nat (k - 1) ≫= Monitor.name
    else None.
Proof.
  intros Hk. destruct (int_str k Hk) as [Hdigit Hint].
  unfold target_monitor_of.
  assert (Hword : ∀ word, Py.isdigit word = false → String.eqb (pretty k) word = false).
  { intros word Hw. destruct (String.eqb_spec (pretty k) word) as [Heq | _];
      [| reflexivity]. rewrite Heq, Hw in Hdigit. discriminate. }
  rewrite !Hword by reflexivity. cbn [andb]. rewrite Hdigit, Hint.
  replace (0 <=? k - 1) with (1 <=? k) by lia.
  replace (k - 1 <? Z.of_nat (length monitors)) with (k <=? Z.of_nat (length monitors))
    by lia.
  reflexivity.
Qed.

Lemma monitor_by_number_witness :
  0 ≤ 2 ∧ target_monitor_of "2" [Desk.builtin; Desk.dell] = Some "DELL U2720Q".
Proof.
  split; [lia |]. apply (monitor_by_number 2 [Desk.builtin; Desk.dell]). lia.
Defined.

End NumberFacts.

(** ** The display category when [system_profiler] tells nothing *)

Section BareDisplays.
Context `{World} `{Binary64}.
Import Display.

Lemma list_monitors_run (s : state) (r : proc_result) (e : wm)
    (monitors : list Monitor.t) :
  aerospace_cli LIST_MONITORS (ext s) = (r, e) →
  monitors_listed r = Some monitors →
  list_monitors s = (inr monitors, after s e [(LIST_MONITORS, r)]).
Proof.
  intros Hcli Hlisted. destruct r as [out err rc |]; [| discriminate].
  cbn [monitors_listed] in Hlisted. destruct (rc =? 0) eqn:Hrc; [| discriminate].
  apply Z.eqb_eq in Hrc as ->.
  unfold list_monitors. rewrite bind_run.
  rewrite (run_returns ["list-monitors"] true true s out err 0 e);
    [| exact Hcli | right; reflexivity].
  cbv beta iota. destruct (Py.truthy (Some out)).
  - unfold loads. rewrite Hlisted. reflexivity.
  - injection Hlisted as <-. reflexivity.
Qed.

Lemma bare_size (i : nat) (monitor : Monitor.t) :
  _get_size_category (resolution_of (merge_display i monitor [])) = "small".
Proof. vm_compute. reflexivity. Qed.

Lemma bare_primary (i : nat) (monitor : Monitor.t) :
  is_primary (merge_display i monitor []) = Some (bool_decide (i = 0%nat)).
Proof. reflexivity. Qed.

Lemma bare_single (monitor : Monitor.t) :
  (_calculate_display_category [merge_display 0 monitor []]).1 = "small_single".
Proof. vm_compute. reflexivity. Qed.

Lemma all_secondary {A} (g : nat → A → display) (l : list A) :
  (∀ i a, is_primary (g i a) = Some false) →
  (∀ i a, _get_size_category (resolution_of (g i a)) = "small") →
  (λ d, _get_size_category (resolution_of d))
    <$> filter (λ d, default false (is_primary d) = false) (imap g l)
  = replicate (length l) "small".
Proof.
  intros Hprimary Hsize. revert g Hprimary Hsize.
  induction l as [| a l IH]; intros g Hprimary Hsize; [reflexivity |].
  cbn [imap length replicate]. rewrite filter_cons_True.
  - rewrite fmap_cons, Hsize. f_equal. apply IH; intros i a'; [apply Hprimary | apply Hsize].
  - rewrite Hprimary. reflexivity.
Qed.

(** X15.  When [system_profiler] reports no display, the category is a
    matter of the number of monitors alone: every display counts as small,
    so that a lone monitor is [small_single] with the strategy
    [fullscreen_focus], whatever its size; the primary display is the first
    monitor. *)
Theorem category_without_system_info (s : state) (r : proc_result) (e1 e2 : wm)
    (monitors : list Monitor.t) :
  aerospace_cli LIST_MONITORS (ext s) = (r, e1) →
  monitors_listed r = Some monitors →
  _get_system_display_info e1 = ([], e2) →
  ∃ dc,
    get_display_category s = (inr dc, after s e2 [(LIST_MONITORS, r)])
    ∧ DisplayCategory.category dc
      = match monitors with
        | [] => "unknown"
        | [_] => "small_single"
        | [_; _] => "dual_display"
        | _ => "triple_plus"
        end
    ∧ DisplayCategory.recommended_strategy dc
      = match monitors with
        | [] | [_] => "fullscreen_focus"
        | [_; _] => "primary_focus_secondary_reference"
        | _ => "dedicated_monitors"
        end
    ∧ DisplayCategory.primary_size dc
      = match monitors with [] => "medium" | _ => "small" end
    ∧ DisplayCategory.secondary_sizes dc = replicate (length monitors - 1) "small".
Proof.
  intros Hcli Hlisted Hsys.
  unfold get_display_category, get_display_info. rewrite !bind_run.
  rewrite (list_monitors_run s r e1 monitors Hcli Hlisted).
  cbv beta iota. rewrite !bind_run.
  unfold system_display_info. cbn [ext after]. rewrite Hsys. cbv beta iota zeta.
  set (displays := imap (λ i monitor, merge_display i monitor []) monitors).
  assert (Hcategory : (_calculate_display_category displays).1
                      = match monitors with
                        | [] => "unknown"
                        | [_] => "small_single"
                        | [_; _] => "dual_display"
                        | _ => "triple_plus"
                        end).
  { subst displays. destruct monitors as [| m1 [| m2 [| m3 rest]]]; cbn [imap].
    - reflexivity.
    - apply bare_single.
    - reflexivity.
    - apply many_displays_unfold. }
  destruct (_calculate_display_category displays) as [category description] eqn:Hpair.
  cbn [fst] in Hcategory. subst category.
  cbn [mret M_ret DisplayInfo.displays]. rewrite Hpair.
  match goal with
  | |- context [match displays with [] => ?a | first :: rest => @?b first rest end] =>
      destruct (match displays with [] => a | first :: rest => b first rest end)
        as [psize ssizes] eqn:Hsizes
  end.
  eexists. split; [reflexivity |].
  cbn [DisplayCategory.category DisplayCategory.recommended_strategy
       DisplayCategory.primary_size DisplayCategory.secondary_sizes].
  split; [reflexivity |]. split.
  { destruct monitors as [| m1 [| m2 [| m3 rest]]]; reflexivity. }
  subst displays. destruct monitors as [| m1 rest];
    [injection Hsizes as <- <-; split; reflexivity |].
  cbn [imap] in Hsizes. injection Hsizes as <- <-. split.
  - apply bare_size.
  - rewrite filter_cons_False.
    + cbn [length]. rewrite Nat.sub_succ, Nat.sub_0_r. apply all_secondary.
      * intros i a. unfold compose. rewrite bare_primary.
        rewrite bool_decide_eq_false_2 by discriminate. reflexivity.
      * intros i a. apply bare_size.
    + rewrite bare_primary, bool_decide_eq_true_2 by reflexivity. discriminate.
Qed.

End BareDisplays.

Section DeskRunsD.
#[local] Existing Instance Desk.world.
#[local] Existing Instance Desk.arith.

(** The built-in display of a laptop, alone and unknown to
    [system_profiler]. *)
Lemma category_without_system_info_witness :
  ∃ dc,
    get_display_category (Desk.start "[firefox]" "[firefox]" "[builtin]" false None)
    = (inr dc,
       after (Desk.start "[firefox]" "[firefox]" "[builtin]" false None)
         (ext (Desk.start "[firefox]" "[firefox]" "[builtin]" false None))
         [(LIST_MONITORS, Exited "[builtin]" "" 0)])
    ∧ DisplayCategory.category dc = "small_single"
    ∧ DisplayCategory.recommended_strategy dc = "fullscreen_focus"
    ∧ DisplayCategory.primary_size dc = "small"
    ∧ DisplayCategory.secondary_sizes dc = [].
Proof.
  apply (category_without_system_info
           (Desk.start "[firefox]" "[firefox]" "[builtin]" false None)
           (Exited "[builtin]" "" 0)
           (ext (Desk.start "[firefox]" "[firefox]" "[builtin]" false None))
           (ext (Desk.start "[firefox]" "[firefox]" "[builtin]" false None))
           [Desk.builtin]);
    reflexivity.
Defined.

End DeskRunsD.

(** ** Applying a layout and moving a category *)

Section LayoutFacts.
Context `{World} `{Binary64} `{Workspaces}.

Lemma load_applies_nothing (name : string) (adapt_to_displays : bool) :
  returns (λ r, Py.get "preset_applied" r = None)
    (load_focus_preset name adapt_to_displays).
Proof. unfold load_focus_preset. to_returns. Qed.

(** X16.  When [apply_focus_preset] applies a layout itself (no preset
    file of the name exists, the response says [preset_applied]), the last
    thing it does is to focus the focus window again, and that call
    succeeds: the focus ends on the window the response names, also after
    reference or communication windows were focused to be moved. *)
Theorem apply_ends_on_focus_window (preset : string) (focus_window_id : option Z)
    (reference_apps : option (list string)) (hide_communication : bool)
    (s s' : state) (r : Py.pydict) :
  apply_focus_preset preset focus_window_id reference_apps hide_communication s
  = (inr r, s') →
  is_Some (Py.get "preset_applied" r) →
  ∃ (id : option Z) (before : list call) (refocus : proc_result)
    (arrangement : string) (moved hidden : list Py.pyval),
    calls s' = before ++ [(["aerospace"; "focus"; "--window-id"; Py.str_int id], refocus)]
    ∧ succeeded refocus = true
    ∧ (∀ i, focus_window_id = Some i → id = Some i)
    ∧ Py.get "layout" r
      = Some (Py.VDict
                [("focus_window",
                  Py.VDict [("window_id", Py.opt_int id);
                            ("monitor", Py.VInt 1);
                            ("arrangement", Py.VStr arrangement)]);
                 ("reference_windows", Py.VList moved);
                 ("hidden_windows", Py.VList hidden)]).
Proof.
  intros Hrun Happlied. unfold apply_focus_preset in Hrun.
  apply bind_ok_inv in Hrun as (dc & s1 & _ & Hrun). cbv zeta in Hrun.
  apply bind_ok_inv in Hrun as (saved & s2 & _ & Hrun).
  destruct (bool_decide (is_Some saved)).
  { rewrite (load_applies_nothing _ _ _ _ _ Hrun) in Happlied.
    destruct Happlied as [v Hv]. discriminate Hv. }
  apply bind_ok_inv in Hrun as (id & s3 & Hid & Hrun).
  apply bind_ok_inv in Hrun as (all_windows & s4 & _ & Hrun).
  apply bind_ok_inv in Hrun as (monitors & s5 & _ & Hrun).
  apply bind_ok_inv in Hrun as ([] & s6 & _ & Hrun).
  apply bind_ok_inv in Hrun as ([arrangement moved] & s7 & _ & Hrun).
  apply bind_ok_inv in Hrun as (hidden & s8 & _ & Hrun).
  apply bind_ok_inv in Hrun as ([] & s9 & Hfocus & Hret).
  injection Hret as <- <-.
  rewrite focus_window_id_cmd_eq in Hfocus.
  apply command_ok_inv in Hfocus as (refocus & Hok & Hcalls).
  exists id, (calls s8), refocus, arrangement, moved, hidden.
  split; [exact Hcalls |]. split; [exact Hok |]. split; [| reflexivity].
  intros i ->. apply bind_ok_inv in Hid as ([w |] & s3' & _ & Hid).
  - injection Hid as <- _. reflexivity.
  - unfold raise_window_not_found in Hid.
    apply bind_ok_inv in Hid as (available & s3'' & _ & Hid). discriminate Hid.
Qed.

Lemma try_except_inv {A} (body : M A) (old a : A) (s s' : state) :
  try_except body old s = (inr a, s') →
  body s = (inr a, s')
  ∨ (a = old ∧ ∃ code message details,
                 body s = (inl (AeroSpaceError code message details), s')).
Proof.
  unfold try_except. destruct (body s) as [[[code message details |] | a'] s1].
  - intros [= <- <-]. right. split; [reflexivity | eauto].
  - discriminate.
  - intros Heq. left. exact Heq.
Qed.

Lemma move_loop (category_apps : list string) (target_monitor : string)
    (xs : list Window.t) (acc moved : list (option Z * string)) (s s' : state) :
  for_each xs (move_window_of_category category_apps target_monitor) acc s
  = (inr moved, s') →
  ∃ new,
    moved = acc ++ ((λ w, (Window.window_id w, default "" (Window.app_name w))) <$> new)
    ∧ sublist new (filter (of_category category_apps) xs).
Proof.
  revert acc s. induction xs as [| x xs IH]; intros acc s Hrun; cbn [for_each] in Hrun.
  - injection Hrun as <- _. exists []. rewrite app_nil_r. split; [reflexivity | constructor].
  - apply bind_ok_inv in Hrun as (acc' & s1 & Hbody & Hrest).
    apply IH in Hrest as (new & -> & Hsub).
    unfold move_window_of_category in Hbody.
    destruct (in_apps (default "" (Window.app_name x)) category_apps) eqn:Hin.
    + rewrite filter_cons_True by exact Hin.
      apply try_except_inv in Hbody as [Hbody | [-> _]].
      * apply bind_ok_inv in Hbody as ([] & s2 & _ & Hbody).
        apply bind_ok_inv in Hbody as ([] & s3 & _ & Hbody).
        injection Hbody as <- _. exists (x :: new). rewrite <- app_assoc.
        split; [reflexivity | apply sublist_skip, Hsub].
      * exists new. split; [reflexivity | apply sublist_cons, Hsub].
    + rewrite filter_cons_False by (unfold of_category; rewrite Hin; discriminate).
      injection Hbody as <- _. exists new. split; [reflexivity | exact Hsub].
Qed.

(** X17.  The windows that [move_app_category_to_monitor] reports as
    moved are windows of the listing it took, in the order of the listing,
    and each belongs to the category by the test of [_get_app_category]; a
    window whose move failed is left out, and no other window is
    reported. *)
Theorem category_move_reports (category monitor layout : string) (s s' : state)
    (r : Py.pydict) :
  move_app_category_to_monitor category monitor layout s = (inr r, s') →
  ∃ (category_apps : list string) (live moved : list Window.t) (listing : proc_result)
    (before later : list call),
    Py.get category APP_CATEGORIES = Some category_apps
    ∧ calls s' = before ++ (LIST_ALL, listing) :: later
    ∧ listed listing = Some live
    ∧ sublist moved (filter (of_category category_apps) live)
    ∧ Py.get "windows_moved" r = Some (Py.VList (moved_entry <$> moved)).
Proof.
  intros Hrun. unfold move_app_category_to_monitor in Hrun.
  destruct (Py.get category APP_CATEGORIES) as [category_apps |]; [| discriminate].
  destruct (negb (Py.mem layout _)); [discriminate |].
  apply bind_ok_inv in Hrun as ([| m monitors] & s1 & _ & Hrun); [discriminate |].
  destruct (negb (Py.truthy _)); [discriminate |]. cbv zeta in Hrun.
  apply bind_ok_inv in Hrun as (live & s2 & Hlist & Hrun).
  apply bind_ok_inv in Hrun as (pairs & s3 & Hloop & Hrun).
  apply bind_ok_inv in Hrun as ([] & s4 & Hlayout & Hret).
  injection Hret as <- <-.
  apply list_windows_listed in Hlist as (listing & Hcalls2 & Hlisted).
  apply move_loop in Hloop as Hmoved. destruct Hmoved as (moved & -> & Hsub).
  assert (Hgrow3 : ∃ cs, calls s3 = calls s2 ++ cs).
  { assert (Hloop' : always (more_calls (λ _, True))
                       (for_each live
                          (move_window_of_category category_apps
                             (default "" (target_monitor_of monitor (m :: monitors))))
                          []))
      by walk ltac:(apply more_calls_run; intros; exact I).
    destruct (Hloop' s2) as (cs & Hcs & _). rewrite Hloop in Hcs. eauto. }
  assert (Hgrow4 : ∃ cs, calls s4 = calls s3 ++ cs).
  { destruct ([] ++ _) as [| [first_id first_name] rest] eqn:Hpairs in Hlayout.
    - injection Hlayout as <-. exists []. rewrite app_nil_r. reflexivity.
    - assert (Hlayout' : always (more_calls (λ _, True))
                           (try_except
                              (focus_window_id_cmd first_id;;
                               command ["layout";
                                        default "h_tiles" (Py.get layout layout_map)])
                              ()))
        by walk ltac:(apply more_calls_run; intros; exact I).
      destruct (Hlayout' s3) as (cs & Hcs & _). rewrite Hlayout in Hcs. eauto. }
  destruct Hgrow3 as (cs3 & Hcs3). destruct Hgrow4 as (cs4 & Hcs4).
  exists category_apps, live, moved, listing, (calls s1), (cs3 ++ cs4).
  split; [reflexivity |]. split.
  { rewrite Hcs4, Hcs3, Hcalls2, <- !app_assoc. reflexivity. }
  split; [exact Hlisted |]. split; [exact Hsub |].
  cbn [Py.get String.eqb Ascii.eqb Bool.eqb app]. rewrite <- list_fmap_compose.
  reflexivity.
Qed.

End LayoutFacts.

Section DeskRunsE.
#[local] Existing Instance Desk.world.
#[local] Existing Instance Desk.arith.
#[local] Existing Instance desk_workspaces.

(** A request that is not a save, on a desk with one preset stored. *)
Lemma only_save_writes_presets_witness :
  preset_dir
    (serve "no JSON" (CloseWindow (Some 1234))
       (Desk.start "[firefox]" "[firefox]" "[builtin]" false
          (Some {[ "work" := Desk.work ]}))).2
  = Some {[ "work" := Desk.work ]}.
Proof.
  apply (only_save_writes_presets "no JSON" (CloseWindow (Some 1234))
           (Desk.start "[firefox]" "[firefox]" "[builtin]" false
              (Some {[ "work" := Desk.work ]}))).
  intros name description. discriminate.
Defined.

(** A lone laptop display with no preset file: the layout applied is
    [small_single_focus], and the focus ends on the Firefox window. *)
Lemma apply_ends_on_focus_window_witness :
  ∃ r s' id before refocus,
    apply_focus_preset "auto" None None false
      (Desk.start "[firefox, terminal, code]" "[firefox]" "[builtin]" false None)
    = (inr r, s')
    ∧ is_Some (Py.get "preset_applied" r)
    ∧ calls s' = before ++ [(["aerospace"; "focus"; "--window-id"; Py.str_int id], refocus)]
    ∧ succeeded refocus = true.
Proof.
  destruct (apply_focus_preset "auto" None None false
              (Desk.start "[firefox, terminal, code]" "[firefox]" "[builtin]" false None))
    as [[e | r] s'] eqn:Hrun; [vm_compute in Hrun; discriminate Hrun |].
  assert (Happlied : is_Some (Py.get "preset_applied" r)).
  { pose proof Hrun as Hknown. vm_compute in Hknown. injection Hknown as <- _.
    eexists. reflexivity. }
  destruct (apply_ends_on_focus_window "auto" None None false _ s' r Hrun Happlied)
    as (id & before & refocus & arrangement & moved & hidden & Hcalls & Hok & _).
  exists r, s', id, before, refocus. repeat apply conj; [reflexivity | | |]; assumption.
Defined.

(** The two communication windows of five, moved to the second monitor. *)
Lemma category_move_reports_witness :
  ∃ r s' moved,
    move_app_category_to_monitor "communication" "secondary" "tiled"
      (Desk.start "[firefox, terminal, code, slack, airmail]" "[firefox]"
         "[builtin, dell]" false None)
    = (inr r, s')
    ∧ Py.get "windows_moved" r = Some (Py.VList (moved_entry <$> moved)).
Proof.
  destruct (move_app_category_to_monitor "communication" "secondary" "tiled"
              (Desk.start "[firefox, terminal, code, slack, airmail]" "[firefox]"
                 "[builtin, dell]" false None))
    as [[e | r] s'] eqn:Hrun; [vm_compute in Hrun; discriminate Hrun |].
  destruct (category_move_reports "communication" "secondary" "tiled" _ s' r Hrun)
    as (category_apps & live & moved & listing & before & later & _ & _ & _ & _ & Hmoved).
  exists r, s', moved. split; [reflexivity | exact Hmoved].
Defined.

End DeskRunsE.

(** ** The errors of the server *)

Section ErrorFacts.
Context `{World} `{Binary64} `{Workspaces}.
Variable json_error_text : string.

Lemma raises_ret {A} (Q : exn → Prop) (a : A) : raises Q (mret a).
Proof. intros s e s' Hrun. discriminate Hrun. Qed.

Lemma raises_raise {A} (Q : exn → Prop) (e : exn) : Q e → raises Q (raise e : M A).
Proof. intros He s e' s' [= <- _]. exact He. Qed.

Lemma raises_bind {A B} (Q : exn → Prop) (m : M A) (k : A → M B) :
  raises Q m → (∀ a, raises Q (k a)) → raises Q (m ≫= k).
Proof.
  intros Hm Hk s e s' Hrun. rewrite bind_run in Hrun.
  destruct (m s) as [[e1 | a] s1] eqn:Hms.
  - injection Hrun as <- _. exact (Hm s e1 s1 Hms).
  - exact (Hk a s1 e s' Hrun).
Qed.

Lemma raises_try {A} (Q : exn → Prop) (body : M A) (old : A) :
  raises Q body → raises Q (try_except body old).
Proof.
  intros Hbody s e s' Hrun. unfold try_except in Hrun.
  destruct (body s) as [[[c m d |] | a] s1] eqn:Hs; try discriminate Hrun.
  injection Hrun as <- _. exact (Hbody s _ s1 Hs).
Qed.

Lemma raises_for_each {A B} (Q : exn → Prop) (xs : list A) (body : B → A → M B)
    (acc : B) :
  (∀ acc x, raises Q (body acc x)) → raises Q (for_each xs body acc).
Proof.
  intros Hbody. revert acc. induction xs as [| x xs IH]; intros acc; cbn [for_each].
  - apply raises_ret.
  - apply raises_bind; [apply Hbody | intros acc'; apply IH].
Qed.

Lemma raises_run (args : list string) (json_output check : bool) :
  raises known_error (run_aerospace_command args json_output check).
Proof.
  intros s e s' Hrun. unfold run_aerospace_command in Hrun.
  destruct (aerospace_cli _ (ext s)) as [[out err rc |] e1].
  - destruct (check && negb (rc =? 0)); [| discriminate Hrun].
    destruct (negb _ && (rc =? 127)); injection Hrun as <- _; cbn [known_error]; among.
  - injection Hrun as <- _. cbn [known_error]. among.
Qed.

Lemma raises_loads {A} (decode : string → option A) (stdout : string) :
  raises known_error (loads decode stdout).
Proof.
  unfold loads. destruct (decode stdout); [apply raises_ret | apply raises_raise; exact I].
Qed.

Lemma raises_never {A} (Q : exn → Prop) (m : M A) :
  (∀ s, ∃ a s', m s = (inr a, s')) → raises Q m.
Proof. intros Hm s e s' Hrun. destruct (Hm s) as (a & s1 & Hs). congruence. Qed.

Lemma raises_get_display_category : raises known_error get_display_category.
Proof.
  unfold get_display_category, get_display_info.
  apply raises_bind.
  - apply raises_bind.
    + unfold list_monitors. apply raises_bind; [apply raises_run |].
      intros [[stdout stderr] rc].
      destruct (Py.truthy (Some stdout)); [apply raises_loads | apply raises_ret].
    + intros monitors. apply raises_bind.
      * apply raises_never. intros s. unfold system_display_info.
        destruct (_get_system_display_info (ext s)). eauto.
      * intros system_displays. cbv zeta.
        destruct (Display._calculate_display_category _). apply raises_ret.
  - intros display_info. cbv zeta.
    destruct (Display._calculate_display_category _).
    destruct (DisplayInfo.displays display_info); apply raises_ret.
Qed.

(** Follows a tool to each place where it can raise. *)
Ltac to_raises :=
  repeat first
    [ match goal with |- ∀ _, _ => intro end
    | progress unfold
        focus_window, move_window, target_window, resize_window, close_window,
        fullscreen_toggle, minimize_window, focused_response, validate_direction,
        validate_layout, set_layout, split_window, flatten_workspace, balance_sizes,
        focus_workspace, workspace_windows, list_workspaces, get_focused_workspace,
        list_windows, list_monitors, get_focused_window, get_window_by_id,
        raise_window_not_found, raise_no_window_focused, command, focus_window_id_cmd,
        load_focus_preset, arrange_entry, save_focus_preset, apply_focus_preset,
        apply_layout, move_reference, hide_window, move_app_category_to_monitor,
        move_window_of_category
    | progress cbv zeta
    | apply raises_ret
    | apply raises_raise; cbn [known_error]; among
    | apply raises_loads
    | apply raises_run
    | apply raises_get_display_category
    | apply raises_never; intros ?; eexists _, _; reflexivity
    | apply raises_never; intros ?; unfold now; destruct (utcnow_isoformat _); eauto
    | apply raises_try
    | apply raises_for_each
    | match goal with
      | |- raises _ (match ?x with _ => _ end) => destruct x
      end
    | apply raises_bind ].

(** X19.  The errors the server answers with: whatever the request and
    whatever the machine does, a response that reports [success=False] is
    the dictionary of an error whose code is one of the eleven codes that
    the tools raise, or [UNKNOWN_ERROR]. *)
Theorem serve_error_codes (r : request) (s : state) :
  Py.get "success" (serve json_error_text r s).1 = Some (Py.VBool false) →
  ∃ code message details,
    (serve json_error_text r s).1 = to_dict code message details
    ∧ code ∈ "UNKNOWN_ERROR" :: ERROR_CODES.
Proof.
  assert (Htool : ∀ body : M Py.pydict,
            returns (λ response, Py.get "success" response ≠ Some (Py.VBool false)) body →
            raises known_error body →
            Py.get "success" (tool json_error_text body s).1 = Some (Py.VBool false) →
            ∃ code message details,
              (tool json_error_text body s).1 = to_dict code message details
              ∧ code ∈ "UNKNOWN_ERROR" :: ERROR_CODES).
  { intros body Hreturns Hraises. unfold tool.
    specialize (Hreturns s). specialize (Hraises s).
    destruct (body s) as [[e | response] s']; cbn [fst].
    - intros _. specialize (Hraises e s' eq_refl).
      destruct e as [code message details |]; cbn [handle_error known_error] in *.
      + eexists _, _, _. split; [reflexivity |]. apply list_elem_of_further, Hraises.
      + eexists _, _, _. split; [reflexivity |]. apply list_elem_of_here.
    - intros Hfalse. destruct (Hreturns response s' eq_refl Hfalse). }
  destruct r; cbn [serve]; (apply Htool; [to_returns | to_raises]).
Qed.

End ErrorFacts.

Section DeskRunsF.
#[local] Existing Instance Desk.world.
#[local] Existing Instance Desk.arith.
#[local] Existing Instance desk_workspaces.

Lemma serve_error_codes_witness :
  ∃ code message details,
    (serve "no JSON" (SplitWindow "diagonal")
       (Desk.start "[firefox]" "[firefox]" "[builtin]" false None)).1
    = to_dict code message details
    ∧ code ∈ "UNKNOWN_ERROR" :: ERROR_CODES.
Proof.
  apply (serve_error_codes "no JSON" (SplitWindow "diagonal")
           (Desk.start "[firefox]" "[firefox]" "[builtin]" false None)).
  reflexivity.
Defined.

End DeskRunsF.

(** ** Layouts and workspaces *)

Section WorkspaceFacts.
Context `{World} `{Binary64} `{Workspaces}.
Variable json_error_text : string.

Lemma ret_bind {A B} (a : A) (k : A → M B) (s : state) : (mret a ≫= k) s = k a s.
Proof. reflexivity. Qed.

Lemma run_fails (args : list string) (json_output : bool) (s : state)
    (out err : string) (rc : Z) (e : wm) :
  aerospace_cli ("aerospace" :: args ++ (if json_output then ["--json"] else [])) (ext s)
  = (Exited out err rc, e) →
  rc ≠ 0 → rc ≠ 127 →
  run_aerospace_command args json_output true s
  = (inl (AeroSpaceError ERROR_COMMAND_FAILED
            ("AeroSpace command failed: "
             +:+ (if Py.truthy (Some err) then err else out))
            [("command",
              Py.VList
                (Py.VStr
                   <$> "aerospace" :: args ++ (if json_output then ["--json"] else [])));
             ("return_code", Py.VInt rc);
             ("stderr", Py.VStr err)]),
     after s e [("aerospace" :: args ++ (if json_output then ["--json"] else []),
                 Exited out err rc)]).
Proof.
  intros Hcli Hrc H127. unfold run_aerospace_command. rewrite Hcli.
  apply Z.eqb_neq in Hrc. apply Z.eqb_neq in H127.
  rewrite Hrc, H127, andb_false_r. reflexivity.
Qed.

Lemma get_focused_workspace_run (s : state) (out err : string) (e : wm)
    (workspaces : list Workspace.t) :
  aerospace_cli ["aerospace"; "list-workspaces"; "--focused"; "--json"] (ext s)
  = (Exited out err 0, e) →
  out ≠ "" →
  json_workspaces out = Some workspaces →
  get_focused_workspace s
  = (inr (head workspaces),
     after s e [(["aerospace"; "list-workspaces"; "--focused"; "--json"],
                 Exited out err 0)]).
Proof.
  intros Hcli Hout Hjson. unfold get_focused_workspace. rewrite bind_run.
  rewrite (run_returns ["list-workspaces"; "--focused"] true false s out err 0 e);
    [| exact Hcli | left; reflexivity].
  cbv beta iota. destruct out as [| c out]; [contradiction |].
  cbn [Z.eqb negb orb Py.truthy]. rewrite bind_run. unfold loads. rewrite Hjson.
  reflexivity.
Qed.

Lemma list_windows_of_workspace (name : string) :
  name ≠ "" →
  list_windows (Some name) None true
  = ('(stdout, _, _) ←
       run_aerospace_command ["list-windows"; "--all"; "--workspace"; name] true true;
     if Py.truthy (Some stdout) then loads json_windows stdout else mret []).
Proof. intros Hname. destruct name; [contradiction | reflexivity]. Qed.

(** X20.  [set_layout] is not one step: it sets the layout and then
    lists the windows of the focused workspace, with a listing that asks
    for [--all] windows and for the [--workspace] at once.  When the
    command line turns that listing down, the request is answered
    [COMMAND_FAILED], although the layout has been set by then. *)
Theorem set_layout_fails_after_effect (layout name : string) (s : state)
    (set : proc_result) (out err out' err' : string) (rc : Z) (e1 e2 e3 : wm)
    (focused : Workspace.t) (others : list Workspace.t) :
  Py.mem layout VALID_LAYOUTS = true →
  aerospace_cli ["aerospace"; "layout"; layout] (ext s) = (set, e1) →
  succeeded set = true →
  aerospace_cli ["aerospace"; "list-workspaces"; "--focused"; "--json"] e1
  = (Exited out err 0, e2) →
  out ≠ "" →
  json_workspaces out = Some (focused :: others) →
  Workspace.workspace focused = Some name → name ≠ "" →
  aerospace_cli ["aerospace"; "list-windows"; "--all"; "--workspace"; name; "--json"] e2
  = (Exited out' err' rc, e3) →
  rc ≠ 0 → rc ≠ 127 →
  serve json_error_text (SetLayout layout) s
  = (to_dict ERROR_COMMAND_FAILED
       ("AeroSpace command failed: " +:+ (if Py.truthy (Some err') then err' else out'))
       [("command",
         Py.VList
           (Py.VStr
              <$> ["aerospace"; "list-windows"; "--all"; "--workspace"; name; "--json"]));
        ("return_code", Py.VInt rc);
        ("stderr", Py.VStr err')],
     after s e3
       [(["aerospace"; "layout"; layout], set);
        (["aerospace"; "list-workspaces"; "--focused"; "--json"], Exited out err 0);
        (["aerospace"; "list-windows"; "--all"; "--workspace"; name; "--json"],
         Exited out' err' rc)]).
Proof.
  intros Hvalid Hset Hok Hfocused Hout Hjson Hname Hnonempty Hlist Hrc H127.
  pose proof (command_run ["layout"; layout] s set e1 Hset Hok) as Hlayout.
  pose proof (get_focused_workspace_run (after s e1 [(["aerospace"; "layout"; layout], set)])
                out err e2 (focused :: others) Hfocused Hout Hjson) as Hws.
  rewrite after_after in Hws.
  cbn [serve]. unfold tool, set_layout, validate_layout. rewrite Hvalid. cbn [negb].
  rewrite ret_bind, bind_run, Hlayout. cbv beta iota.
  rewrite !bind_run, Hws. cbv beta iota. cbn [head].
  unfold workspace_windows, Workspace.truthy. rewrite Hname.
  rewrite (bool_decide_eq_true_2 (is_Some (Some name))) by (eexists; reflexivity).
  cbn [orb]. rewrite (list_windows_of_workspace name Hnonempty).
  rewrite !bind_run.
  rewrite (run_fails _ _ _ out' err' rc e3); [| exact Hlist | exact Hrc | exact H127].
  unfold after. cbn [preset_dir calls]. rewrite <- !app_assoc. reflexivity.
Qed.

End WorkspaceFacts.

Section BenchRuns.
#[local] Existing Instance Bench.world.
#[local] Existing Instance Desk.arith.
#[local] Existing Instance Bench.workspaces.

Lemma set_layout_fails_after_effect_witness :
  serve "no JSON" (SetLayout "h_tiles") Bench.start
  = (to_dict ERROR_COMMAND_FAILED
       "AeroSpace command failed: --all conflicts with --workspace"
       [("command",
         Py.VList
           (Py.VStr
              <$> ["aerospace"; "list-windows"; "--all"; "--workspace"; "dev"; "--json"]));
        ("return_code", Py.VInt 1);
        ("stderr", Py.VStr "--all conflicts with --workspace")],
     after Bench.start tt
       [(["aerospace"; "layout"; "h_tiles"], Exited "" "" 0);
        (["aerospace"; "list-workspaces"; "--focused"; "--json"], Exited "[dev]" "" 0);
        (["aerospace"; "list-windows"; "--all"; "--workspace"; "dev"; "--json"],
         Exited "" "--all conflicts with --workspace" 1)]).
Proof.
  apply (set_layout_fails_after_effect "no JSON" "h_tiles" "dev" Bench.start
           (Exited "" "" 0) "[dev]" "" "" "--all conflicts with --workspace" 1
           tt tt tt Bench.dev []);
    first [reflexivity | discriminate].
Defined.

End BenchRuns.

(** ** The optimal width *)

Section OptimalWidthFacts.
Context `{World} `{Binary64}.
Variable json_error_text : string.

Lemma get_focused_window_run (s : state) (out err : string) (e : wm)
    (windows : list Window.t) :
  aerospace_cli LIST_FOCUSED (ext s) = (Exited out err 0, e) →
  out ≠ "" →
  json_windows out = Some windows →
  get_focused_window s
  = (inr (head windows), after s e [(LIST_FOCUSED, Exited out err 0)]).
Proof.
  intros Hcli Hout Hjson. unfold get_focused_window. rewrite bind_run.
  rewrite (run_returns ["list-windows"; "--focused"] true false s out err 0 e);
    [| exact Hcli | left; reflexivity].
  cbv beta iota. destruct out as [| c out]; [contradiction |].
  cbn [Z.eqb negb orb Py.truthy]. rewrite bind_run. unfold loads. rewrite Hjson.
  reflexivity.
Qed.

(** What [get_display_info] builds when [system_profiler] reports
    nothing: a display of width zero for every monitor. *)
Lemma get_display_info_bare (s : state) (listing : proc_result) (e1 e2 : wm)
    (monitors : list Monitor.t) :
  aerospace_cli LIST_MONITORS (ext s) = (listing, e1) →
  monitors_listed listing = Some monitors →
  _get_system_display_info e1 = ([], e2) →
  ∃ info,
    get_display_info s = (inr info, after s e2 [(LIST_MONITORS, listing)])
    ∧ DisplayInfo.displays info
      = imap (λ i monitor, merge_display i monitor []) monitors.
Proof.
  intros Hcli Hlisted Hsys. unfold get_display_info. rewrite !bind_run.
  rewrite (list_monitors_run s listing e1 monitors Hcli Hlisted).
  cbv beta iota. rewrite !bind_run.
  unfold system_display_info. cbn [ext after]. rewrite Hsys. cbv beta iota zeta.
  destruct (Display._calculate_display_category _) as [category description].
  eexists. split; reflexivity.
Qed.

Lemma bare_width (i : nat) (monitor : Monitor.t) :
  default 1920 (Display.resolution_of (merge_display i monitor []) !! "width") = 0.
Proof. vm_compute. reflexivity. Qed.

(** X21.  [resize_window_optimal] divides by the width of the first
    display.  On a machine where [system_profiler] reports no display that
    width is zero: a request with a valid content type, for the focused
    window, focuses the window and then ends in a [ZeroDivisionError],
    which the server answers as [UNKNOWN_ERROR]; no layout is set and
    nothing is resized. *)
Theorem optimal_width_divides_by_zero (content_type : string)
    (max_width_percent min_width_percent : Z) (s : state) (out err : string)
    (window : Window.t) (windows : list Window.t) (listing focusing : proc_result)
    (monitor : Monitor.t) (monitors : list Monitor.t) (e1 e2 e3 e4 : wm) :
  Py.mem content_type ["code_editor"; "browser"; "terminal"; "document"; "communication"]
  = true →
  aerospace_cli LIST_FOCUSED (ext s) = (Exited out err 0, e1) →
  out ≠ "" →
  json_windows out = Some (window :: windows) →
  aerospace_cli LIST_MONITORS e1 = (listing, e2) →
  monitors_listed listing = Some (monitor :: monitors) →
  _get_system_display_info e2 = ([], e3) →
  aerospace_cli ["aerospace"; "focus"; "--window-id"; Py.str_int (Window.window_id window)]
    e3
  = (focusing, e4) →
  succeeded focusing = true →
  tool_resize_window_optimal json_error_text None content_type max_width_percent
    min_width_percent s
  = (to_dict "UNKNOWN_ERROR" "division by zero" [],
     after s e4
       [(LIST_FOCUSED, Exited out err 0);
        (LIST_MONITORS, listing);
        (["aerospace"; "focus"; "--window-id"; Py.str_int (Window.window_id window)],
         focusing)]).
Proof.
  intros Hvalid Hcli1 Hout Hjson Hcli2 Hlisted Hsys Hcli3 Hok.
  pose proof (get_focused_window_run s out err e1 (window :: windows) Hcli1 Hout Hjson)
    as Hfocused.
  destruct (get_display_info_bare (after s e1 [(LIST_FOCUSED, Exited out err 0)])
              listing e2 e3 (monitor :: monitors) Hcli2 Hlisted Hsys)
    as (info & Hinfo & Hdisplays).
  rewrite after_after in Hinfo.
  unfold tool_resize_window_optimal, resize_window_optimal. cbv zeta.
  rewrite Hvalid. cbn [negb].
  rewrite !bind_run, Hfocused. cbn [head]. cbv beta iota.
  rewrite ?bind_run. cbn [mret M_ret]. rewrite ?bind_run. rewrite Hinfo. cbv beta iota.
  rewrite Hdisplays. cbn [imap]. rewrite bare_width.
  rewrite ?bind_run, focus_window_id_cmd_eq.
  rewrite (command_run _ _ focusing e4); [| exact Hcli3 | exact Hok].
  cbv beta iota. rewrite Z.eqb_refl.
  unfold after. cbn [preset_dir calls mret M_ret]. rewrite <- !app_assoc. reflexivity.
Qed.

End OptimalWidthFacts.

Section DeskRunsH.
#[local] Existing Instance Desk.world.
#[local] Existing Instance Desk.arith.

(** A laptop without a display that [system_profiler] knows. *)
Lemma optimal_width_divides_by_zero_witness :
  tool_resize_window_optimal "no JSON" None "code_editor" 80 40
    (Desk.start "[firefox]" "[firefox]" "[builtin]" false None)
  = (to_dict "UNKNOWN_ERROR" "division by zero" [],
     after (Desk.start "[firefox]" "[firefox]" "[builtin]" false None)
       (ext (Desk.start "[firefox]" "[firefox]" "[builtin]" false None))
       [(LIST_FOCUSED, Exited "[firefox]" "" 0);
        (LIST_MONITORS, Exited "[builtin]" "" 0);
        (["aerospace"; "focus"; "--window-id"; "1234"], Exited "" "" 0)]).
Proof.
  apply (optimal_width_divides_by_zero "no JSON" "code_editor" 80 40
           (Desk.start "[firefox]" "[firefox]" "[builtin]" false None)
           "[firefox]" "" Desk.firefox [] (Exited "[builtin]" "" 0) (Exited "" "" 0)
           Desk.builtin []
           (ext (Desk.start "[firefox]" "[firefox]" "[builtin]" false None))
           (ext (Desk.start "[firefox]" "[firefox]" "[builtin]" false None))
           (ext (Desk.start "[firefox]" "[firefox]" "[builtin]" false None))
           (ext (Desk.start "[firefox]" "[firefox]" "[builtin]" false None)));
    first [reflexivity | discriminate].
Defined.

End DeskRunsH.
